(** * KoSpeech: the Speller decoder, the model around it and the feature classes

    A shallow embedding of [Speller.__init__], [Speller.forward_step],
    [Speller.forward] and [Speller.validate_args]
    (kospeech/model/decoder.py), and of the part of torch's tensor
    interface these methods rely on (shapes, [view], [squeeze], indexing,
    boolean masks), followed by the properties of the decoding loop; then
    [ListenAttendSpell] (kospeech/model/las.py), which runs the decoder on
    the outputs of an encoder, and the choice of the feature library in
    [MelSpectrogram] and [MFCC] (kospeech/data/audio/feature.py).

    Conventions.
    - A tensor is its shape together with its elements in row-major order.
    - Python [int]s are [Z]; Python [float]s are kept as the rationals their
      literals denote ([Q]); tensor sizes are [nat].
    - A Python object is its attribute dictionary ([gmap string pyval]).
    - Exceptions, the ambient random sources and the mutable language model
      are threaded through a state-and-exception monad [M]. *)

From Stdlib Require Import ZArith QArith List Lia.
From stdpp Require Import gmap strings list fin_maps.

Local Open Scope string_scope.
Local Open Scope list_scope.
Local Open Scope Z_scope.

(** ** Exceptions and results *)

Inductive exn : Type :=
| ValueError (msg : string)
| AttributeError (name : string)
| TypeError (msg : string)
| RuntimeError (msg : string)
| IndexError (msg : string)
| KeyError (key : string).

Inductive result (A : Type) : Type :=
| Ok (a : A)
| Raise (e : exn).
Arguments Ok {A} a.
Arguments Raise {A} e.

(** ** Tensors *)

Record tensor (A : Type) : Type := Tensor { shape : list nat; flat : list A }.
Arguments Tensor {A} shape flat.
Arguments shape {A} t.
Arguments flat {A} t.

Definition prod_list (s : list nat) : nat := foldr Nat.mul 1%nat s.

Definition numel {A} (t : tensor A) : nat := prod_list (shape t).

Definition ndim {A} (t : tensor A) : nat := length (shape t).

Definition wf_tensor {A} (t : tensor A) : Prop := length (flat t) = numel t.

(** [t.size(i)] *)
Definition size {A} (t : tensor A) (i : nat) : result nat :=
  match shape t !! i with
  | Some n => Ok n
  | None => Raise (IndexError "Dimension out of range")
  end.

(** [t.view(sizes...)]; one entry of [sizes] may be [-1]. *)
Definition view {A} (sizes : list Z) (t : tensor A) : result (tensor A) :=
  if existsb (fun d => d <? -1) sizes then
    Raise (RuntimeError "invalid shape dimension")
  else
    let known := List.filter (fun d => negb (d =? -1)) sizes in
    let p := prod_list (map Z.to_nat known) in
    match List.filter (fun d => d =? -1) sizes with
    | [] =>
        if (p =? numel t)%nat then Ok (Tensor (map Z.to_nat sizes) (flat t))
        else Raise (RuntimeError "shape is invalid for input size")
    | [_] =>
        if (p =? 0)%nat then
          Raise (RuntimeError "shape is invalid or the unspecified dimension is ambiguous")
        else if (numel t mod p =? 0)%nat then
          Ok (Tensor (map (fun d => if d =? -1 then (numel t / p)%nat else Z.to_nat d) sizes)
                     (flat t))
        else Raise (RuntimeError "shape is invalid for input size")
    | _ => Raise (RuntimeError "only one dimension can be inferred")
    end.

(** [t.squeeze(dim)]: the dimension is dropped only when its size is 1. *)
Definition squeeze {A} (dim : nat) (t : tensor A) : result (tensor A) :=
  match shape t !! dim with
  | None => Raise (IndexError "Dimension out of range")
  | Some d =>
      if (d =? 1)%nat then Ok (Tensor (take dim (shape t) ++ drop (S dim) (shape t)) (flat t))
      else Ok t
  end.

(** [t.unsqueeze(dim)] *)
Definition unsqueeze {A} (dim : nat) (t : tensor A) : result (tensor A) :=
  if (dim <=? ndim t)%nat then
    Ok (Tensor (take dim (shape t) ++ 1%nat :: drop dim (shape t)) (flat t))
  else Raise (IndexError "Dimension out of range").

(** [t[:, i]] ([nidx = 2]) and [t[:, i, :]] ([nidx = 3]): an integer index
    on dimension 1, the other [nidx - 1] positions being full slices.  A
    negative index counts from the end. *)
Definition select1 {A} (nidx : nat) (i : Z) (t : tensor A) : result (tensor A) :=
  if (ndim t <? nidx)%nat then Raise (IndexError "too many indices for tensor")
  else
    match shape t with
    | d0 :: d1 :: rest =>
        let j := if i <? 0 then i + Z.of_nat d1 else i in
        if (0 <=? j) && (j <? Z.of_nat d1) then
          let inner := prod_list rest in
          let k := Z.to_nat j in
          Ok (Tensor (d0 :: rest)
                (flat_map (fun b => take inner (drop ((b * d1 + k) * inner) (flat t)))
                          (seq 0 d0)))
        else Raise (IndexError "index is out of bounds for dimension 1")
    | _ => Raise (IndexError "too many indices for tensor")
    end.

(** [t[t != v]]: the selected elements, in row-major order, as a
    one-dimensional tensor. *)
Definition masked_ne (v : Z) (t : tensor Z) : tensor Z :=
  let l := List.filter (fun x => negb (x =? v)) (flat t) in
  Tensor [length l] l.

(** [torch.cat([a, b], dim=1)] *)
Definition cat1 {A} (a b : tensor A) : result (tensor A) :=
  match shape a, shape b with
  | d0 :: n1 :: r1, e0 :: n2 :: r2 =>
      if decide (d0 = e0 ∧ r1 = r2) then
        let inner := prod_list r1 in
        Ok (Tensor (d0 :: (n1 + n2)%nat :: r1)
              (flat_map (fun i => take (n1 * inner) (drop (i * (n1 * inner)) (flat a)) ++
                                  take (n2 * inner) (drop (i * (n2 * inner)) (flat b)))
                        (seq 0 d0)))
      else Raise (RuntimeError "Sizes of tensors must match except in dimension 1")
  | _, _ => Raise (IndexError "Dimension out of range")
  end.

(** [LongTensor([v] * n)] *)
Definition LongTensor_repeat (v : Z) (n : nat) : tensor Z :=
  Tensor [n] (replicate n v).

(** Broadcasting of two shapes, both given innermost dimension first. *)
Fixpoint broadcast_rev (a b : list nat) : option (list nat) :=
  match a, b with
  | [], _ => Some b
  | _, [] => Some a
  | x :: a', y :: b' =>
      match broadcast_rev a' b' with
      | None => None
      | Some r =>
          if (x =? y)%nat then Some (x :: r)
          else if (x =? 1)%nat then Some (y :: r)
          else if (y =? 1)%nat then Some (x :: r)
          else None
      end
  end.

(** Elements of a tensor of shape [src] once expanded to shape [tgt]
    (same rank; a dimension of size 1 is repeated). *)
Fixpoint expand_flat {A} (src tgt : list nat) (l : list A) : list A :=
  match src, tgt with
  | d :: ds, e :: es =>
      if (d =? e)%nat then
        flat_map (fun i => expand_flat ds es (take (prod_list ds) (drop (i * prod_list ds) l)))
                 (seq 0 d)
      else concat (replicate e (expand_flat ds es l))
  | _, _ => l
  end.

Definition pad_shape (n : nat) (s : list nat) : list nat :=
  replicate (n - length s) 1%nat ++ s.

(** [a + b] on float tensors *)
Definition tensor_add (a b : tensor Q) : result (tensor Q) :=
  match broadcast_rev (rev (shape a)) (rev (shape b)) with
  | None => Raise (RuntimeError "The size of tensor a must match the size of tensor b")
  | Some r =>
      let s := rev r in
      Ok (Tensor s
            (zip_with Qplus
               (expand_flat (pad_shape (length s) (shape a)) s (flat a))
               (expand_flat (pad_shape (length s) (shape b)) s (flat b))))
  end.

(** [t * w] for a Python float [w] *)
Definition tensor_mul_scalar (t : tensor Q) (w : Q) : tensor Q :=
  Tensor (shape t) (map (fun x => Qmult x w) (flat t)).

(** Rows along the last dimension. *)
Fixpoint chunks {A} (fuel : nat) (c : nat) (l : list A) : list (list A) :=
  match fuel with
  | O => []
  | S fuel' => take c l :: chunks fuel' c (drop c l)
  end.

(** [t.topk(1)[1]]: for every row along the last dimension the index of a
    largest element; which one among equal elements is left to [argmax]. *)
Definition topk1_indices (argmax : list Q → Z) (t : tensor Q) : result (tensor Z) :=
  match rev (shape t) with
  | [] => Ok (Tensor [] [0])
  | c :: outer_rev =>
      if (c =? 0)%nat then Raise (RuntimeError "selected index k out of range")
      else
        let n := prod_list outer_rev in
        Ok (Tensor (rev outer_rev ++ [1%nat]) (map argmax (chunks n c (flat t))))
  end.

(** ** Python values and objects *)

Inductive module_class : Type :=
| BaseRNN_rnn
| Embedding
| Dropout
| LocationAwareAttention
| MultiHeadAttention
| Linear
| LayerNorm.

Inductive pyval : Type :=
| PInt (z : Z)
| PFloat (q : Q)
| PStr (s : string)
| PBool (b : bool)
| PModule (c : module_class).

(** An object is its attribute dictionary; [self.name = v] is an insert and
    [self.name] a lookup. *)
Abbreviation object := (gmap string pyval).

(** Entries of the diagnostics dictionary returned by [forward]. *)
Inductive diag : Type :=
| DAttn (a : tensor Q)
| DSym (t : tensor Z).

(** The language model collaborator: [forward_step(tokens, None)[0]]. *)
Record LanguageModel : Type := { lm_forward_step : tensor Z → tensor Q }.

(** ** The ambient state

    [py_random] is the stream behind Python's [random.random()] and [drawn]
    the number of samples taken from it; [torch_rng] is torch's own
    generator (dropout); [steps] counts the invocations of [forward_step];
    [lm_training] is the training flag of the language model object. *)
Record World (G : Type) : Type := mkWorld {
  py_random : nat → Q;
  drawn : nat;
  torch_rng : G;
  steps : nat;
  lm_training : bool
}.
Arguments mkWorld {G}.
Arguments py_random {G} w.
Arguments drawn {G} w.
Arguments torch_rng {G} w.
Arguments steps {G} w.
Arguments lm_training {G} w.

(** ** The monad: state and exceptions *)

Definition M (G A : Type) : Type := World G → result A * World G.

Definition ret {G A} (a : A) : M G A := fun w => (Ok a, w).

Definition raise {G A} (e : exn) : M G A := fun w => (Raise e, w).

Definition bind {G A B} (m : M G A) (k : A → M G B) : M G B :=
  fun w => match m w with
           | (Ok a, w') => k a w'
           | (Raise e, w') => (Raise e, w')
           end.

Definition lift {G A} (r : result A) : M G A := fun w => (r, w).

Notation "x <- c1 ;; c2" := (bind c1 (fun x => c2))
  (at level 100, c1 at next level, right associativity).

(** [for i in l: s = body(i, s)] *)
Fixpoint for_each {G S} (l : list nat) (body : nat → S → M G S) (s : S) : M G S :=
  match l with
  | [] => ret s
  | i :: l' => s' <- body i s ;; for_each l' body s'
  end.

(** [for i in range(n)] *)
Definition for_range {G S} (n : nat) (body : nat → S → M G S) (s : S) : M G S :=
  for_each (seq 0 n) body s.

(** [random.random()] *)
Definition random_random {G} : M G Q :=
  fun w => (Ok (py_random w (drawn w)),
            mkWorld (py_random w) (S (drawn w)) (torch_rng w) (steps w) (lm_training w)).

(** [language_model.eval()] *)
Definition lm_eval {G} : M G unit :=
  fun w => (Ok tt, mkWorld (py_random w) (drawn w) (torch_rng w) (steps w) false).

(** Bookkeeping: one more invocation of [forward_step]. *)
Definition count_step {G} : M G unit :=
  fun w => (Ok tt, mkWorld (py_random w) (drawn w) (torch_rng w) (S (steps w)) (lm_training w)).

(** A collaborator that uses torch's generator. *)
Definition with_torch_rng {G A} (f : G → A * G) : M G A :=
  fun w => let '(a, g) := f (torch_rng w) in
           (Ok a, mkWorld (py_random w) (drawn w) g (steps w) (lm_training w)).

(** Attribute access. *)
Definition getattr {G} (self : object) (name : string) : M G pyval :=
  match self !! name with
  | Some v => ret v
  | None => raise (AttributeError name)
  end.

Definition get_int {G} (self : object) (name : string) : M G Z :=
  v <- getattr self name ;;
  match v with PInt z => ret z | _ => raise (TypeError name) end.

Definition get_float {G} (self : object) (name : string) : M G Q :=
  v <- getattr self name ;;
  match v with
  | PFloat q => ret q
  | PInt z => ret (inject_Z z)
  | _ => raise (TypeError name)
  end.

Definition get_str {G} (self : object) (name : string) : M G string :=
  v <- getattr self name ;;
  match v with PStr s => ret s | _ => raise (TypeError name) end.

Definition get_bool {G} (self : object) (name : string) : M G bool :=
  v <- getattr self name ;;
  match v with PBool b => ret b | _ => raise (TypeError name) end.

Definition get_module {G} (self : object) (name : string) : M G module_class :=
  v <- getattr self name ;;
  match v with PModule c => ret c | _ => raise (TypeError name) end.

(** [d[key].append(x)] *)
Definition dict_append {G} (d : gmap string (list diag)) (key : string) (x : diag)
  : M G (gmap string (list diag)) :=
  match d !! key with
  | Some l => ret (<[key := l ++ [x]]> d)
  | None => raise (KeyError key)
  end.

Definition Qlt_bool (x y : Q) : bool := negb (Qle_bool y x).

(** ** Collaborators

    The modules this file imports from the rest of the package and from
    torch: their constructors, which may raise, and their forward
    computations. *)

Record Constructors : Type := {
  (** [BaseRNN.__init__(input_size, hidden_dim, num_layers, rnn_type,
      dropout_p, bidirectional, device)]: the attributes the base class
      leaves on the object. *)
  BaseRNN_init : Z → Z → Z → string → Q → bool → string → result object;
  nn_Embedding : Z → Z → result unit;
  nn_Dropout : Q → result unit;
  new_LocationAwareAttention : Z → bool → result unit;
  new_MultiHeadAttention : Z → Z → result unit;
  new_Linear : Z → Z → bool → result unit;
  new_LayerNorm : Z → result unit
}.

Record Layers (H G : Type) : Type := {
  (** the lookup on token ids in [0, num_classes); on any other id
      [nn.Embedding] raises IndexError, which a total function does not
      show: see [in_vocabulary] *)
  embedding_forward : tensor Z → tensor Q;
  (** the flag is the module's training mode *)
  input_dropout_forward : bool → tensor Q → G → tensor Q * G;
  rnn_forward : bool → tensor Q → option H → G → (tensor Q * H) * G;
  (** [(query, key, previous alignment)] *)
  LocationAwareAttention_forward : tensor Q → tensor Q → option (tensor Q) → tensor Q * tensor Q;
  (** [(query, key, value)] *)
  MultiHeadAttention_forward : tensor Q → tensor Q → option (tensor Q) → tensor Q * tensor Q;
  linear1_forward : tensor Q → tensor Q;
  layer_norm_forward : tensor Q → tensor Q;
  linear2_forward : tensor Q → tensor Q;
  (** [F.log_softmax(x, dim=1)] *)
  log_softmax1 : tensor Q → tensor Q;
  (** the index [topk(1)] picks in one row *)
  argmax : list Q → Z
}.
Arguments embedding_forward {H G} l.
Arguments input_dropout_forward {H G} l.
Arguments rnn_forward {H G} l.
Arguments LocationAwareAttention_forward {H G} l.
Arguments MultiHeadAttention_forward {H G} l.
Arguments linear1_forward {H G} l.
Arguments layer_norm_forward {H G} l.
Arguments linear2_forward {H G} l.
Arguments log_softmax1 {H G} l.
Arguments argmax {H G} l.

(** ** class Speller *)

Module Speller.

Definition KEY_ATTENTION_SCORE : string := "attention_score".
Definition KEY_SEQUENCE_SYMBOL : string := "sequence_symbol".

(** Local variables of the free-running loop of [forward]. *)
Record loop_state (H : Type) : Type := LoopState {
  input_var : tensor Z;
  hidden : option H;
  attn : option (tensor Q);
  prev_tokens : option (tensor Z);
  decoder_outputs : list (tensor Q);
  ret_dict : gmap string (list diag)
}.
Arguments LoopState {H}.
Arguments input_var {H} _.
Arguments hidden {H} _.
Arguments attn {H} _.
Arguments prev_tokens {H} _.
Arguments decoder_outputs {H} _.
Arguments ret_dict {H} _.

Section Methods.
Context {H G : Type}.
Variable C : Constructors.
Variable N : Layers H G.

(** [Speller.__init__] *)
Definition __init__ (num_classes max_length hidden_dim sos_id eos_id : Z)
    (attn_mechanism : string) (num_heads num_layers : Z) (rnn_type : string)
    (dropout_p : Q) (device : string) : result object :=
  match BaseRNN_init C hidden_dim hidden_dim num_layers rnn_type dropout_p false device with
  | Raise e => Raise e
  | Ok self =>
  let self := <["num_classes" := PInt num_classes]> self in
  let self := <["num_heads" := PInt num_heads]> self in
  let self := <["max_length" := PInt max_length]> self in
  let self := <["eos_id" := PInt eos_id]> self in
  let self := <["sos_id" := PInt sos_id]> self in
  let self := <["acoutsic_weight" := PFloat (9 # 10)]> self in
  let self := <["language_weight" := PFloat (1 # 10)]> self in
  let self := <["attn_mechanism" := PStr attn_mechanism]> self in
  match nn_Embedding C num_classes hidden_dim with
  | Raise e => Raise e
  | Ok _ =>
  let self := <["embedding" := PModule Embedding]> self in
  match nn_Dropout C dropout_p with
  | Raise e => Raise e
  | Ok _ =>
  let self := <["input_dropout" := PModule Dropout]> self in
  match
    (if String.eqb attn_mechanism "loc" then
       match new_LocationAwareAttention C hidden_dim true with
       | Raise e => Raise e
       | Ok _ => Ok (<["attention" := PModule LocationAwareAttention]> self)
       end
     else if String.eqb attn_mechanism "dot" then
       match new_MultiHeadAttention C hidden_dim num_heads with
       | Raise e => Raise e
       | Ok _ => Ok (<["attention" := PModule MultiHeadAttention]> self)
       end
     else Raise (ValueError "Unsupported attention: %s"))
  with
  | Raise e => Raise e
  | Ok self =>
  match new_Linear C (Z.shiftl hidden_dim 1) hidden_dim true with
  | Raise e => Raise e
  | Ok _ =>
  let self := <["linear1" := PModule Linear]> self in
  match new_LayerNorm C hidden_dim with
  | Raise e => Raise e
  | Ok _ =>
  let self := <["layer_norm" := PModule LayerNorm]> self in
  match new_Linear C hidden_dim num_classes true with
  | Raise e => Raise e
  | Ok _ => Ok (<["linear2" := PModule Linear]> self)
  end end end end end end end.

(** [nn.Module.train(mode)] on the decoder. *)
Definition train (mode : bool) (self : object) : object :=
  <["training" := PBool mode]> self.

(** [self.attention(query, key, third)] *)
Definition call_attention (self : object) (query key : tensor Q) (third : option (tensor Q))
  : M G (tensor Q * tensor Q) :=
  c <- get_module self "attention" ;;
  match c with
  | LocationAwareAttention => ret (LocationAwareAttention_forward N query key third)
  | MultiHeadAttention => ret (MultiHeadAttention_forward N query key third)
  | _ => raise (TypeError "attention")
  end.

(** [Speller.forward_step] *)
Definition forward_step (self : object) (input_var : tensor Z) (hidden : option H)
    (encoder_outputs : tensor Q) (attn : option (tensor Q))
  : M G (tensor Q * option H * option (tensor Q)) :=
  _ <- count_step ;;
  batch_size <- lift (size input_var 0) ;;
  output_lengths <- lift (size input_var 1) ;;

  _ <- getattr self "embedding" ;;
  _ <- getattr self "device" ;;
  let embedded := embedding_forward N input_var in
  _ <- getattr self "input_dropout" ;;
  (* the mode flag of the submodules is the one of the decoder *)
  training <- get_bool self "training" ;;
  embedded <- with_torch_rng (input_dropout_forward N training embedded) ;;

  (* if self.training: self.rnn.flatten_parameters() -- memory layout only *)
  _ <- getattr self "rnn" ;;
  oh <- with_torch_rng (rnn_forward N training embedded hidden) ;;
  let '(output, hidden) := oh in

  attn_mechanism <- get_str self "attn_mechanism" ;;
  ca <- (if String.eqb attn_mechanism "dot"
         then call_attention self output encoder_outputs (Some encoder_outputs)
         else call_attention self output encoder_outputs attn) ;;
  let '(context, attn) := ca in

  _ <- getattr self "linear1" ;;
  hidden_dim <- get_int self "hidden_dim" ;;
  t <- lift (view [-1; Z.shiftl hidden_dim 1] context) ;;
  output <- lift (view [Z.of_nat batch_size; -1; hidden_dim] (linear1_forward N t)) ;;
  _ <- getattr self "linear2" ;;
  _ <- getattr self "layer_norm" ;;
  t <- lift (view [-1; hidden_dim] (layer_norm_forward N output)) ;;
  let output := linear2_forward N t in

  let predicted_softmax := log_softmax1 N output in
  t <- lift (view [Z.of_nat batch_size; Z.of_nat output_lengths; -1] predicted_softmax) ;;
  step_output <- lift (squeeze 1 t) ;;

  ret (step_output, Some hidden, Some attn).

(** [Speller.validate_args] *)
Definition validate_args (self : object) (inputs : option (tensor Z))
    (encoder_outputs : tensor Q) (teacher_forcing_ratio : Q)
    (language_model : option LanguageModel) : M G (tensor Z * nat * Z) :=
  batch_size <- lift (size encoder_outputs 0) ;;
  im <- match inputs with
        | None =>
            sos_id <- get_int self "sos_id" ;;
            inputs <- lift (view [Z.of_nat batch_size; 1] (LongTensor_repeat sos_id batch_size)) ;;
            max_length <- get_int self "max_length" ;;
            (* if torch.cuda.is_available(): inputs = inputs.cuda() -- placement only *)
            if Qlt_bool 0 teacher_forcing_ratio then
              raise (ValueError
                "Teacher forcing has to be disabled (set 0) when no inputs is provided.")
            else ret (inputs, max_length)
        | Some inputs =>
            n <- lift (size inputs 1) ;;
            ret (inputs, Z.of_nat n - 1)
        end ;;
  let '(inputs, max_length) := im in
  _ <- match language_model with
       | Some _ => lm_eval
       | None => ret tt
       end ;;
  ret (inputs, batch_size, max_length).

(** The loop of the teacher-forced branch that calls [forward_step] at
    every timestep (lines 118-121). *)
Definition teacher_forced_stepwise (self : object) (inputs : tensor Z)
    (encoder_outputs : tensor Q)
    (st : option H * option (tensor Q) * list (tensor Q))
  : M G (option H * option (tensor Q) * list (tensor Q)) :=
  n <- lift (size inputs 1) ;;
  for_range n
    (fun di st =>
       let '(hidden, attn, decoder_outputs) := st in
       col <- lift (select1 2 (Z.of_nat di) inputs) ;;
       input_var <- lift (unsqueeze 1 col) ;;
       r <- forward_step self input_var hidden encoder_outputs attn ;;
       let '(step_output, hidden, attn) := r in
       ret (hidden, attn, decoder_outputs ++ [step_output]))
    st.

(** The single call of [forward_step] on the whole sequence, split per
    position afterwards (lines 124-128). *)
Definition teacher_forced_batched (self : object) (inputs : tensor Z)
    (encoder_outputs : tensor Q)
    (st : option H * option (tensor Q) * list (tensor Q))
  : M G (option H * option (tensor Q) * list (tensor Q)) :=
  let '(hidden, attn, decoder_outputs) := st in
  r <- forward_step self inputs hidden encoder_outputs attn ;;
  let '(step_outputs, hidden, attn) := r in
  n <- lift (size step_outputs 1) ;;
  decoder_outputs <-
    for_range n
      (fun di decoder_outputs =>
         step_output <- lift (select1 3 (Z.of_nat di) step_outputs) ;;
         ret (decoder_outputs ++ [step_output]))
      decoder_outputs ;;
  ret (hidden, attn, decoder_outputs).

(** [inputs = inputs[inputs != self.eos_id].view(batch_size, -1)] *)
Definition strip_eos (eos_id : Z) (batch_size : nat) (inputs : tensor Z) : result (tensor Z) :=
  view [Z.of_nat batch_size; -1] (masked_ne eos_id inputs).

(** The language-model fusion of one free-running step (lines 141-144). *)
Definition fuse (self : object) (language_model : LanguageModel)
    (prev_tokens : option (tensor Z)) (step_output : tensor Q)
  : M G (tensor Q * option (tensor Z)) :=
  prev <- match prev_tokens with
          | Some t => ret t
          | None => raise (TypeError "prev_tokens")
          end ;;
  t <- lift (select1 3 (-1) (lm_forward_step language_model prev)) ;;
  lm_step_output <- lift (squeeze 1 t) ;;
  acoustic_weight <- get_float self "acoustic_weight" ;;
  language_weight <- get_float self "language_weight" ;;
  step_output <- lift (tensor_add (tensor_mul_scalar step_output acoustic_weight)
                                  (tensor_mul_scalar lm_step_output language_weight)) ;;
  top <- lift (topk1_indices (argmax N) step_output) ;;
  prev <- lift (cat1 prev top) ;;
  ret (step_output, Some prev).

(** One iteration of the free-running loop (lines 135-147). *)
Definition free_running_step (self : object) (encoder_outputs : tensor Q)
    (language_model : option LanguageModel) (st : loop_state H) : M G (loop_state H) :=
  r <- forward_step self (input_var st) (hidden st) encoder_outputs (attn st) ;;
  let '(step_output, hidden, attn) := r in
  training <- get_bool self "training" ;;
  d <- (if negb training then
          a <- match attn with
               | Some a => ret a
               | None => raise (TypeError "attn")
               end ;;
          rd <- dict_append (ret_dict st) KEY_ATTENTION_SCORE (DAttn a) ;;
          rd <- dict_append rd KEY_SEQUENCE_SYMBOL (DSym (input_var st)) ;;
          match language_model with
          | Some lm =>
              f <- fuse self lm (prev_tokens st) step_output ;;
              ret (fst f, snd f, rd)
          | None => ret (step_output, prev_tokens st, rd)
          end
        else ret (step_output, prev_tokens st, ret_dict st)) ;;
  let '(step_output, prev_tokens, rd) := d in
  let decoder_outputs := decoder_outputs st ++ [step_output] in
  input_var <- lift (topk1_indices (argmax N) step_output) ;;
  ret (LoopState input_var hidden attn prev_tokens decoder_outputs rd).

(** The branches of [forward]. *)
Definition teacher_forced_branch (self : object) (inputs : tensor Z) (batch_size : nat)
    (encoder_outputs : tensor Q) (rd : gmap string (list diag))
  : M G (list (tensor Q) * gmap string (list diag)) :=
  eos_id <- get_int self "eos_id" ;;
  inputs <- lift (strip_eos eos_id batch_size inputs) ;;
  attn_mechanism <- get_str self "attn_mechanism" ;;
  r <- (if String.eqb attn_mechanism "loc"
        then teacher_forced_stepwise self inputs encoder_outputs (None, None, [])
        else teacher_forced_batched self inputs encoder_outputs (None, None, [])) ;;
  ret (snd r, rd).

Definition free_running_branch (self : object) (inputs : tensor Z) (max_length : Z)
    (encoder_outputs : tensor Q) (language_model : option LanguageModel)
    (rd : gmap string (list diag))
  : M G (list (tensor Q) * gmap string (list diag)) :=
  col <- lift (select1 2 0 inputs) ;;
  input_var <- lift (unsqueeze 1 col) ;;
  let prev_tokens := match language_model with
                     | Some _ => Some input_var
                     | None => None
                     end in
  st <- for_range (Z.to_nat max_length)
          (fun _ st => free_running_step self encoder_outputs language_model st)
          (LoopState input_var None None prev_tokens [] rd) ;;
  ret (decoder_outputs st, ret_dict st).

(** [Speller.forward] *)
Definition forward (self : object) (inputs : option (tensor Z)) (encoder_outputs : tensor Q)
    (teacher_forcing_ratio : Q) (language_model : option LanguageModel)
  : M G (list (tensor Q) * gmap string (list diag)) :=
  training <- get_bool self "training" ;;
  let rd : gmap string (list diag) :=
    if negb training
    then <[KEY_SEQUENCE_SYMBOL := []]> (<[KEY_ATTENTION_SCORE := []]> ∅)
    else ∅ in
  v <- validate_args self inputs encoder_outputs teacher_forcing_ratio language_model ;;
  let '(inputs, batch_size, max_length) := v in
  u <- random_random ;;
  let use_teacher_forcing := Qlt_bool u teacher_forcing_ratio in
  if use_teacher_forcing
  then teacher_forced_branch self inputs batch_size encoder_outputs rd
  else free_running_branch self inputs max_length encoder_outputs language_model rd.

End Methods.

End Speller.

(** ** Contracts of the collaborators *)

(** What the decoder reads from its base class: [BaseRNN.__init__] stores
    the hidden dimension it is given, the device and the recurrent layer,
    and defines no attribute called [acoustic_weight]. *)
Record Constructors_ok (C : Constructors) : Prop := {
  base_hidden_dim : ∀ i h n r d b dev base,
    BaseRNN_init C i h n r d b dev = Ok base → base !! "hidden_dim" = Some (PInt h);
  base_device : ∀ i h n r d b dev base,
    BaseRNN_init C i h n r d b dev = Ok base → is_Some (base !! "device");
  base_rnn : ∀ i h n r d b dev base,
    BaseRNN_init C i h n r d b dev = Ok base → is_Some (base !! "rnn");
  base_no_acoustic_weight : ∀ i h n r d b dev base,
    BaseRNN_init C i h n r d b dev = Ok base → base !! "acoustic_weight" = None
}.

(** Shapes of the layers for hidden dimension [hd] and [nc] classes. *)
Record Layers_shapes {H G} (N : Layers H G) (hd nc : nat) : Prop := {
  embedding_shape : ∀ x b t,
    shape x = [b; t] → shape (embedding_forward N x) = [b; t; hd];
  input_dropout_shape : ∀ tr x g,
    shape (fst (input_dropout_forward N tr x g)) = shape x;
  rnn_shape : ∀ tr x h g,
    shape (fst (fst (rnn_forward N tr x h g))) = shape x;
  LocationAwareAttention_shape : ∀ q k a b t,
    shape q = [b; t; hd] →
    shape (fst (LocationAwareAttention_forward N q k a)) = [b; t; (2 * hd)%nat];
  MultiHeadAttention_shape : ∀ q k v b t,
    shape q = [b; t; hd] →
    shape (fst (MultiHeadAttention_forward N q k v)) = [b; t; (2 * hd)%nat];
  linear1_shape : ∀ x n,
    shape x = [n; (2 * hd)%nat] → shape (linear1_forward N x) = [n; hd];
  layer_norm_shape : ∀ x, shape (layer_norm_forward N x) = shape x;
  linear2_shape : ∀ x n,
    shape x = [n; hd] → shape (linear2_forward N x) = [n; nc];
  log_softmax1_shape : ∀ x, shape (log_softmax1 N x) = shape x
}.

(** The language model scores every position of a token history. *)
Definition LanguageModel_shapes (lm : LanguageModel) : Prop :=
  ∀ x b t, shape x = [b; t] → ∃ v, shape (lm_forward_step lm x) = [b; t; v].

(** ** Position-wise layers

    What makes the whole-sequence call of [forward_step] agree with the
    call at every timestep: in mode [tr] the dropout is the identity and
    the recurrent layer does not use torch's generator; the embedding and
    the content-based attention treat every position on its own; the
    recurrent layer run on a sequence returns at each position what it
    returns when run position by position with its state threaded; the
    linear layers, the normalisation and the softmax act row by row. *)

(** Position [t] of a (batch, time, ...) tensor as a (batch, 1, ...)
    tensor: [x[:, t].unsqueeze(1)]. *)
Definition time_slice {A} (t : nat) (x : tensor A) : result (tensor A) :=
  match select1 2 (Z.of_nat t) x with
  | Ok c => unsqueeze 1 c
  | Raise e => Raise e
  end.

(** [f] applied to each of the [n] rows of width [k]. *)
Definition map_rows (f : list Q → list Q) (n k : nat) (l : list Q) : list Q :=
  flat_map f (chunks n k l).

Definition row_wise (op : tensor Q → tensor Q) (f : list Q → list Q) (k k' : nat) : Prop :=
  (∀ r, length (f r) = k') ∧
  ∀ x s, shape x = s ++ [k] → wf_tensor x →
         op x = Tensor (s ++ [k']) (map_rows f (prod_list s) k (flat x)).

(** The state of the recurrent layer before position [t] of [x], when it
    is run position by position from [h]. *)
Fixpoint rnn_state {H G} (N : Layers H G) (tr : bool) (x : tensor Q) (h : option H) (g : G)
    (t : nat) : option H :=
  match t with
  | O => h
  | S t' =>
      match time_slice t' x with
      | Ok xt => Some (snd (fst (rnn_forward N tr xt (rnn_state N tr x h g t') g)))
      | Raise _ => None
      end
  end.

(** The rows of distributions computed from an attention context of [n]
    rows: the four row-wise layers one after the other. *)
Definition project_rows (f1 fn f2 fs : list Q → list Q) (n hd : nat) (context : tensor Q)
  : list Q :=
  map_rows (fun r => fs (f2 (fn (f1 r)))) n (2 * hd) (flat context).

(** The distributions at position [t], computed from the attention context
    of the whole (batch, time) sequence. *)
Definition position_rows (f1 fn f2 fs : list Q → list Q) (b T hd t : nat) (context : tensor Q)
  : list Q :=
  flat_map (fun i => fs (f2 (fn (f1 (take (2 * hd) (drop ((i * T + t) * (2 * hd))
                                                     (flat context)))))))
           (seq 0 b).

(** The attention context of a whole sequence, from the initial state. *)
Definition sequence_context {H G} (N : Layers H G) (tr : bool) (inputs : tensor Z)
    (enc : tensor Q) (g : G) : tensor Q :=
  fst (MultiHeadAttention_forward N
         (fst (fst (rnn_forward N tr (embedding_forward N inputs) None g)))
         enc (Some enc)).

Record Layers_positionwise {H G} (N : Layers H G) (tr : bool) (hd nc : nat)
    (f1 fn f2 fs : list Q → list Q) : Prop := {
  dropout_identity : ∀ x g, input_dropout_forward N tr x g = (x, g);
  rnn_generator : ∀ x h g, snd (rnn_forward N tr x h g) = g;
  embedding_slice : ∀ x t xt,
    time_slice t x = Ok xt →
    time_slice t (embedding_forward N x) = Ok (embedding_forward N xt);
  rnn_scan : ∀ x h g t xt,
    time_slice t x = Ok xt →
    time_slice t (fst (fst (rnn_forward N tr x h g))) =
      Ok (fst (fst (rnn_forward N tr xt (rnn_state N tr x h g t) g)));
  attention_wf : ∀ q k v, wf_tensor (fst (MultiHeadAttention_forward N q k v));
  attention_slice : ∀ q k v t qt,
    time_slice t q = Ok qt →
    time_slice t (fst (MultiHeadAttention_forward N q k v)) =
      Ok (fst (MultiHeadAttention_forward N qt k v));
  linear1_rows : row_wise (linear1_forward N) f1 (2 * hd) hd;
  layer_norm_rows : row_wise (layer_norm_forward N) fn hd hd;
  linear2_rows : row_wise (linear2_forward N) f2 hd nc;
  log_softmax1_rows : row_wise (log_softmax1 N) fs nc nc
}.

(** The attributes [forward] and [forward_step] read on a decoder that was
    built with the given arguments and put in the given mode. *)
Record Speller_attrs (self : object) (max_length hidden_dim sos_id eos_id : Z)
    (attn_mechanism : string) (training : bool) : Prop := {
  attr_max_length : self !! "max_length" = Some (PInt max_length);
  attr_hidden_dim : self !! "hidden_dim" = Some (PInt hidden_dim);
  attr_sos_id : self !! "sos_id" = Some (PInt sos_id);
  attr_eos_id : self !! "eos_id" = Some (PInt eos_id);
  attr_attn_mechanism : self !! "attn_mechanism" = Some (PStr attn_mechanism);
  attr_training : self !! "training" = Some (PBool training);
  attr_attention :
    self !! "attention" =
      Some (PModule (if String.eqb attn_mechanism "loc"
                     then LocationAwareAttention else MultiHeadAttention));
  attr_supported : attn_mechanism = "loc" ∨ attn_mechanism = "dot";
  attr_embedding : is_Some (self !! "embedding");
  attr_device : is_Some (self !! "device");
  attr_input_dropout : is_Some (self !! "input_dropout");
  attr_rnn : is_Some (self !! "rnn");
  attr_linear1 : is_Some (self !! "linear1");
  attr_layer_norm : is_Some (self !! "layer_norm");
  attr_linear2 : is_Some (self !! "linear2")
}.

(** ** Tokens and rows of a token matrix *)

(** The token ids [nn.Embedding(num_classes, _)] accepts.  The layers are
    total functions, whereas the real lookup raises IndexError on any other
    id; what is stated about decoding given targets is stated for targets
    made of such ids, and every run below uses them. *)
Definition in_vocabulary (num_classes : nat) (t : tensor Z) : Prop :=
  Forall (fun x => 0 <= x < Z.of_nat num_classes) (flat t).

Definition row {A} (t : tensor A) (i : nat) : list A :=
  match shape t with
  | [_; n] => take n (drop (i * n) (flat t))
  | _ => []
  end.

Definition non_eos (eos_id : Z) (l : list Z) : list Z :=
  List.filter (fun x => negb (x =? eos_id)) l.

(** Every row holds exactly [c] tokens other than [eos_id]. *)
Definition rows_non_eos (eos_id : Z) (t : tensor Z) (c : nat) : Prop :=
  ∀ i b, shape t !! 0%nat = Some b → (i < b)%nat → length (non_eos eos_id (row t i)) = c.

(** Every row holds exactly one [eos_id]. *)
Definition rows_one_eos (eos_id : Z) (t : tensor Z) : Prop :=
  ∀ i b, shape t !! 0%nat = Some b → (i < b)%nat → count_occ Z.eq_dec (row t i) eos_id = 1%nat.

(** ** Frames on the ambient state *)

Definition same_random {G} (w w' : World G) : Prop :=
  py_random w' = py_random w ∧ drawn w' = drawn w.

Definition same_steps {G} (w w' : World G) : Prop := steps w' = steps w.

Definition same_world {G} (w w' : World G) : Prop := w' = w.

Definition same_lm {G} (w w' : World G) : Prop := lm_training w' = lm_training w.

Definition keeps {G A} (R : World G → World G → Prop) (m : M G A) : Prop :=
  ∀ w, R w (snd (m w)).

(** The state after [language_model.eval()] when a model is attached. *)
Definition after_validation {G} (lm : option LanguageModel) (w : World G) : World G :=
  match lm with
  | Some _ => mkWorld (py_random w) (drawn w) (torch_rng w) (steps w) false
  | None => w
  end.

(** The state after one call of [random.random()]. *)
Definition after_draw {G} (w : World G) : World G :=
  mkWorld (py_random w) (S (drawn w)) (torch_rng w) (steps w) (lm_training w).

(** The diagnostics dictionary as [forward] initialises it. *)
Definition initial_ret_dict (training : bool) : gmap string (list diag) :=
  if negb training
  then <[Speller.KEY_SEQUENCE_SYMBOL := []]> (<[Speller.KEY_ATTENTION_SCORE := []]> ∅)
  else ∅.

(** The token tensors [topk(1)[1]] yields on the distributions of a trace. *)
Definition greedy_tokens (am : list Q → Z) (outs : list (tensor Q)) (nexts : list (tensor Z))
  : Prop :=
  Forall2 (fun d t => topk1_indices am d = Ok t) outs nexts.

(** The state of the free-running loop after some steps from the input
    [seed] and the dictionary [rd0]: the current input is the last greedy
    token, and outside training mode the dictionary has recorded the
    tokens fed so far and as many alignments. *)
Definition loop_invariant {H} (am : list Q → Z) (training : bool) (b nc : nat)
    (seed : tensor Z) (rd0 : gmap string (list diag)) (st : Speller.loop_state H) : Prop :=
  ∃ nexts,
    greedy_tokens am (Speller.decoder_outputs st) nexts ∧
    Speller.input_var st = List.last nexts seed ∧
    shape (Speller.input_var st) = [b; 1%nat] ∧
    Forall (fun d => shape d = [b; nc]) (Speller.decoder_outputs st) ∧
    (training = true → Speller.ret_dict st = rd0) ∧
    (training = false →
     ∃ la,
       Speller.ret_dict st !! Speller.KEY_ATTENTION_SCORE = Some la ∧
       length la = length (Speller.decoder_outputs st) ∧
       Speller.ret_dict st !! Speller.KEY_SEQUENCE_SYMBOL =
         Some (map DSym (removelast (seed :: nexts)))).

(** Both diagnostics keys are present. *)
Definition has_keys (rd : gmap string (list diag)) : Prop :=
  is_Some (rd !! Speller.KEY_ATTENTION_SCORE) ∧ is_Some (rd !! Speller.KEY_SEQUENCE_SYMBOL).

Definition trace_length {G D} (r : result (list (tensor Q) * D) * World G) : option nat :=
  match fst r with
  | Ok (outs, _) => Some (length outs)
  | Raise _ => None
  end.

Definition raised {G A} (r : result A * World G) : option exn :=
  match fst r with
  | Ok _ => None
  | Raise e => Some e
  end.

(** ** class ListenAttendSpell (kospeech/model/las.py) *)

(** The encoder is a collaborator: called on the features and their
    lengths it returns the encoder outputs or raises, and it may use
    torch's generator. *)
Record Listener (X L G : Type) : Type := {
  listener_forward : X → L → G → result (tensor Q) * G
}.
Arguments listener_forward {X L G} l.

(** A decoder module: the attribute dictionary together with its layers. *)
Record Decoder (H G : Type) : Type := {
  decoder_layers : Layers H G;
  decoder_self : object
}.
Arguments Build_Decoder {H G}.
Arguments decoder_layers {H G} d.
Arguments decoder_self {H G} d.

Module ListenAttendSpell.

Record las (X L H G : Type) : Type := LAS {
  listener : Listener X L G;
  speller : Decoder H G
}.
Arguments LAS {X L H G}.
Arguments listener {X L H G} _.
Arguments speller {X L H G} _.

Section Methods.
Context {X L H G : Type}.

(** [ListenAttendSpell.__init__] *)
Definition __init__ (listener : Listener X L G) (speller : Decoder H G) : las X L H G :=
  LAS listener speller.

(** [ListenAttendSpell.forward] *)
Definition forward (self : las X L H G) (inputs : X) (input_lengths : L)
    (targets : option (tensor Z)) (teacher_forcing_ratio : Q)
    (language_model : option LanguageModel)
  : M G (list (tensor Q) * gmap string (list diag)) :=
  r <- with_torch_rng (listener_forward (listener self) inputs input_lengths) ;;
  encoder_outputs <- lift r ;;
  result <- Speller.forward (decoder_layers (speller self)) (decoder_self (speller self))
              targets encoder_outputs teacher_forcing_ratio language_model ;;
  ret result.

(** The call [model(inputs, input_lengths)], every other parameter at the
    default of the signature: [targets=None], [teacher_forcing_ratio=1.0],
    [language_model=None]. *)
Definition forward_defaults (self : las X L H G) (inputs : X) (input_lengths : L)
  : M G (list (tensor Q) * gmap string (list diag)) :=
  forward self inputs input_lengths None 1%Q None.

(** [ListenAttendSpell.set_speller] *)
Definition set_speller (decoder : Decoder H G) (self : las X L H G) : las X L H G :=
  LAS (listener self) decoder.

End Methods.

End ListenAttendSpell.

(** ** Feature extraction (kospeech/data/audio/feature.py)

    The classes [MelSpectrogram] and [MFCC]: which library computes the
    features, and what happens when the selected one is not available.
    Signals are of type [S], torch tensors of type [T] and numpy arrays of
    type [F]; the numerical routines are collaborators. *)

Module Feature.

(** Besides the exceptions above, the module can raise on an unbound
    global name and on a failed import. *)
Inductive failure : Type :=
| Exn (e : exn)
| NameError (name : string)
| ImportError (msg : string).

Inductive outcome (A : Type) : Type :=
| Return (a : A)
| Throw (e : failure).
Arguments Return {A} a.
Arguments Throw {A} e.

(** The [torchaudio] package: the constructors of its transforms, each
    transform being the function it applies when called. *)
Record Torchaudio (T : Type) : Type := {
  (** [(sample_rate, win_length, hop_length, n_fft, n_mels)] *)
  transforms_MelSpectrogram : Z → Z → Z → Z → Z → outcome (T → outcome T);
  transforms_AmplitudeToDB : outcome (T → outcome T);
  (** [(sample_rate, n_mfcc, log_mels, win_length, hop_length, n_fft)] *)
  transforms_MFCC : Z → Z → bool → Z → Z → Z → outcome (T → outcome T)
}.
Arguments transforms_MelSpectrogram {T} t.
Arguments transforms_AmplitudeToDB {T} t.
Arguments transforms_MFCC {T} t.

(** What the module uses from Python, torch, numpy and librosa. *)
Record Runtime (S T F : Type) : Type := {
  (** [str.lower] *)
  str_lower : string → string;
  (** [int(sample_rate * 0.001 * ms)], in floating point *)
  ms_to_samples : Z → Z → outcome Z;
  (** [torch.FloatTensor(signal)] *)
  FloatTensor : S → outcome T;
  (** [tensor.numpy()] *)
  numpy : T → F;
  (** [librosa.feature.melspectrogram(y, sr, n_mels, n_fft, hop_length)] *)
  librosa_melspectrogram : S → Z → Z → Z → Z → outcome F;
  (** [librosa.amplitude_to_db(x, ref=np.max)] *)
  librosa_amplitude_to_db : F → outcome F;
  (** [librosa.feature.mfcc(y, sr, n_mfcc, n_fft, hop_length)] *)
  librosa_mfcc : S → Z → Z → Z → Z → outcome F
}.
Arguments str_lower {S T F} r.
Arguments ms_to_samples {S T F} r.
Arguments FloatTensor {S T F} r.
Arguments numpy {S T F} r.
Arguments librosa_melspectrogram {S T F} r.
Arguments librosa_amplitude_to_db {S T F} r.
Arguments librosa_mfcc {S T F} r.

(** The objects: an attribute that [__init__] may leave unset is an
    option. *)
Record MelSpectrogram_object (T : Type) : Type := {
  mel_sample_rate : Z;
  mel_n_mels : Z;
  mel_n_fft : Z;
  mel_hop_length : Z;
  mel_feature_extract_by : string;
  mel_transforms : option (T → outcome T);
  mel_amplitude_to_db : option (T → outcome T)
}.
Arguments Build_MelSpectrogram_object {T}.
Arguments mel_sample_rate {T} _.
Arguments mel_n_mels {T} _.
Arguments mel_n_fft {T} _.
Arguments mel_hop_length {T} _.
Arguments mel_feature_extract_by {T} _.
Arguments mel_transforms {T} _.
Arguments mel_amplitude_to_db {T} _.

Record MFCC_object (T : Type) : Type := {
  mfcc_sample_rate : Z;
  mfcc_n_mfcc : Z;
  mfcc_n_fft : Z;
  mfcc_hop_length : Z;
  mfcc_feature_extract_by : string;
  mfcc_transforms : option (T → outcome T)
}.
Arguments Build_MFCC_object {T}.
Arguments mfcc_sample_rate {T} _.
Arguments mfcc_n_mfcc {T} _.
Arguments mfcc_n_fft {T} _.
Arguments mfcc_hop_length {T} _.
Arguments mfcc_feature_extract_by {T} _.
Arguments mfcc_transforms {T} _.

Section Classes.
Context {S T F : Type}.
Variable R : Runtime S T F.

(** The module body (lines 6-11): the name [torchaudio] is bound on Linux
    only; [find] is the outcome of importing the package. *)
Definition import_torchaudio (platform_system : string) (find : outcome (Torchaudio T))
  : outcome (option (Torchaudio T)) :=
  if String.eqb platform_system "Linux" then
    match find with
    | Return ta => Return (Some ta)
    | Throw (ImportError _) =>
        Throw (ImportError "SpectrogramPaser requires torchaudio package.")
    | Throw e => Throw e
    end
  else Return None.

(** The binding of the global name [torchaudio]. *)
Variable torchaudio : option (Torchaudio T).

(** [MelSpectrogram.__init__] *)
Definition MelSpectrogram_init (sample_rate n_mels window_size stride : Z)
    (feature_extract_by : string) : outcome (MelSpectrogram_object T) :=
  match ms_to_samples R sample_rate window_size with
  | Throw e => Throw e
  | Return n_fft =>
  match ms_to_samples R sample_rate stride with
  | Throw e => Throw e
  | Return hop_length =>
  let feature_extract_by := str_lower R feature_extract_by in
  if String.eqb feature_extract_by "torchaudio" then
    match torchaudio with
    | None => Throw (NameError "torchaudio")
    | Some ta =>
    match transforms_MelSpectrogram ta sample_rate window_size hop_length n_fft n_mels with
    | Throw e => Throw e
    | Return transforms =>
    match transforms_AmplitudeToDB ta with
    | Throw e => Throw e
    | Return amplitude_to_db =>
        Return (Build_MelSpectrogram_object sample_rate n_mels n_fft hop_length
                  feature_extract_by (Some transforms) (Some amplitude_to_db))
    end end end
  else
    Return (Build_MelSpectrogram_object sample_rate n_mels n_fft hop_length
              feature_extract_by None None)
  end end.

(** [MelSpectrogram.__call__] *)
Definition MelSpectrogram_call (self : MelSpectrogram_object T) (signal : S) : outcome F :=
  if String.eqb (mel_feature_extract_by self) "torchaudio" then
    match mel_transforms self with
    | None => Throw (Exn (AttributeError "transforms"))
    | Some transforms =>
    match FloatTensor R signal with
    | Throw e => Throw e
    | Return t =>
    match transforms t with
    | Throw e => Throw e
    | Return melspectrogram =>
    match mel_amplitude_to_db self with
    | None => Throw (Exn (AttributeError "amplitude_to_db"))
    | Some amplitude_to_db =>
    match amplitude_to_db melspectrogram with
    | Throw e => Throw e
    | Return melspectrogram => Return (numpy R melspectrogram)
    end end end end end
  else if String.eqb (mel_feature_extract_by self) "librosa" then
    match librosa_melspectrogram R signal (mel_sample_rate self) (mel_n_mels self)
            (mel_n_fft self) (mel_hop_length self) with
    | Throw e => Throw e
    | Return melspectrogram => librosa_amplitude_to_db R melspectrogram
    end
  else
    Throw (Exn (ValueError ("Unsupported library : " ++ mel_feature_extract_by self))).

(** [MFCC.__init__] *)
Definition MFCC_init (sample_rate n_mfcc window_size stride : Z)
    (feature_extract_by : string) : outcome (MFCC_object T) :=
  match ms_to_samples R sample_rate window_size with
  | Throw e => Throw e
  | Return n_fft =>
  match ms_to_samples R sample_rate stride with
  | Throw e => Throw e
  | Return hop_length =>
  let feature_extract_by := str_lower R feature_extract_by in
  if String.eqb feature_extract_by "torchaudio" then
    match torchaudio with
    | None => Throw (NameError "torchaudio")
    | Some ta =>
    match transforms_MFCC ta sample_rate n_mfcc true window_size hop_length n_fft with
    | Throw e => Throw e
    | Return transforms =>
        Return (Build_MFCC_object sample_rate n_mfcc n_fft hop_length
                  feature_extract_by (Some transforms))
    end end
  else
    Return (Build_MFCC_object sample_rate n_mfcc n_fft hop_length feature_extract_by None)
  end end.

(** [MFCC.__call__] *)
Definition MFCC_call (self : MFCC_object T) (signal : S) : outcome F :=
  if String.eqb (mfcc_feature_extract_by self) "torchaudio" then
    match mfcc_transforms self with
    | None => Throw (Exn (AttributeError "transforms"))
    | Some transforms =>
    match FloatTensor R signal with
    | Throw e => Throw e
    | Return t =>
    match transforms t with
    | Throw e => Throw e
    | Return mfcc => Return (numpy R mfcc)
    end end end
  else if String.eqb (mfcc_feature_extract_by self) "librosa" then
    librosa_mfcc R signal (mfcc_sample_rate self) (mfcc_n_mfcc self)
      (mfcc_n_fft self) (mfcc_hop_length self)
  else
    Throw (Exn (ValueError ("Unsupported library : " ++ mfcc_feature_extract_by self))).

End Classes.

End Feature.

(** ** A small instance of the collaborators

    Layers that return zero-filled tensors of the contracted shapes, for
    running the decoder on concrete inputs.  The decoder of the runs has
    three classes: its tokens are 0, 1 (start of sequence) and 2 (end of
    sequence). *)

Definition zeros (s : list nat) : tensor Q := Tensor s (replicate (prod_list s) 0%Q).

Definition toy_attention (q k : tensor Q) (third : option (tensor Q)) : tensor Q * tensor Q :=
  match shape q, shape k with
  | [b; t; h], kb :: kt :: _ => (zeros [b; t; (2 * h)%nat], zeros [b; t; kt])
  | [b; t; h], _ => (zeros [b; t; (2 * h)%nat], zeros [b; t])
  | _, _ => (zeros (shape q), zeros (shape q))
  end.

Definition toy_linear (out : nat) (x : tensor Q) : tensor Q :=
  zeros (removelast (shape x) ++ [out]).

Definition toy_layers (hd nc : nat) : Layers unit unit := {|
  embedding_forward := fun x => zeros (shape x ++ [hd]);
  input_dropout_forward := fun _ x g => (x, g);
  rnn_forward := fun _ x _ g => ((x, tt), g);
  LocationAwareAttention_forward := toy_attention;
  MultiHeadAttention_forward := toy_attention;
  linear1_forward := toy_linear hd;
  layer_norm_forward := fun x => x;
  linear2_forward := toy_linear nc;
  log_softmax1 := fun x => x;
  argmax := fun _ => 0
|}.

Definition toy_constructors : Constructors := {|
  BaseRNN_init := fun _ hidden_dim _ _ _ _ dev =>
    Ok (<["device" := PStr dev]>
        (<["hidden_dim" := PInt hidden_dim]>
         (<["rnn" := PModule BaseRNN_rnn]>
          (<["training" := PBool true]> ∅))));
  nn_Embedding := fun _ _ => Ok tt;
  nn_Dropout := fun _ => Ok tt;
  new_LocationAwareAttention := fun _ _ => Ok tt;
  new_MultiHeadAttention := fun _ _ => Ok tt;
  new_Linear := fun _ _ _ => Ok tt;
  new_LayerNorm := fun _ => Ok tt
|}.

Definition toy_lm (nc : nat) : LanguageModel :=
  {| lm_forward_step := fun x => zeros (shape x ++ [nc]) |}.

Definition toy_world : World unit := mkWorld (fun _ => 1 # 2) 0 tt 0 true.

(** A decoder with 3 classes, hidden dimension 2, [sos_id = 1],
    [eos_id = 2] and maximum length 5. *)
Definition toy_speller (attn_mechanism : string) (training : bool) : result object :=
  match Speller.__init__ toy_constructors 3 5 2 1 2 attn_mechanism 4 2 "lstm" (3 # 10) "cpu" with
  | Ok self => Ok (Speller.train training self)
  | Raise e => Raise e
  end.

(** The object [__init__] returns for these arguments. *)
Definition toy_object (attn_mechanism : string) : object :=
  match Speller.__init__ toy_constructors 3 5 2 1 2 attn_mechanism 4 2 "lstm" (3 # 10) "cpu" with
  | Ok self => self
  | Raise _ => ∅
  end.

Definition toy_encoder_outputs (batch : nat) : tensor Q := zeros [batch; 4%nat; 2%nat].

Definition toy_forward (attn_mechanism : string) (training : bool)
    (inputs : option (tensor Z)) (batch : nat) (p : Q) (lm : option LanguageModel)
  : result (list (tensor Q) * gmap string (list diag)) * World unit :=
  match toy_speller attn_mechanism training with
  | Ok self => Speller.forward (toy_layers 2 3) self inputs (toy_encoder_outputs batch) p lm toy_world
  | Raise e => (Raise e, toy_world)
  end.

(** ** Small instances of the encoder and of the feature libraries *)

(** An encoder that returns four zero-filled frames per utterance. *)
Definition toy_listener (batch : nat) : Listener unit unit unit :=
  {| listener_forward := fun _ _ g => (Ok (toy_encoder_outputs batch), g) |}.

Definition ascii_lower (c : Ascii.ascii) : Ascii.ascii :=
  let n := Ascii.nat_of_ascii c in
  if ((65 <=? n) && (n <=? 90))%nat then Ascii.ascii_of_nat (n + 32) else c.

Fixpoint toy_lower (s : string) : string :=
  match s with
  | EmptyString => EmptyString
  | String c s' => String (ascii_lower c) (toy_lower s')
  end.

(** Signals, tensors and arrays are lists of integers; every routine
    returns its input. *)
Definition toy_runtime : Feature.Runtime (list Z) (list Z) (list Z) := {|
  Feature.str_lower := toy_lower;
  Feature.ms_to_samples := fun sample_rate ms => Feature.Return (sample_rate * ms / 1000);
  Feature.FloatTensor := fun s => Feature.Return s;
  Feature.numpy := fun t => t;
  Feature.librosa_melspectrogram := fun s _ _ _ _ => Feature.Return s;
  Feature.librosa_amplitude_to_db := fun x => Feature.Return x;
  Feature.librosa_mfcc := fun s _ _ _ _ => Feature.Return s
|}.

Definition toy_torchaudio : Feature.Torchaudio (list Z) := {|
  Feature.transforms_MelSpectrogram := fun _ _ _ _ _ => Feature.Return (fun t => Feature.Return t);
  Feature.transforms_AmplitudeToDB := Feature.Return (fun t => Feature.Return t);
  Feature.transforms_MFCC := fun _ _ _ _ _ _ => Feature.Return (fun t => Feature.Return t)
|}.

(** * Properties *)

(** ** The monad *)

Section MonadLaws.
Context {G : Type}.

Lemma bind_Ok {A B} (m : M G A) (k : A → M G B) w a w' :
  m w = (Ok a, w') → bind m k w = k a w'.
Proof. intros E. unfold bind. now rewrite E. Qed.

Lemma bind_Raise {A B} (m : M G A) (k : A → M G B) w e w' :
  m w = (Raise e, w') → bind m k w = (Raise e, w').
Proof. intros E. unfold bind. now rewrite E. Qed.

Lemma bind_Ok_inv {A B} (m : M G A) (k : A → M G B) w b w2 :
  bind m k w = (Ok b, w2) → ∃ a w1, m w = (Ok a, w1) ∧ k a w1 = (Ok b, w2).
Proof.
  unfold bind. destruct (m w) as [[a|e] w1]; intros E.
  - eauto.
  - discriminate.
Qed.

Lemma bind_ret {A B} (a : A) (k : A → M G B) w : bind (ret a) k w = k a w.
Proof. reflexivity. Qed.

Lemma bind_ret_eq {A B} (a : A) (k : A → M G B) : bind (ret a) k = k a.
Proof. reflexivity. Qed.

Lemma bind_lift_Ok {A B} (r : result A) (k : A → M G B) w a :
  r = Ok a → bind (lift r) k w = k a w.
Proof. intros ->. reflexivity. Qed.

Lemma bind_lift_Raise {A B} (r : result A) (k : A → M G B) w e :
  r = Raise e → bind (lift r) k w = (Raise e, w).
Proof. intros ->. reflexivity. Qed.

Lemma getattr_Some (self : object) name v (w : World G) :
  self !! name = Some v → getattr self name w = (Ok v, w).
Proof. intros E. unfold getattr. now rewrite E. Qed.

Lemma getattr_None (self : object) name (w : World G) :
  self !! name = None → getattr self name w = (Raise (AttributeError name), w).
Proof. intros E. unfold getattr. now rewrite E. Qed.

Lemma get_int_Some (self : object) name z (w : World G) :
  self !! name = Some (PInt z) → get_int self name w = (Ok z, w).
Proof. intros E. unfold get_int. now rewrite (bind_Ok _ _ _ _ _ (getattr_Some _ _ _ w E)). Qed.

Lemma get_str_Some (self : object) name s (w : World G) :
  self !! name = Some (PStr s) → get_str self name w = (Ok s, w).
Proof. intros E. unfold get_str. now rewrite (bind_Ok _ _ _ _ _ (getattr_Some _ _ _ w E)). Qed.

Lemma get_bool_Some (self : object) name b (w : World G) :
  self !! name = Some (PBool b) → get_bool self name w = (Ok b, w).
Proof. intros E. unfold get_bool. now rewrite (bind_Ok _ _ _ _ _ (getattr_Some _ _ _ w E)). Qed.

Lemma get_module_Some (self : object) name c (w : World G) :
  self !! name = Some (PModule c) → get_module self name w = (Ok c, w).
Proof. intros E. unfold get_module. now rewrite (bind_Ok _ _ _ _ _ (getattr_Some _ _ _ w E)). Qed.

Lemma get_float_None (self : object) name (w : World G) :
  self !! name = None → get_float self name w = (Raise (AttributeError name), w).
Proof. intros E. unfold get_float. now rewrite (bind_Raise _ _ _ _ _ (getattr_None _ _ w E)). Qed.

Lemma getattr_is_Some (self : object) name (w : World G) :
  is_Some (self !! name) → ∃ v, getattr self name w = (Ok v, w).
Proof. intros [v E]. exists v. now apply getattr_Some. Qed.

(** *** Frames *)

Section Keeps.
Variable R : World G → World G → Prop.
Hypothesis R_refl : ∀ w, R w w.
Hypothesis R_trans : ∀ w1 w2 w3, R w1 w2 → R w2 w3 → R w1 w3.

Lemma keeps_ret {A} (a : A) : keeps R (ret a).
Proof. intros w. apply R_refl. Qed.

Lemma keeps_raise {A} e : keeps R (@raise G A e).
Proof. intros w. apply R_refl. Qed.

Lemma keeps_lift {A} (r : result A) : keeps R (lift r).
Proof. intros w. apply R_refl. Qed.

Lemma keeps_bind {A B} (m : M G A) (k : A → M G B) :
  keeps R m → (∀ a, keeps R (k a)) → keeps R (bind m k).
Proof.
  intros Hm Hk w. unfold bind. specialize (Hm w).
  destruct (m w) as [[a|e] w1]; simpl in *.
  - eapply R_trans; [exact Hm | apply Hk].
  - exact Hm.
Qed.

Lemma keeps_getattr (self : object) name : keeps R (getattr self name).
Proof. unfold getattr. destruct (self !! name); [apply keeps_ret | apply keeps_raise]. Qed.

Lemma keeps_get_int (self : object) name : keeps R (get_int self name).
Proof.
  apply keeps_bind; [apply keeps_getattr |].
  intros []; first [apply keeps_ret | apply keeps_raise].
Qed.

Lemma keeps_get_float (self : object) name : keeps R (get_float self name).
Proof.
  apply keeps_bind; [apply keeps_getattr |].
  intros []; first [apply keeps_ret | apply keeps_raise].
Qed.

Lemma keeps_get_str (self : object) name : keeps R (get_str self name).
Proof.
  apply keeps_bind; [apply keeps_getattr |].
  intros []; first [apply keeps_ret | apply keeps_raise].
Qed.

Lemma keeps_get_bool (self : object) name : keeps R (get_bool self name).
Proof.
  apply keeps_bind; [apply keeps_getattr |].
  intros []; first [apply keeps_ret | apply keeps_raise].
Qed.

Lemma keeps_get_module (self : object) name : keeps R (get_module self name).
Proof.
  apply keeps_bind; [apply keeps_getattr |].
  intros []; first [apply keeps_ret | apply keeps_raise].
Qed.

Lemma keeps_dict_append d key x : keeps R (dict_append d key x).
Proof. unfold dict_append. destruct (d !! key); [apply keeps_ret | apply keeps_raise]. Qed.

Lemma keeps_for_each {S} (l : list nat) (body : nat → S → M G S) :
  (∀ i s, keeps R (body i s)) → ∀ s, keeps R (for_each l body s).
Proof.
  intros Hb. induction l as [|i l IH]; intros s; simpl.
  - apply keeps_ret.
  - apply keeps_bind; [apply Hb | exact IH].
Qed.

Lemma keeps_for_range {S} n (body : nat → S → M G S) :
  (∀ i s, keeps R (body i s)) → ∀ s, keeps R (for_range n body s).
Proof. intros Hb s. now apply keeps_for_each. Qed.

End Keeps.

Lemma same_random_refl (w : World G) : same_random w w.
Proof. now split. Qed.

Lemma same_random_trans (w1 w2 w3 : World G) :
  same_random w1 w2 → same_random w2 w3 → same_random w1 w3.
Proof. intros [A1 A2] [B1 B2]. split; congruence. Qed.

Lemma same_steps_refl (w : World G) : same_steps w w.
Proof. reflexivity. Qed.

Lemma same_steps_trans (w1 w2 w3 : World G) :
  same_steps w1 w2 → same_steps w2 w3 → same_steps w1 w3.
Proof. unfold same_steps. congruence. Qed.

Lemma same_lm_refl (w : World G) : same_lm w w.
Proof. reflexivity. Qed.

Lemma same_lm_trans (w1 w2 w3 : World G) :
  same_lm w1 w2 → same_lm w2 w3 → same_lm w1 w3.
Proof. unfold same_lm. congruence. Qed.

Lemma same_world_refl (w : World G) : same_world w w.
Proof. reflexivity. Qed.

Lemma same_world_trans (w1 w2 w3 : World G) :
  same_world w1 w2 → same_world w2 w3 → same_world w1 w3.
Proof. unfold same_world. congruence. Qed.

Lemma keeps_random_count_step : keeps same_random (@count_step G).
Proof. intros w. now split. Qed.

Lemma keeps_random_torch {A} (f : G → A * G) : keeps same_random (with_torch_rng f).
Proof. intros w. unfold with_torch_rng. destruct (f (torch_rng w)). now split. Qed.

Lemma keeps_random_lm_eval : keeps same_random (@lm_eval G).
Proof. intros w. now split. Qed.

Lemma keeps_steps_lm_eval : keeps same_steps (@lm_eval G).
Proof. intros w. reflexivity. Qed.

Lemma keeps_lm_count_step : keeps same_lm (@count_step G).
Proof. intros w. reflexivity. Qed.

Lemma keeps_lm_torch {A} (f : G → A * G) : keeps same_lm (with_torch_rng f).
Proof. intros w. unfold with_torch_rng. destruct (f (torch_rng w)). reflexivity. Qed.

End MonadLaws.

(** Frames are proved by following the structure of the computation. *)
Ltac keeps_rel :=
  first [ exact same_random_refl | exact same_random_trans
        | exact same_steps_refl | exact same_steps_trans
        | exact same_lm_refl | exact same_lm_trans
        | exact same_world_refl | exact same_world_trans ].

Ltac keeps_leaf :=
  first [ assumption
        | apply keeps_random_count_step | apply keeps_random_torch
        | apply keeps_random_lm_eval | apply keeps_steps_lm_eval
        | apply keeps_lm_count_step | apply keeps_lm_torch
        | first [ apply keeps_ret | apply keeps_raise | apply keeps_lift
                | apply keeps_getattr | apply keeps_get_int | apply keeps_get_float
                | apply keeps_get_str | apply keeps_get_bool | apply keeps_get_module
                | apply keeps_dict_append ]; keeps_rel ].

Ltac keeps_tac :=
  repeat first
    [ keeps_leaf
    | apply keeps_bind; try keeps_rel
    | apply keeps_for_range; try keeps_rel
    | match goal with
      | |- ∀ _, _ => intros ?
      | H : ∀ _, _ |- _ => apply H
      | |- keeps _ (let '(_, _) := ?p in _) => destruct p
      | |- keeps _ (if ?c then _ else _) => destruct c
      | |- keeps _ (match ?c with _ => _ end) => destruct c
      end ].

(** ** Tensor shapes *)

Lemma of_nat_ltb_m1 n : (Z.of_nat n <? -1) = false.
Proof. apply Z.ltb_ge. lia. Qed.

Lemma of_nat_eqb_m1 n : (Z.of_nat n =? -1) = false.
Proof. apply Z.eqb_neq. lia. Qed.

Ltac view_tests :=
  rewrite ?of_nat_ltb_m1, ?of_nat_eqb_m1;
  change (-1 <? -1) with false; change (-1 =? -1) with true;
  change (1 <? -1) with false; change (1 =? -1) with false;
  cbn [negb orb map prod_list foldr];
  rewrite ?Nat2Z.id, ?Nat.mul_1_r;
  change (Z.to_nat 1) with 1%nat; rewrite ?Nat.mul_1_r.

Ltac view_unfold :=
  unfold view; cbn [existsb List.filter]; view_tests; view_tests.

(** [t.view(b, -1)] *)
Lemma view_rows_eq {A} (t : tensor A) b :
  view [Z.of_nat b; -1] t =
    if (b =? 0)%nat then
      Raise (RuntimeError "shape is invalid or the unspecified dimension is ambiguous")
    else if (numel t mod b =? 0)%nat then Ok (Tensor [b; (numel t / b)%nat] (flat t))
    else Raise (RuntimeError "shape is invalid for input size").
Proof. view_unfold. reflexivity. Qed.

(** [t.view(b, 1)] *)
Lemma view_column_eq {A} (t : tensor A) b :
  view [Z.of_nat b; 1] t =
    if (b =? numel t)%nat then Ok (Tensor [b; 1%nat] (flat t))
    else Raise (RuntimeError "shape is invalid for input size").
Proof. view_unfold. reflexivity. Qed.

(** [t.view(-1, k)] *)
Lemma view_infer_first {A} (t : tensor A) m k :
  (0 < k)%nat → numel t = (m * k)%nat →
  view [-1; Z.of_nat k] t = Ok (Tensor [m; k] (flat t)).
Proof.
  intros Hk Hn. view_unfold.
  destruct (Nat.eqb_spec k 0); [lia |].
  rewrite Hn, Nat.Div0.mod_mul, Nat.div_mul by lia. reflexivity.
Qed.

(** [t.view(b, -1, k)] *)
Lemma view_infer_middle {A} (t : tensor A) b m k :
  (0 < b)%nat → (0 < k)%nat → numel t = (m * (b * k))%nat →
  view [Z.of_nat b; -1; Z.of_nat k] t = Ok (Tensor [b; m; k] (flat t)).
Proof.
  intros Hb Hk Hn. view_unfold.
  destruct (Nat.eqb_spec (b * k) 0); [nia |].
  rewrite Hn, Nat.Div0.mod_mul, Nat.div_mul by lia. reflexivity.
Qed.

(** [t.view(b, m, -1)] *)
Lemma view_infer_last {A} (t : tensor A) b m k :
  (0 < b)%nat → (0 < m)%nat → numel t = (k * (b * m))%nat →
  view [Z.of_nat b; Z.of_nat m; -1] t = Ok (Tensor [b; m; k] (flat t)).
Proof.
  intros Hb Hm Hn. view_unfold.
  destruct (Nat.eqb_spec (b * m) 0); [nia |].
  rewrite Hn, Nat.Div0.mod_mul, Nat.div_mul by lia. reflexivity.
Qed.

Lemma numel_shape {A} (t : tensor A) s : shape t = s → numel t = prod_list s.
Proof. intros <-. reflexivity. Qed.

Lemma shiftl_of_nat h : Z.shiftl (Z.of_nat h) 1 = Z.of_nat (2 * h).
Proof. rewrite Z.shiftl_mul_pow2 by lia. lia. Qed.

Lemma squeeze1_shape3 {A} (t : tensor A) b m k :
  shape t = [b; m; k] →
  squeeze 1 t = Ok (if (m =? 1)%nat then Tensor [b; k] (flat t) else t).
Proof.
  intros Hs. unfold squeeze. rewrite Hs. simpl.
  destruct (m =? 1)%nat; reflexivity.
Qed.

Lemma select1_column {A} (t : tensor A) b n (i : nat) :
  shape t = [b; n] → (i < n)%nat →
  ∃ l, select1 2 (Z.of_nat i) t = Ok (Tensor [b] l).
Proof.
  intros Hs Hi. unfold select1, ndim. rewrite Hs. simpl.
  destruct (Z.ltb_spec (Z.of_nat i) 0); [lia |].
  destruct (Z.leb_spec 0 (Z.of_nat i)); [| lia].
  destruct (Z.ltb_spec (Z.of_nat i) (Z.of_nat n)); [| lia].
  simpl. eauto.
Qed.

Lemma select1_position {A} (t : tensor A) b n k (i : nat) :
  shape t = [b; n; k] → (i < n)%nat →
  ∃ l, select1 3 (Z.of_nat i) t = Ok (Tensor [b; k] l).
Proof.
  intros Hs Hi. unfold select1, ndim. rewrite Hs. simpl.
  destruct (Z.ltb_spec (Z.of_nat i) 0); [lia |].
  destruct (Z.leb_spec 0 (Z.of_nat i)); [| lia].
  destruct (Z.ltb_spec (Z.of_nat i) (Z.of_nat n)); [| lia].
  simpl. eauto.
Qed.

(** Three indices on a two-dimensional tensor. *)
Lemma select1_too_many {A} (t : tensor A) b k i :
  shape t = [b; k] →
  select1 3 i t = Raise (IndexError "too many indices for tensor").
Proof. intros Hs. unfold select1, ndim. rewrite Hs. reflexivity. Qed.

Lemma select1_last {A} (t : tensor A) b n k :
  shape t = [b; n; k] → (0 < n)%nat →
  ∃ l, select1 3 (-1) t = Ok (Tensor [b; k] l).
Proof.
  intros Hs Hn. unfold select1, ndim. rewrite Hs. simpl.
  destruct (Z.leb_spec 0 (-1 + Z.of_nat n)); [| lia].
  destruct (Z.ltb_spec (-1 + Z.of_nat n) (Z.of_nat n)); [| lia].
  simpl. eauto.
Qed.

Lemma unsqueeze1_vector {A} (l : list A) b :
  unsqueeze 1 (Tensor [b] l) = Ok (Tensor [b; 1%nat] l).
Proof. reflexivity. Qed.

Lemma topk1_matrix (am : list Q → Z) (t : tensor Q) b k :
  shape t = [b; k] → (0 < k)%nat →
  ∃ l, topk1_indices am t = Ok (Tensor [b; 1%nat] l).
Proof.
  intros Hs Hk. unfold topk1_indices. rewrite Hs. simpl.
  destruct (Nat.eqb_spec k 0); [lia |]. eauto.
Qed.

(** ** Construction *)

Section Construction.
Variable C : Constructors.
Hypothesis C_ok : Constructors_ok C.
Variables (num_classes max_length hidden_dim sos_id eos_id : Z) (attn_mechanism : string).
Variables (num_heads num_layers : Z) (rnn_type : string) (dropout_p : Q) (device : string).
Variable self0 : object.
Hypothesis Hinit :
  Speller.__init__ C num_classes max_length hidden_dim sos_id eos_id attn_mechanism
    num_heads num_layers rnn_type dropout_p device = Ok self0.

(** The object [__init__] returns, attribute by attribute. *)
Lemma init_inv :
  ∃ base,
    BaseRNN_init C hidden_dim hidden_dim num_layers rnn_type dropout_p false device = Ok base ∧
    (attn_mechanism = "loc" ∨ attn_mechanism = "dot") ∧
    self0 =
      <["linear2" := PModule Linear]>
      (<["layer_norm" := PModule LayerNorm]>
      (<["linear1" := PModule Linear]>
      (<["attention" := PModule (if String.eqb attn_mechanism "loc"
                                 then LocationAwareAttention else MultiHeadAttention)]>
      (<["input_dropout" := PModule Dropout]>
      (<["embedding" := PModule Embedding]>
      (<["attn_mechanism" := PStr attn_mechanism]>
      (<["language_weight" := PFloat (1 # 10)]>
      (<["acoutsic_weight" := PFloat (9 # 10)]>
      (<["sos_id" := PInt sos_id]>
      (<["eos_id" := PInt eos_id]>
      (<["max_length" := PInt max_length]>
      (<["num_heads" := PInt num_heads]>
      (<["num_classes" := PInt num_classes]> base))))))))))))).
Proof.
  revert Hinit. unfold Speller.__init__.
  destruct (BaseRNN_init C _ _ _ _ _ _ _) as [base|]; [| discriminate].
  destruct (nn_Embedding C _ _); [| discriminate].
  destruct (nn_Dropout C _); [| discriminate].
  destruct (String.eqb_spec attn_mechanism "loc") as [El|Nl].
  - destruct (new_LocationAwareAttention C _ _); [| discriminate].
    destruct (new_Linear C _ _ _); [| discriminate].
    destruct (new_LayerNorm C _); [| discriminate].
    destruct (new_Linear C _ _ _); [| discriminate].
    intros [= <-]. exists base. auto.
  - destruct (String.eqb_spec attn_mechanism "dot") as [Ed|Nd]; [| discriminate].
    destruct (new_MultiHeadAttention C _ _); [| discriminate].
    destruct (new_Linear C _ _ _); [| discriminate].
    destruct (new_LayerNorm C _); [| discriminate].
    destruct (new_Linear C _ _ _); [| discriminate].
    intros [= <-]. exists base. auto.
Qed.

Lemma init_attrs training :
  Speller_attrs (Speller.train training self0) max_length hidden_dim sos_id eos_id
    attn_mechanism training.
Proof.
  destruct init_inv as (base & Hb & Hm & ->).
  pose proof (base_hidden_dim C C_ok _ _ _ _ _ _ _ _ Hb) as Hh.
  pose proof (base_device C C_ok _ _ _ _ _ _ _ _ Hb) as [vd Hd].
  pose proof (base_rnn C C_ok _ _ _ _ _ _ _ _ Hb) as [vr Hr].
  unfold Speller.train.
  split; try (by simplify_map_eq); try exact Hm.
Qed.

(** The constructor stores the acoustic weight under the name
    [acoutsic_weight]; no attribute is called [acoustic_weight]. *)
Lemma init_weights training :
  Speller.train training self0 !! "acoutsic_weight" = Some (PFloat (9 # 10)) ∧
  Speller.train training self0 !! "language_weight" = Some (PFloat (1 # 10)) ∧
  Speller.train training self0 !! "acoustic_weight" = None.
Proof.
  destruct init_inv as (base & Hb & Hm & ->).
  pose proof (base_no_acoustic_weight C C_ok _ _ _ _ _ _ _ _ Hb) as Hn.
  unfold Speller.train. repeat split; by simplify_map_eq.
Qed.

End Construction.

(** ** One decoding step *)

Section Steps.
Context {H G : Type}.
Variable N : Layers H G.
Variables (hd nc : nat).
Hypothesis N_ok : Layers_shapes N hd nc.
Hypothesis hd_pos : (0 < hd)%nat.
Variables (self : object) (max_length hidden_dim sos_id eos_id : Z) (attn_mechanism : string).
Variable training : bool.
Hypothesis hidden_dim_hd : hidden_dim = Z.of_nat hd.
Hypothesis Hself :
  Speller_attrs self max_length hidden_dim sos_id eos_id attn_mechanism training.

Lemma with_torch_rng_eq {A} (f : G → A * G) (w : World G) :
  with_torch_rng f w =
    (Ok (fst (f (torch_rng w))),
     mkWorld (py_random w) (drawn w) (snd (f (torch_rng w))) (steps w) (lm_training w)).
Proof. unfold with_torch_rng. destruct (f (torch_rng w)). reflexivity. Qed.

Lemma call_attention_shape q k third b t (w : World G) :
  shape q = [b; t; hd] →
  ∃ ctx a, Speller.call_attention N self q k third w = (Ok (ctx, a), w) ∧
           shape ctx = [b; t; (2 * hd)%nat].
Proof.
  intros Hq. unfold Speller.call_attention.
  rewrite (bind_Ok _ _ _ _ _ (get_module_Some _ _ _ w (attr_attention _ _ _ _ _ _ _ Hself))).
  destruct (String.eqb attn_mechanism "loc").
  - destruct (LocationAwareAttention_forward N q k third) as [ctx a] eqn:E.
    exists ctx, a. split; [reflexivity |].
    pose proof (LocationAwareAttention_shape N hd nc N_ok q k third b t Hq) as Hs.
    now rewrite E in Hs.
  - destruct (MultiHeadAttention_forward N q k third) as [ctx a] eqn:E.
    exists ctx, a. split; [reflexivity |].
    pose proof (MultiHeadAttention_shape N hd nc N_ok q k third b t Hq) as Hs.
    now rewrite E in Hs.
Qed.


Ltac attr_some F :=
  let v := fresh "v" in let E := fresh "E" in
  destruct (F _ _ _ _ _ _ _ Hself) as [v E];
  rewrite (bind_Ok _ _ _ _ _ (getattr_Some _ _ _ _ E)); clear v E.

Lemma forward_step_ok x hidden enc attn b t (w : World G) :
  shape x = [b; t] → (0 < b)%nat → (0 < t)%nat →
  ∃ so hid a w',
    Speller.forward_step N self x hidden enc attn w = (Ok (so, Some hid, Some a), w') ∧
    shape so = (if (t =? 1)%nat then [b; nc] else [b; t; nc]) ∧
    steps w' = S (steps w) ∧ same_random w w' ∧ same_lm w w'.
Proof.
  intros Hx Hb Ht. unfold Speller.forward_step.
  unfold count_step at 1. unfold bind at 1.
  set (w1 := mkWorld _ _ _ (S (steps w)) _).
  unfold size. rewrite Hx. cbn [lookup list_lookup].
  rewrite !(bind_lift_Ok _ _ _ _ eq_refl).
  attr_some attr_embedding. attr_some attr_device. attr_some attr_input_dropout.
  rewrite (bind_Ok _ _ _ _ _ (get_bool_Some _ _ _ _ (attr_training _ _ _ _ _ _ _ Hself))).
  rewrite (bind_Ok _ _ _ _ _ (with_torch_rng_eq _ _)).
  set (w2 := mkWorld _ _ _ _ _).
  pose proof (input_dropout_shape N hd nc N_ok training (embedding_forward N x) (torch_rng w1)) as Hd.
  rewrite (embedding_shape N hd nc N_ok x b t Hx) in Hd.
  set (emb := fst (input_dropout_forward N training (embedding_forward N x) (torch_rng w1))) in *.
  attr_some attr_rnn.
  rewrite (bind_Ok _ _ _ _ _ (with_torch_rng_eq _ _)).
  set (w3 := mkWorld _ _ _ _ _).
  pose proof (rnn_shape N hd nc N_ok training emb hidden (torch_rng w2)) as Hr.
  rewrite Hd in Hr.
  destruct (fst (rnn_forward N training emb hidden (torch_rng w2))) as [out hid].
  simpl in Hr.
  rewrite (bind_Ok _ _ _ _ _ (get_str_Some _ _ _ _ (attr_attn_mechanism _ _ _ _ _ _ _ Hself))).
  assert (∃ ctx a, (if (attn_mechanism =? "dot")%string
           then Speller.call_attention N self out enc (Some enc)
           else Speller.call_attention N self out enc attn) w3 = (Ok (ctx, a), w3) ∧
           shape ctx = [b; t; (2 * hd)%nat]) as (ctx & a & Eca & Hc).
  { destruct (attn_mechanism =? "dot")%string; eapply call_attention_shape; eauto. }
  rewrite (bind_Ok _ _ _ _ _ Eca).
  attr_some attr_linear1.
  rewrite (bind_Ok _ _ _ _ _ (get_int_Some _ _ _ _ (attr_hidden_dim _ _ _ _ _ _ _ Hself))).
  rewrite hidden_dim_hd.
  rewrite shiftl_of_nat.
  erewrite bind_lift_Ok; cycle 1.
  { apply (view_infer_first _ (b * t)%nat); [lia |].
    rewrite (numel_shape _ _ Hc). simpl. lia. }
  set (t0 := Tensor _ (flat ctx)).
  pose proof (linear1_shape N hd nc N_ok t0 (b * t)%nat eq_refl) as Hl1.
  erewrite bind_lift_Ok; cycle 1.
  { apply (view_infer_middle _ b t hd); [lia | lia |].
    rewrite (numel_shape _ _ Hl1). simpl. lia. }
  attr_some attr_linear2. attr_some attr_layer_norm.
  set (t1 := Tensor [b; t; hd] _).
  pose proof (layer_norm_shape N hd nc N_ok t1) as Hln. simpl in Hln.
  erewrite bind_lift_Ok; cycle 1.
  { apply (view_infer_first _ (b * t)%nat); [lia |].
    rewrite (numel_shape _ _ Hln). simpl. lia. }
  set (t2 := Tensor [(b * t)%nat; hd] _).
  pose proof (linear2_shape N hd nc N_ok t2 (b * t)%nat eq_refl) as Hl2.
  pose proof (log_softmax1_shape N hd nc N_ok (linear2_forward N t2)) as Hls.
  rewrite Hl2 in Hls.
  erewrite bind_lift_Ok; cycle 1.
  { apply (view_infer_last _ b t nc); [lia | lia |].
    rewrite (numel_shape _ _ Hls). simpl. lia. }
  erewrite bind_lift_Ok; cycle 1.
  { apply (squeeze1_shape3 _ b t nc). reflexivity. }
  unfold ret. eexists _, hid, a, w3. split; [reflexivity |].
  split; [destruct (t =? 1)%nat; reflexivity |].
  repeat split.
Qed.

(** The step function draws nothing from Python's random source, whether
    it returns or raises. *)
Lemma keeps_random_call_attention (s : object) q k third :
  keeps same_random (Speller.call_attention N s q k third).
Proof. unfold Speller.call_attention. keeps_tac. Qed.

Lemma keeps_random_forward_step (s : object) x hidden enc attn :
  keeps same_random (Speller.forward_step N s x hidden enc attn).
Proof.
  pose proof keeps_random_call_attention.
  unfold Speller.forward_step. keeps_tac.
Qed.

Lemma keeps_random_stepwise (s : object) inputs enc st :
  keeps same_random (Speller.teacher_forced_stepwise N s inputs enc st).
Proof.
  pose proof keeps_random_forward_step.
  unfold Speller.teacher_forced_stepwise. keeps_tac.
Qed.

Lemma keeps_random_batched (s : object) inputs enc st :
  keeps same_random (Speller.teacher_forced_batched N s inputs enc st).
Proof.
  pose proof keeps_random_forward_step.
  unfold Speller.teacher_forced_batched. keeps_tac.
Qed.

Lemma keeps_random_fuse (s : object) lm prev so :
  keeps same_random (Speller.fuse N s lm prev so).
Proof. unfold Speller.fuse. keeps_tac. Qed.

Lemma keeps_random_free_running_step (s : object) enc lm st :
  keeps same_random (Speller.free_running_step N s enc lm st).
Proof.
  pose proof keeps_random_forward_step. pose proof keeps_random_fuse.
  unfold Speller.free_running_step. keeps_tac.
Qed.

Lemma keeps_random_teacher_forced_branch (s : object) inputs b enc rd :
  keeps same_random (Speller.teacher_forced_branch N s inputs b enc rd).
Proof.
  pose proof keeps_random_stepwise. pose proof keeps_random_batched.
  unfold Speller.teacher_forced_branch. keeps_tac.
Qed.

Lemma keeps_random_free_running_branch (s : object) inputs ml enc lm rd :
  keeps same_random (Speller.free_running_branch N s inputs ml enc lm rd).
Proof.
  pose proof keeps_random_free_running_step.
  unfold Speller.free_running_branch. keeps_tac.
Qed.

Lemma keeps_random_validate_args (s : object) inputs enc p lm :
  keeps same_random (Speller.validate_args (G:=G) s inputs enc p lm).
Proof. unfold Speller.validate_args. keeps_tac. Qed.

Lemma keeps_steps_validate_args (s : object) inputs enc p lm :
  keeps same_steps (Speller.validate_args (G:=G) s inputs enc p lm).
Proof. unfold Speller.validate_args. keeps_tac. Qed.

(** ** Argument validation *)

Lemma validate_args_None enc p lm b (w : World G) :
  size enc 0 = Ok b →
  Speller.validate_args self None enc p lm w =
    if Qlt_bool 0 p then
      (Raise (ValueError
                "Teacher forcing has to be disabled (set 0) when no inputs is provided."), w)
    else (Ok (Tensor [b; 1%nat] (replicate b sos_id), b, max_length),
          match lm with
          | Some _ => mkWorld (py_random w) (drawn w) (torch_rng w) (steps w) false
          | None => w
          end).
Proof.
  intros Hb. unfold Speller.validate_args.
  rewrite (bind_lift_Ok _ _ _ _ Hb).
  assert (Hv : view [Z.of_nat b; 1] (LongTensor_repeat sos_id b) =
               Ok (Tensor [b; 1%nat] (replicate b sos_id))).
  { rewrite view_column_eq. unfold numel, LongTensor_repeat. simpl.
    rewrite Nat.mul_1_r, Nat.eqb_refl. reflexivity. }
  destruct (Qlt_bool 0 p).
  - erewrite bind_Raise; [reflexivity |].
    rewrite (bind_Ok _ _ _ _ _ (get_int_Some _ _ _ _ (attr_sos_id _ _ _ _ _ _ _ Hself))).
    rewrite (bind_lift_Ok _ _ _ _ Hv).
    rewrite (bind_Ok _ _ _ _ _ (get_int_Some _ _ _ _ (attr_max_length _ _ _ _ _ _ _ Hself))).
    reflexivity.
  - erewrite bind_Ok; cycle 1.
    { rewrite (bind_Ok _ _ _ _ _ (get_int_Some _ _ _ _ (attr_sos_id _ _ _ _ _ _ _ Hself))).
      rewrite (bind_lift_Ok _ _ _ _ Hv).
      rewrite (bind_Ok _ _ _ _ _ (get_int_Some _ _ _ _ (attr_max_length _ _ _ _ _ _ _ Hself))).
      reflexivity. }
    destruct lm; reflexivity.
Qed.

Lemma validate_args_Some (inputs : tensor Z) enc p lm b n (w : World G) :
  size enc 0 = Ok b → size inputs 1 = Ok n →
  Speller.validate_args self (Some inputs) enc p lm w =
    (Ok (inputs, b, Z.of_nat n - 1),
     match lm with
     | Some _ => mkWorld (py_random w) (drawn w) (torch_rng w) (steps w) false
     | None => w
     end).
Proof.
  intros Hb Hn. unfold Speller.validate_args.
  rewrite (bind_lift_Ok _ _ _ _ Hb).
  erewrite bind_Ok; cycle 1.
  { rewrite (bind_lift_Ok _ _ _ _ Hn). reflexivity. }
  destruct lm; reflexivity.
Qed.

(** ** The teacher-forced loops *)

Lemma stepwise_loop inputs enc b n :
  shape inputs = [b; n] → (0 < b)%nat →
  ∀ m k hidden attn outs (w : World G),
    (k + m ≤ n)%nat →
    ∃ hidden' attn' outs' w',
      for_each (seq k m)
        (fun di (st : option H * option (tensor Q) * list (tensor Q)) =>
           let '(hidden, attn, decoder_outputs) := st in
           col <- lift (select1 2 (Z.of_nat di) inputs) ;;
           input_var <- lift (unsqueeze 1 col) ;;
           r <- Speller.forward_step N self input_var hidden enc attn ;;
           let '(step_output, hidden, attn) := r in
           ret (hidden, attn, decoder_outputs ++ [step_output]))
        (hidden, attn, outs) w = (Ok (hidden', attn', outs ++ outs'), w') ∧
      length outs' = m ∧ steps w' = (steps w + m)%nat ∧
      Forall (fun d => shape d = [b; nc]) outs'.
Proof.
  intros Hs Hb. induction m as [|m IH]; intros k hidden attn outs w Hk.
  - exists hidden, attn, [], w. simpl. rewrite app_nil_r.
    repeat split; [lia | constructor].
  - cbn [seq for_each].
    destruct (select1_column inputs b n k Hs ltac:(lia)) as [l Hl].
    destruct (forward_step_ok (Tensor [b; 1%nat] l) hidden enc attn b 1 w eq_refl Hb ltac:(lia))
      as (so & hid & a & w1 & Hf & Hso & Hst & _ & _).
    destruct (IH (S k) (Some hid) (Some a) (outs ++ [so]) w1 ltac:(lia))
      as (h' & a' & outs' & w' & Hl' & Hlen & Hst' & Hall).
    exists h', a', (so :: outs'), w'.
    erewrite bind_Ok; cycle 1.
    { rewrite (bind_lift_Ok _ _ _ _ Hl). rewrite (bind_lift_Ok _ _ _ _ (unsqueeze1_vector l b)).
      rewrite (bind_Ok _ _ _ _ _ Hf). reflexivity. }
    rewrite Hl'. rewrite <- app_assoc. simpl.
    repeat split; [lia | lia | constructor; assumption].
Qed.

Lemma teacher_forced_stepwise_ok inputs enc b n hidden attn outs (w : World G) :
  shape inputs = [b; n] → (0 < b)%nat →
  ∃ hidden' attn' outs' w',
    Speller.teacher_forced_stepwise N self inputs enc (hidden, attn, outs) w =
      (Ok (hidden', attn', outs ++ outs'), w') ∧
    length outs' = n ∧ steps w' = (steps w + n)%nat ∧
    Forall (fun d => shape d = [b; nc]) outs'.
Proof.
  intros Hs Hb. unfold Speller.teacher_forced_stepwise.
  assert (Hn : size inputs 1 = Ok n) by (unfold size; now rewrite Hs).
  rewrite (bind_lift_Ok _ _ _ _ Hn). unfold for_range.
  now apply (stepwise_loop inputs enc b n Hs Hb n 0%nat).
Qed.

Lemma split_loop (so : tensor Q) b n :
  shape so = [b; n; nc] →
  ∀ m k outs (w : World G),
    (k + m ≤ n)%nat →
    ∃ outs',
      for_each (seq k m)
        (fun di decoder_outputs =>
           step_output <- lift (select1 3 (Z.of_nat di) so) ;;
           ret (decoder_outputs ++ [step_output]))
        outs w = (Ok (outs ++ outs'), w) ∧
      length outs' = m ∧ Forall (fun d => shape d = [b; nc]) outs'.
Proof.
  intros Hs. induction m as [|m IH]; intros k outs w Hk.
  - exists []. simpl. rewrite app_nil_r. repeat split. constructor.
  - cbn [seq for_each].
    destruct (select1_position so b n nc k Hs ltac:(lia)) as [l Hl].
    destruct (IH (S k) (outs ++ [Tensor [b; nc] l]) w ltac:(lia)) as (outs' & Hl' & Hlen & Hall).
    exists (Tensor [b; nc] l :: outs').
    erewrite bind_Ok; cycle 1.
    { rewrite (bind_lift_Ok _ _ _ _ Hl). reflexivity. }
    rewrite Hl'. rewrite <- app_assoc. simpl.
    repeat split; [lia | constructor; [reflexivity | assumption]].
Qed.

Lemma teacher_forced_batched_ok inputs enc b n hidden attn outs (w : World G) :
  shape inputs = [b; n] → (0 < b)%nat → (2 ≤ n)%nat →
  ∃ hidden' attn' outs' w',
    Speller.teacher_forced_batched N self inputs enc (hidden, attn, outs) w =
      (Ok (hidden', attn', outs ++ outs'), w') ∧
    length outs' = n ∧ steps w' = S (steps w) ∧
    Forall (fun d => shape d = [b; nc]) outs'.
Proof.
  intros Hs Hb Hn. unfold Speller.teacher_forced_batched.
  destruct (forward_step_ok inputs hidden enc attn b n w Hs Hb ltac:(lia))
    as (so & hid & a & w1 & Hf & Hso & Hst & _ & _).
  destruct (Nat.eqb_spec n 1); [lia |].
  rewrite (bind_Ok _ _ _ _ _ Hf). cbv beta iota.
  assert (Hsz : size so 1 = Ok n) by (unfold size; now rewrite Hso).
  rewrite (bind_lift_Ok _ _ _ _ Hsz). unfold for_range.
  destruct (split_loop so b n Hso n 0%nat outs w1 ltac:(lia)) as (outs' & Hl & Hlen & Hall).
  rewrite (bind_Ok _ _ _ _ _ Hl).
  exists (Some hid), (Some a), outs', w1. repeat split; assumption.
Qed.

(** On a sequence of length one the batched path indexes a tensor that
    [forward_step] has already squeezed. *)
Lemma teacher_forced_batched_single inputs enc b hidden attn outs (w : World G) :
  shape inputs = [b; 1%nat] → (0 < b)%nat → (0 < nc)%nat →
  ∃ w',
    Speller.teacher_forced_batched N self inputs enc (hidden, attn, outs) w =
      (Raise (IndexError "too many indices for tensor"), w').
Proof.
  intros Hs Hb Hn. unfold Speller.teacher_forced_batched.
  destruct (forward_step_ok inputs hidden enc attn b 1 w Hs Hb ltac:(lia))
    as (so & hid & a & w1 & Hf & Hso & Hst & _ & _).
  simpl in Hso.
  rewrite (bind_Ok _ _ _ _ _ Hf). cbv beta iota.
  assert (Hsz : size so 1 = Ok nc) by (unfold size; now rewrite Hso).
  rewrite (bind_lift_Ok _ _ _ _ Hsz). unfold for_range.
  destruct nc as [|c]; [lia |]. cbn [seq for_each].
  exists w1.
  erewrite bind_Raise; [reflexivity |].
  erewrite bind_Raise; [reflexivity |].
  erewrite bind_lift_Raise; [reflexivity |].
  apply (select1_too_many so b (S c)). exact Hso.
Qed.

(** ** The free-running loop *)

Lemma free_running_step_ok (st : Speller.loop_state H) enc lm b (w : World G) :
  shape (Speller.input_var st) = [b; 1%nat] → (0 < b)%nat → (0 < nc)%nat →
  training = true ∨ lm = None →
  (training = false → has_keys (Speller.ret_dict st)) →
  ∃ so hid a iv rd w1 w',
    Speller.forward_step N self (Speller.input_var st) (Speller.hidden st) enc
      (Speller.attn st) w = (Ok (so, Some hid, Some a), w1) ∧
    Speller.free_running_step N self enc lm st w =
      (Ok (Speller.LoopState iv (Some hid) (Some a) (Speller.prev_tokens st)
             (Speller.decoder_outputs st ++ [so]) rd), w') ∧
    shape iv = [b; 1%nat] ∧ shape so = [b; nc] ∧ steps w' = S (steps w) ∧
    (training = true → rd = Speller.ret_dict st) ∧
    (training = false → has_keys rd).
Proof.
  intros Hs Hb Hn Hmode Hkeys. unfold Speller.free_running_step.
  destruct (forward_step_ok (Speller.input_var st) (Speller.hidden st) enc (Speller.attn st)
              b 1 w Hs Hb ltac:(lia)) as (so & hid & a & w1 & Hf & Hso & Hst & _ & _).
  simpl in Hso.
  destruct (topk1_matrix (argmax N) so b nc Hso Hn) as [l Hl].
  rewrite (bind_Ok _ _ _ _ _ Hf). cbv beta iota.
  rewrite (bind_Ok _ _ _ _ _ (get_bool_Some _ _ _ _ (attr_training _ _ _ _ _ _ _ Hself))).
  destruct training; cbn [negb].
  - rewrite bind_ret_eq. rewrite (bind_lift_Ok _ _ _ _ Hl).
    exists so, hid, a, (Tensor [b; 1%nat] l), (Speller.ret_dict st), w1, w1.
    split_and!; try assumption; try reflexivity; try discriminate.
  - destruct Hmode as [Ht | Hlm]; [discriminate | subst lm].
    destruct (Hkeys eq_refl) as [[la Ha] [ls Hls]].
    unfold dict_append at 1. rewrite Ha.
    rewrite !bind_ret_eq.
    unfold dict_append at 1.
    assert (Hls' : <[Speller.KEY_ATTENTION_SCORE := la ++ [DAttn a]]> (Speller.ret_dict st)
                     !! Speller.KEY_SEQUENCE_SYMBOL = Some ls).
    { rewrite lookup_insert_ne; [exact Hls | discriminate]. }
    rewrite Hls'. rewrite !bind_ret_eq.
    rewrite (bind_lift_Ok _ _ _ _ Hl).
    eexists so, hid, a, (Tensor [b; 1%nat] l), _, w1, w1.
    split_and!; try assumption; try reflexivity; try discriminate.
    intros _. split.
    + rewrite lookup_insert_ne by discriminate. rewrite lookup_insert_eq. eauto.
    + rewrite lookup_insert_eq. eauto.
Qed.

Lemma free_running_loop enc lm b :
  (0 < b)%nat → (0 < nc)%nat → training = true ∨ lm = None →
  ∀ n l (st : Speller.loop_state H) (w : World G),
    shape (Speller.input_var st) = [b; 1%nat] →
    (training = false → has_keys (Speller.ret_dict st)) →
    ∃ st' w',
      for_each l (fun _ st => Speller.free_running_step N self enc lm st) st w = (Ok st', w') ∧
      (length l = n →
       length (Speller.decoder_outputs st') = (length (Speller.decoder_outputs st) + n)%nat ∧
       steps w' = (steps w + n)%nat) ∧
      (training = true → Speller.ret_dict st' = Speller.ret_dict st) ∧
      (training = false → has_keys (Speller.ret_dict st')).
Proof.
  intros Hb Hn Hmode n l. revert n.
  induction l as [|i l IH]; intros n st w Hs Hk.
  - exists st, w. simpl. split_and!; auto. intros <-. lia.
  - cbn [for_each].
    destruct (free_running_step_ok st enc lm b w Hs Hb Hn Hmode Hk)
      as (so & hid & a & iv & rd & w1 & w2 & _ & Hstep & Hiv & Hso & Hst & Hrd & Hkeys).
    rewrite (bind_Ok _ _ _ _ _ Hstep).
    destruct (IH (length l)
                (Speller.LoopState iv (Some hid) (Some a) (Speller.prev_tokens st)
                   (Speller.decoder_outputs st ++ [so]) rd) w2 Hiv Hkeys)
      as (st' & w' & Hl & Hlen & Hrd' & Hkeys').
    exists st', w'. split; [exact Hl |].
    destruct (Hlen eq_refl) as [Hlen1 Hlen2]. simpl in *.
    split_and!.
    + intros <-. rewrite Hlen1, Hlen2, length_app. simpl. lia.
    + intros Ht. rewrite (Hrd' Ht). auto.
    + exact Hkeys'.
Qed.

Lemma has_keys_initial : has_keys (initial_ret_dict false).
Proof.
  split; unfold initial_ret_dict; simpl.
  - rewrite lookup_insert_ne by discriminate. rewrite lookup_insert_eq. eauto.
  - rewrite lookup_insert_eq. eauto.
Qed.

Lemma free_running_branch_ok inputs enc lm b n (w : World G) :
  shape inputs = [b; n] → (0 < n)%nat → (0 < b)%nat → (0 < nc)%nat →
  training = true ∨ lm = None →
  ∀ ml, ∃ outs rd w',
    Speller.free_running_branch N self inputs ml enc lm (initial_ret_dict training) w =
      (Ok (outs, rd), w') ∧
    length outs = Z.to_nat ml ∧ steps w' = (steps w + Z.to_nat ml)%nat.
Proof.
  intros Hs Hn Hb Hc Hmode ml. unfold Speller.free_running_branch.
  destruct (select1_column inputs b n 0 Hs Hn) as [l Hl]. simpl in Hl.
  rewrite (bind_lift_Ok _ _ _ _ Hl).
  rewrite (bind_lift_Ok _ _ _ _ (unsqueeze1_vector l b)).
  unfold for_range.
  edestruct (free_running_loop enc lm b Hb Hc Hmode (Z.to_nat ml) (seq 0 (Z.to_nat ml))
               (Speller.LoopState (Tensor [b; 1%nat] l) None None
                  match lm with Some _ => Some (Tensor [b; 1%nat] l) | None => None end
                  [] (initial_ret_dict training)) w eq_refl)
    as (st' & w' & Hloop & Hlen & _ & _).
  { intros ->. apply has_keys_initial. }
  rewrite (bind_Ok _ _ _ _ _ Hloop).
  destruct (Hlen (length_seq _ _)) as [Hlen1 Hlen2].
  exists (Speller.decoder_outputs st'), (Speller.ret_dict st'), w'.
  split; [reflexivity |]. simpl in Hlen1. split; assumption.
Qed.

(** With a language model attached outside training mode, a step reaches
    the fusion and fails on the attribute it reads. *)
Lemma free_running_step_lm_raises (st : Speller.loop_state H) enc lm b pt pb pn (w : World G) :
  training = false → self !! "acoustic_weight" = None → LanguageModel_shapes lm →
  shape (Speller.input_var st) = [b; 1%nat] → (0 < b)%nat →
  Speller.prev_tokens st = Some pt → shape pt = [pb; pn] → (0 < pn)%nat →
  has_keys (Speller.ret_dict st) →
  ∃ w',
    Speller.free_running_step N self enc (Some lm) st w =
      (Raise (AttributeError "acoustic_weight"), w') ∧ steps w' = S (steps w).
Proof.
  intros Ht Hnone Hlm Hs Hb Hpt Hps Hpn [[la Ha] [ls Hls]].
  unfold Speller.free_running_step.
  destruct (forward_step_ok (Speller.input_var st) (Speller.hidden st) enc (Speller.attn st)
              b 1 w Hs Hb ltac:(lia)) as (so & hid & a & w1 & Hf & Hso & Hst & _ & _).
  rewrite (bind_Ok _ _ _ _ _ Hf). cbv beta iota.
  rewrite (bind_Ok _ _ _ _ _ (get_bool_Some _ _ _ _ (attr_training _ _ _ _ _ _ _ Hself))).
  subst training. cbn [negb].
  exists w1. split; [| exact Hst].
  erewrite bind_Raise; [reflexivity |].
  rewrite bind_ret_eq. unfold dict_append at 1. rewrite Ha. rewrite bind_ret_eq.
  unfold dict_append at 1.
  rewrite lookup_insert_ne by discriminate. rewrite Hls. rewrite bind_ret_eq.
  erewrite bind_Raise; [reflexivity |].
  unfold Speller.fuse. rewrite Hpt. rewrite bind_ret_eq.
  destruct (Hlm pt pb pn Hps) as [v Hv].
  destruct (select1_last (lm_forward_step lm pt) pb pn v Hv Hpn) as [l Hl].
  rewrite (bind_lift_Ok _ _ _ _ Hl).
  assert (Hsq : ∃ t, squeeze 1 (Tensor [pb; v] l) = Ok t).
  { unfold squeeze. simpl. destruct (v =? 1)%nat; eauto. }
  destruct Hsq as [t Hsq]. rewrite (bind_lift_Ok _ _ _ _ Hsq).
  erewrite bind_Raise; [reflexivity |].
  now apply get_float_None.
Qed.

Lemma free_running_branch_lm_raises inputs enc lm b n ml (w : World G) :
  shape inputs = [b; n] → (0 < n)%nat → (0 < b)%nat →
  training = false → self !! "acoustic_weight" = None → LanguageModel_shapes lm →
  0 < ml →
  ∃ w',
    Speller.free_running_branch N self inputs ml enc (Some lm) (initial_ret_dict training) w =
      (Raise (AttributeError "acoustic_weight"), w') ∧ steps w' = S (steps w).
Proof.
  intros Hs Hn Hb Ht Hnone Hlm Hml. unfold Speller.free_running_branch.
  destruct (select1_column inputs b n 0 Hs Hn) as [l Hl]. simpl in Hl.
  rewrite (bind_lift_Ok _ _ _ _ Hl).
  rewrite (bind_lift_Ok _ _ _ _ (unsqueeze1_vector l b)).
  unfold for_range.
  destruct (Z.to_nat ml) as [|m] eqn:Em; [lia |]. cbn [seq for_each].
  edestruct (free_running_step_lm_raises
               (Speller.LoopState (Tensor [b; 1%nat] l) None None (Some (Tensor [b; 1%nat] l))
                  [] (initial_ret_dict training)) enc lm b (Tensor [b; 1%nat] l) b 1 w
               Ht Hnone Hlm eq_refl Hb eq_refl eq_refl ltac:(lia)) as (w' & Hr & Hst).
  { rewrite Ht. apply has_keys_initial. }
  exists w'. split; [| exact Hst].
  erewrite bind_Raise; [reflexivity |].
  erewrite bind_Raise; [reflexivity |]. exact Hr.
Qed.

(** ** The teacher-forced branch *)

Lemma strip_eos_eq inputs b :
  Speller.strip_eos eos_id b inputs =
    let n := length (non_eos eos_id (flat inputs)) in
    if (b =? 0)%nat then
      Raise (RuntimeError "shape is invalid or the unspecified dimension is ambiguous")
    else if (n mod b =? 0)%nat then Ok (Tensor [b; (n / b)%nat] (non_eos eos_id (flat inputs)))
    else Raise (RuntimeError "shape is invalid for input size").
Proof.
  unfold Speller.strip_eos. rewrite view_rows_eq.
  unfold numel, masked_ne, non_eos. simpl. rewrite Nat.mul_1_r. reflexivity.
Qed.

Lemma teacher_forced_branch_ok inputs enc b rd (w : World G) :
  let n := length (non_eos eos_id (flat inputs)) in
  (0 < b)%nat → (n mod b = 0)%nat →
  attn_mechanism = "loc" ∨ (2 ≤ n / b)%nat →
  ∃ outs w',
    Speller.teacher_forced_branch N self inputs b enc rd w = (Ok (outs, rd), w') ∧
    length outs = (n / b)%nat ∧
    (attn_mechanism = "loc" → steps w' = (steps w + n / b)%nat).
Proof.
  intros n Hb Hmod Hcase. unfold Speller.teacher_forced_branch.
  rewrite (bind_Ok _ _ _ _ _ (get_int_Some _ _ _ _ (attr_eos_id _ _ _ _ _ _ _ Hself))).
  assert (Hstrip : Speller.strip_eos eos_id b inputs =
                   Ok (Tensor [b; (n / b)%nat] (non_eos eos_id (flat inputs)))).
  { rewrite strip_eos_eq. cbv zeta. fold n.
    destruct (Nat.eqb_spec b 0); [lia |]. rewrite Hmod. reflexivity. }
  rewrite (bind_lift_Ok _ _ _ _ Hstrip).
  rewrite (bind_Ok _ _ _ _ _ (get_str_Some _ _ _ _ (attr_attn_mechanism _ _ _ _ _ _ _ Hself))).
  destruct (String.eqb_spec attn_mechanism "loc") as [El|Nl].
  - destruct (teacher_forced_stepwise_ok (Tensor [b; (n / b)%nat] (non_eos eos_id (flat inputs)))
                enc b (n / b) None None [] w eq_refl Hb) as (h & a & outs & w' & Hr & Hlen & Hst & _).
    rewrite (bind_Ok _ _ _ _ _ Hr). exists outs, w'. simpl. auto.
  - destruct Hcase as [|Hc]; [contradiction |].
    destruct (teacher_forced_batched_ok (Tensor [b; (n / b)%nat] (non_eos eos_id (flat inputs)))
                enc b (n / b) None None [] w eq_refl Hb Hc) as (h & a & outs & w' & Hr & Hlen & Hst & _).
    rewrite (bind_Ok _ _ _ _ _ Hr). exists outs, w'. simpl.
    split_and!; auto. intros; contradiction.
Qed.

(** ** [forward] as a whole *)

Lemma forward_None enc p lm b (w : World G) :
  size enc 0 = Ok b →
  Speller.forward N self None enc p lm w =
    if Qlt_bool 0 p then
      (Raise (ValueError
                "Teacher forcing has to be disabled (set 0) when no inputs is provided."), w)
    else
      let inputs := Tensor [b; 1%nat] (replicate b sos_id) in
      let w1 := after_draw (after_validation lm w) in
      if Qlt_bool (py_random w (drawn w)) p
      then Speller.teacher_forced_branch N self inputs b enc (initial_ret_dict training) w1
      else Speller.free_running_branch N self inputs max_length enc lm
             (initial_ret_dict training) w1.
Proof.
  intros Hb. unfold Speller.forward.
  rewrite (bind_Ok _ _ _ _ _ (get_bool_Some _ _ _ _ (attr_training _ _ _ _ _ _ _ Hself))).
  pose proof (validate_args_None enc p lm b w Hb) as Hv.
  destruct (Qlt_bool 0 p).
  - rewrite (bind_Raise _ _ _ _ _ Hv). reflexivity.
  - rewrite (bind_Ok _ _ _ _ _ Hv). cbv beta iota zeta.
    unfold random_random at 1. unfold bind at 1.
    destruct lm; cbn [py_random drawn]; destruct (Qlt_bool _ p); reflexivity.
Qed.

Lemma forward_Some (inputs : tensor Z) enc p lm b n (w : World G) :
  size enc 0 = Ok b → size inputs 1 = Ok n →
  Speller.forward N self (Some inputs) enc p lm w =
    let w1 := after_draw (after_validation lm w) in
    if Qlt_bool (py_random w (drawn w)) p
    then Speller.teacher_forced_branch N self inputs b enc (initial_ret_dict training) w1
    else Speller.free_running_branch N self inputs (Z.of_nat n - 1) enc lm
           (initial_ret_dict training) w1.
Proof.
  intros Hb Hn. unfold Speller.forward.
  rewrite (bind_Ok _ _ _ _ _ (get_bool_Some _ _ _ _ (attr_training _ _ _ _ _ _ _ Hself))).
  rewrite (bind_Ok _ _ _ _ _ (validate_args_Some inputs enc p lm b n w Hb Hn)).
  cbv beta iota zeta. unfold random_random at 1. unfold bind at 1.
  destruct lm; cbn [py_random drawn]; destruct (Qlt_bool _ p); reflexivity.
Qed.
End Steps.

(** ** Rows and end-of-sequence tokens *)

Lemma non_eos_app e l1 l2 : non_eos e (l1 ++ l2) = non_eos e l1 ++ non_eos e l2.
Proof. unfold non_eos. apply List.filter_app. Qed.

Lemma non_eos_length_count e l :
  (length (non_eos e l) + count_occ Z.eq_dec l e = length l)%nat.
Proof.
  induction l as [|x l IH]; simpl; [reflexivity |].
  destruct (Z.eq_dec x e) as [->|Hne].
  - rewrite Z.eqb_refl. simpl. lia.
  - destruct (Z.eqb_spec x e); [contradiction |]. simpl. lia.
Qed.

Lemma non_eos_Forall e l : Forall (fun x => x ≠ e) (non_eos e l).
Proof.
  induction l as [|x l IH]; simpl; [constructor |].
  destruct (Z.eqb_spec x e); simpl; [assumption | constructor; assumption].
Qed.

Lemma non_eos_chunks e n c :
  ∀ b l, length l = (b * n)%nat →
    (∀ i, (i < b)%nat → length (non_eos e (take n (drop (i * n) l))) = c) →
    length (non_eos e l) = (b * c)%nat.
Proof.
  induction b as [|b IH]; intros l Hlen Hrows.
  - destruct l; [reflexivity | discriminate].
  - rewrite <- (take_drop n l), non_eos_app, length_app.
    pose proof (Hrows 0%nat ltac:(lia)) as H0. simpl in H0. rewrite ?drop_0 in H0. rewrite H0.
    rewrite (IH (drop n l)); [lia | |].
    + rewrite length_drop. lia.
    + intros i Hi. rewrite drop_drop. rewrite <- (Hrows (S i) ltac:(lia)).
      reflexivity.
Qed.

Lemma rows_non_eos_total e (t : tensor Z) b n c :
  shape t = [b; n] → wf_tensor t → rows_non_eos e t c →
  length (non_eos e (flat t)) = (b * c)%nat.
Proof.
  intros Hs Hwf Hrows. apply (non_eos_chunks e n c b).
  - unfold wf_tensor, numel in Hwf. rewrite Hs in Hwf. simpl in Hwf. lia.
  - intros i Hi. specialize (Hrows i b). rewrite Hs in Hrows.
    specialize (Hrows eq_refl Hi). unfold row in Hrows. now rewrite Hs in Hrows.
Qed.

Lemma rows_one_eos_non_eos e (t : tensor Z) b n :
  shape t = [b; n] → wf_tensor t → rows_one_eos e t → rows_non_eos e t (n - 1).
Proof.
  intros Hs Hwf Hone i b' Hb' Hi. rewrite Hs in Hb'. injection Hb' as <-.
  specialize (Hone i b). rewrite Hs in Hone. specialize (Hone eq_refl Hi).
  pose proof (non_eos_length_count e (row t i)) as Hc. rewrite Hone in Hc.
  assert (length (row t i) = n); [| lia].
  unfold row. rewrite Hs. rewrite length_take, length_drop.
  unfold wf_tensor, numel in Hwf. rewrite Hs in Hwf. simpl in Hwf. nia.
Qed.

Lemma Qlt_bool_iff x y : Qlt_bool x y = true ↔ (x < y)%Q.
Proof.
  unfold Qlt_bool. rewrite negb_true_iff. split.
  - intros Hf. apply Qnot_le_lt. intros Hle. apply Qle_bool_iff in Hle. congruence.
  - intros Hlt. destruct (Qle_bool y x) eqn:E; [| reflexivity].
    apply Qle_bool_iff in E. exfalso. exact (Qlt_not_le _ _ Hlt E).
Qed.

Lemma Qlt_bool_false x y : Qlt_bool x y = false ↔ ¬ (x < y)%Q.
Proof.
  rewrite <- Qlt_bool_iff. destruct (Qlt_bool x y); split; congruence.
Qed.

(** ** The small instance meets the contracts *)

Lemma toy_constructors_ok : Constructors_ok toy_constructors.
Proof.
  split; intros i h n r d b dev base [= <-].
  - by simplify_map_eq.
  - rewrite lookup_insert_eq. eauto.
  - exists (PModule BaseRNN_rnn). by simplify_map_eq.
  - by simplify_map_eq.
Qed.

Lemma toy_linear_shape out x n k : shape x = [n; k] → shape (toy_linear out x) = [n; out].
Proof. intros Hs. unfold toy_linear. now rewrite Hs. Qed.

Lemma toy_attention_shape q k third b t h :
  shape q = [b; t; h] → shape (fst (toy_attention q k third)) = [b; t; (2 * h)%nat].
Proof.
  intros Hs. unfold toy_attention. rewrite Hs.
  destruct (shape k) as [|kb [|kt rest]]; reflexivity.
Qed.

Lemma toy_layers_shapes hd nc : Layers_shapes (toy_layers hd nc) hd nc.
Proof.
  split; simpl; intros.
  - match goal with Hs : shape _ = _ |- _ => rewrite Hs end. reflexivity.
  - reflexivity.
  - reflexivity.
  - now apply toy_attention_shape.
  - now apply toy_attention_shape.
  - eapply toy_linear_shape; eassumption.
  - reflexivity.
  - eapply toy_linear_shape; eassumption.
  - reflexivity.
Qed.

Lemma toy_lm_shapes nc : LanguageModel_shapes (toy_lm nc).
Proof. intros x b t Hs. exists nc. simpl. now rewrite Hs. Qed.

Lemma toy_init attn_mechanism :
  attn_mechanism = "loc" ∨ attn_mechanism = "dot" →
  Speller.__init__ toy_constructors 3 5 2 1 2 attn_mechanism 4 2 "lstm" (3 # 10) "cpu" =
    Ok (toy_object attn_mechanism).
Proof. intros [-> | ->]; reflexivity. Qed.

(** * The claims *)

Section Claims.
Context {H G : Type}.
Variable C : Constructors.
Variable N : Layers H G.
Variables (hd nc : nat).
Hypothesis C_ok : Constructors_ok C.
Hypothesis N_ok : Layers_shapes N hd nc.
Hypothesis hd_pos : (0 < hd)%nat.
Variables (max_length sos_id eos_id : Z) (attn_mechanism : string).
Variables (num_heads num_layers : Z) (rnn_type : string) (dropout_p : Q) (device : string).
Variable self0 : object.
Hypothesis Hinit :
  Speller.__init__ C (Z.of_nat nc) max_length (Z.of_nat hd) sos_id eos_id attn_mechanism
    num_heads num_layers rnn_type dropout_p device = Ok self0.

Lemma self_attrs training :
  Speller_attrs (Speller.train training self0) max_length (Z.of_nat hd) sos_id eos_id
    attn_mechanism training.
Proof. eapply init_attrs; eassumption. Qed.

(** In the teacher-forced branch the trace has one entry per column of the
    stripped token matrix. *)
Lemma teacher_forced_length training inputs enc p lm b L (w : World G) :
  let n := length (non_eos eos_id (flat inputs)) in
  let self := Speller.train training self0 in
  size inputs 1 = Ok L → size enc 0 = Ok b →
  (py_random w (drawn w) < p)%Q →
  (0 < b)%nat → (n mod b = 0)%nat →
  attn_mechanism = "loc" ∨ (2 ≤ n / b)%nat →
  ∃ outs w',
    Speller.forward N self (Some inputs) enc p lm w =
      (Ok (outs, initial_ret_dict training), w') ∧
    Speller.forward N self (Some inputs) enc p lm w =
      Speller.teacher_forced_branch N self inputs b enc (initial_ret_dict training)
        (after_draw (after_validation lm w)) ∧
    length outs = (n / b)%nat ∧
    (attn_mechanism = "loc" → steps w' = (steps w + n / b)%nat).
Proof.
  intros n self HL Hb Hu Hbpos Hmod Hcase. subst self.
  pose proof (self_attrs training) as Hattrs.
  rewrite (forward_Some N _ _ _ _ _ _ _ Hattrs inputs enc p lm b L w Hb HL).
  cbv zeta. apply Qlt_bool_iff in Hu. rewrite Hu.
  destruct (teacher_forced_branch_ok N hd nc N_ok hd_pos _ _ _ _ _ _ _ eq_refl Hattrs
              inputs enc b (initial_ret_dict training) (after_draw (after_validation lm w))
              Hbpos Hmod Hcase) as (outs & w' & Hr & Hlen & Hst).
  exists outs, w'. split_and!; try assumption; try reflexivity.
  intros Hloc. rewrite (Hst Hloc). destruct lm; reflexivity.
Qed.

(** C1 (amended).  With teacher-forcing probability 1.0 and a target matrix
    of [L] columns, made of token ids of the vocabulary, whose rows each
    hold exactly one end-of-sequence token, [forward] takes the
    teacher-forced branch and returns a trace of [L - 1] distributions; for
    content-based attention this is shown for [L >= 3]. *)
Theorem teacher_forced_trace_length training inputs enc p lm b L (w : World G) :
  shape inputs = [b; L] → wf_tensor inputs → in_vocabulary nc inputs →
  size enc 0 = Ok b → (0 < b)%nat →
  rows_one_eos eos_id inputs →
  (p == 1)%Q → (py_random w (drawn w) < 1)%Q →
  attn_mechanism = "loc" ∨ (3 ≤ L)%nat →
  ∃ outs rd w',
    Speller.forward N (Speller.train training self0) (Some inputs) enc p lm w =
      (Ok (outs, rd), w') ∧
    Speller.forward N (Speller.train training self0) (Some inputs) enc p lm w =
      Speller.teacher_forced_branch N (Speller.train training self0) inputs b enc
        (initial_ret_dict training) (after_draw (after_validation lm w)) ∧
    length outs = (L - 1)%nat.
Proof.
  intros Hs Hwf _ Hb Hbpos Hone Hp Hu Hcase.
  pose proof (rows_non_eos_total eos_id inputs b L (L - 1) Hs Hwf
                (rows_one_eos_non_eos eos_id inputs b L Hs Hwf Hone)) as Hn.
  assert (HL : size inputs 1 = Ok L) by (unfold size; now rewrite Hs).
  assert (Hu' : (py_random w (drawn w) < p)%Q) by (now rewrite Hp).
  destruct (teacher_forced_length training inputs enc p lm b L w HL Hb Hu' Hbpos)
    as (outs & w' & Hr & Hbr & Hlen & _).
  - rewrite Hn, Nat.mul_comm. apply Nat.Div0.mod_mul.
  - rewrite Hn, Nat.mul_comm, Nat.div_mul by lia. destruct Hcase; [now left | right; lia].
  - exists outs, (initial_ret_dict training), w'. split_and!; try assumption.
    rewrite Hlen, Hn, Nat.mul_comm, Nat.div_mul by lia. reflexivity.
Qed.


(** Outside training mode, with a language model attached, the first
    free-running step fails in the fusion. *)
Lemma free_running_lm_raises enc p lm b (w : World G) :
  LanguageModel_shapes lm → size enc 0 = Ok b → (0 < b)%nat → 0 < max_length →
  (p == 0)%Q → (0 <= py_random w (drawn w))%Q →
  ∃ w',
    Speller.forward N (Speller.train false self0) None enc p (Some lm) w =
      (Raise (AttributeError "acoustic_weight"), w') ∧ steps w' = S (steps w).
Proof.
  intros Hlm Hb Hbpos Hml Hp Hu.
  pose proof (self_attrs false) as Hattrs.
  destruct (init_weights C C_ok _ _ _ _ _ _ _ _ _ _ _ _ Hinit false) as (_ & _ & Hnone).
  rewrite (forward_None N _ _ _ _ _ _ _ Hattrs enc p (Some lm) b w Hb).
  assert (H0 : Qlt_bool 0 p = false).
  { apply Qlt_bool_false. rewrite Hp. apply Qlt_irrefl. }
  assert (H1 : Qlt_bool (py_random w (drawn w)) p = false).
  { apply Qlt_bool_false. rewrite Hp. now apply Qle_not_lt. }
  rewrite H0. cbv zeta. rewrite H1.
  destruct (free_running_branch_lm_raises N hd nc N_ok hd_pos _ _ _ _ _ _ _ eq_refl Hattrs
              (Tensor [b; 1%nat] (replicate b sos_id)) enc lm b 1 max_length
              (after_draw (after_validation (Some lm) w))
              eq_refl ltac:(lia) Hbpos eq_refl Hnone Hlm Hml) as (w' & Hr & Hst).
  exists w'. split; assumption.
Qed.

(** Without a language model, or in training mode, the free-running loop
    appends one distribution per step up to the length cap. *)
Lemma free_running_trace_length training enc p lm b (w : World G) :
  training = true ∨ lm = None →
  size enc 0 = Ok b → (0 < b)%nat → (0 < nc)%nat → 0 <= max_length →
  (p == 0)%Q → (0 <= py_random w (drawn w))%Q →
  ∃ outs rd w',
    Speller.forward N (Speller.train training self0) None enc p lm w = (Ok (outs, rd), w') ∧
    Z.of_nat (length outs) = max_length ∧
    steps w' = (steps w + Z.to_nat max_length)%nat.
Proof.
  intros Hmode Hb Hbpos Hnc Hml Hp Hu.
  pose proof (self_attrs training) as Hattrs.
  rewrite (forward_None N _ _ _ _ _ _ _ Hattrs enc p lm b w Hb).
  assert (H0 : Qlt_bool 0 p = false).
  { apply Qlt_bool_false. rewrite Hp. apply Qlt_irrefl. }
  assert (H1 : Qlt_bool (py_random w (drawn w)) p = false).
  { apply Qlt_bool_false. rewrite Hp. now apply Qle_not_lt. }
  rewrite H0. cbv zeta. rewrite H1.
  destruct (free_running_branch_ok N hd nc N_ok hd_pos _ _ _ _ _ _ _ eq_refl Hattrs
              (Tensor [b; 1%nat] (replicate b sos_id)) enc lm b 1
              (after_draw (after_validation lm w))
              eq_refl ltac:(lia) Hbpos Hnc Hmode max_length) as (outs & rd & w' & Hr & Hlen & Hst).
  exists outs, rd, w'. split_and!; [assumption | lia |].
  rewrite Hst. destruct lm; reflexivity.
Qed.

(** C2.  The constructor stores the weights 0.9 and 0.1 under the names
    [acoutsic_weight] and [language_weight]; the fusion reads
    [acoustic_weight], which no step of construction defines, so a
    free-running call outside training mode with a language model attached
    raises AttributeError at its first step instead of recording
    0.9 * acoustic + 0.1 * language. *)
Theorem fusion_reads_missing_attribute enc p lm b (w : World G) :
  LanguageModel_shapes lm → size enc 0 = Ok b → (0 < b)%nat → 0 < max_length →
  (p == 0)%Q → (0 <= py_random w (drawn w))%Q →
  Speller.train false self0 !! "acoutsic_weight" = Some (PFloat (9 # 10)) ∧
  Speller.train false self0 !! "language_weight" = Some (PFloat (1 # 10)) ∧
  Speller.train false self0 !! "acoustic_weight" = None ∧
  ∃ w',
    Speller.forward N (Speller.train false self0) None enc p (Some lm) w =
      (Raise (AttributeError "acoustic_weight"), w').
Proof.
  intros Hlm Hb Hbpos Hml Hp Hu.
  destruct (init_weights C C_ok _ _ _ _ _ _ _ _ _ _ _ _ Hinit false) as (Ha & Hl & Hnone).
  split_and!; try assumption.
  destruct (free_running_lm_raises enc p lm b w Hlm Hb Hbpos Hml Hp Hu) as (w' & Hr & _).
  eauto.
Qed.

(** C3.  A free-running call without targets, outside training mode and
    with a language model attached, returns no trace at all: it stops with
    an exception after one invocation of the step function, whatever the
    configured maximum length. *)
Theorem free_running_lm_no_trace enc p lm b (w : World G) :
  LanguageModel_shapes lm → size enc 0 = Ok b → (0 < b)%nat → 0 < max_length →
  (p == 0)%Q → (0 <= py_random w (drawn w))%Q →
  trace_length (Speller.forward N (Speller.train false self0) None enc p (Some lm) w) = None ∧
  steps (snd (Speller.forward N (Speller.train false self0) None enc p (Some lm) w)) =
    S (steps w).
Proof.
  intros Hlm Hb Hbpos Hml Hp Hu.
  destruct (free_running_lm_raises enc p lm b w Hlm Hb Hbpos Hml Hp Hu) as (w' & Hr & Hst).
  rewrite Hr. split; [reflexivity | exact Hst].
Qed.

(** C4.  Without targets, a positive teacher-forcing probability makes
    [forward] raise ValueError from the validation, the ambient state
    untouched (no step, no random draw); with probability 0 the validation
    returns a column of start-of-sequence tokens, the batch size and the
    configured maximum length. *)
Theorem validate_args_without_targets training enc p lm b (w : World G) :
  size enc 0 = Ok b →
  ((0 < p)%Q →
   Speller.validate_args (Speller.train training self0) None enc p lm w =
     (Raise (ValueError
               "Teacher forcing has to be disabled (set 0) when no inputs is provided."), w) ∧
   Speller.forward N (Speller.train training self0) None enc p lm w =
     (Raise (ValueError
               "Teacher forcing has to be disabled (set 0) when no inputs is provided."), w)) ∧
  ((p == 0)%Q →
   Speller.validate_args (Speller.train training self0) None enc p lm w =
     (Ok (Tensor [b; 1%nat] (replicate b sos_id), b, max_length), after_validation lm w)).
Proof.
  intros Hb. pose proof (self_attrs training) as Hattrs. split.
  - intros Hp. rewrite (forward_None N _ _ _ _ _ _ _ Hattrs enc p lm b w Hb).
    rewrite (validate_args_None _ _ _ _ _ _ _ Hattrs enc p lm b w Hb).
    apply Qlt_bool_iff in Hp. now rewrite Hp.
  - intros Hp. rewrite (validate_args_None _ _ _ _ _ _ _ Hattrs enc p lm b w Hb).
    assert (H0 : Qlt_bool 0 p = false).
    { apply Qlt_bool_false. rewrite Hp. apply Qlt_irrefl. }
    rewrite H0. reflexivity.
Qed.


(** After a successful validation [forward] draws once and hands over to
    one of the two branches. *)
Lemma forward_after_validation (self : object) training inputs enc p lm
    inputs' b ml (w w1 : World G) :
  self !! "training" = Some (PBool training) →
  Speller.validate_args self inputs enc p lm w = (Ok (inputs', b, ml), w1) →
  Speller.forward N self inputs enc p lm w =
    if Qlt_bool (py_random w (drawn w)) p
    then Speller.teacher_forced_branch N self inputs' b enc (initial_ret_dict training)
           (after_draw w1)
    else Speller.free_running_branch N self inputs' ml enc lm (initial_ret_dict training)
           (after_draw w1).
Proof.
  intros Ht Hv. unfold Speller.forward.
  rewrite (bind_Ok _ _ _ _ _ (get_bool_Some _ _ _ _ Ht)).
  rewrite (bind_Ok _ _ _ _ _ Hv). cbv beta iota zeta.
  unfold random_random at 1. unfold bind at 1.
  destruct (keeps_random_validate_args self inputs enc p lm w) as [Hr Hd].
  rewrite Hv in Hr, Hd. simpl in Hr, Hd.
  assert (Hu : py_random w (drawn w) = py_random w1 (drawn w1)) by congruence.
  rewrite Hu. destruct (Qlt_bool _ p); reflexivity.
Qed.

(** C6.  A call that passes validation takes exactly one sample from
    Python's random source, whatever happens afterwards; the teacher-forced
    branch runs exactly when that sample is below the teacher-forcing
    probability, and the other branch otherwise. *)
Theorem mode_selected_by_one_draw (self : object) training inputs enc p lm
    inputs' b ml (w w1 : World G) :
  self !! "training" = Some (PBool training) →
  Speller.validate_args self inputs enc p lm w = (Ok (inputs', b, ml), w1) →
  drawn (snd (Speller.forward N self inputs enc p lm w)) = S (drawn w) ∧
  py_random (snd (Speller.forward N self inputs enc p lm w)) = py_random w ∧
  ((py_random w (drawn w) < p)%Q →
   Speller.forward N self inputs enc p lm w =
     Speller.teacher_forced_branch N self inputs' b enc (initial_ret_dict training)
       (after_draw w1)) ∧
  (¬ (py_random w (drawn w) < p)%Q →
   Speller.forward N self inputs enc p lm w =
     Speller.free_running_branch N self inputs' ml enc lm (initial_ret_dict training)
       (after_draw w1)).
Proof.
  intros Ht Hv.
  rewrite (forward_after_validation self training inputs enc p lm inputs' b ml w w1 Ht Hv).
  destruct (keeps_random_validate_args self inputs enc p lm w) as [Hr Hd].
  rewrite Hv in Hr, Hd. simpl in Hr, Hd.
  destruct (Qlt_bool (py_random w (drawn w)) p) eqn:E.
  - destruct (keeps_random_teacher_forced_branch N self inputs' b enc
                (initial_ret_dict training) (after_draw w1)) as [Hr' Hd'].
    simpl in Hr', Hd'. rewrite Hr', Hd', Hr, Hd.
    split_and!; try reflexivity.
    intros Hn. apply Qlt_bool_iff in E. contradiction.
  - destruct (keeps_random_free_running_branch N self inputs' ml enc lm
                (initial_ret_dict training) (after_draw w1)) as [Hr' Hd'].
    simpl in Hr', Hd'. rewrite Hr', Hd', Hr, Hd.
    split_and!; try reflexivity.
    intros Hlt. apply Qlt_bool_iff in Hlt. congruence.
Qed.

(** The teacher-forced branch returns the diagnostics dictionary it is
    given. *)
Lemma teacher_forced_branch_ret_dict (self : object) inputs b enc rd outs rd' (w w' : World G) :
  Speller.teacher_forced_branch N self inputs b enc rd w = (Ok (outs, rd'), w') → rd' = rd.
Proof.
  unfold Speller.teacher_forced_branch. intros Hr.
  apply bind_Ok_inv in Hr as (eos & w1 & _ & Hr).
  apply bind_Ok_inv in Hr as (t & w2 & _ & Hr).
  apply bind_Ok_inv in Hr as (m & w3 & _ & Hr).
  apply bind_Ok_inv in Hr as (r & w4 & _ & Hr).
  now injection Hr as _ <- _.
Qed.

(** C8.  When [forward] takes the teacher-forced branch, the dictionary it
    returns is the one it created on entry: empty in training mode, and
    otherwise holding the two diagnostics keys, each with an empty list. *)
Theorem teacher_forced_no_diagnostics (self : object) training inputs enc p lm
    outs rd (w w' : World G) :
  self !! "training" = Some (PBool training) →
  (py_random w (drawn w) < p)%Q →
  Speller.forward N self inputs enc p lm w = (Ok (outs, rd), w') →
  rd = initial_ret_dict training ∧
  (∀ k l, rd !! k = Some l → l = []) ∧
  (is_Some (rd !! Speller.KEY_ATTENTION_SCORE) ↔ training = false) ∧
  (is_Some (rd !! Speller.KEY_SEQUENCE_SYMBOL) ↔ training = false).
Proof.
  intros Ht Hu Hf.
  assert (Hrd : rd = initial_ret_dict training).
  { destruct (Speller.validate_args self inputs enc p lm w) as [[[[inputs' b] ml]|e] w1] eqn:Hv.
    - rewrite (forward_after_validation self training inputs enc p lm inputs' b ml w w1 Ht Hv)
        in Hf.
      apply Qlt_bool_iff in Hu. rewrite Hu in Hf.
      now apply teacher_forced_branch_ret_dict in Hf.
    - unfold Speller.forward in Hf.
      rewrite (bind_Ok _ _ _ _ _ (get_bool_Some _ _ _ _ Ht)) in Hf.
      rewrite (bind_Raise _ _ _ _ _ Hv) in Hf. discriminate. }
  subst rd. split; [reflexivity |].
  unfold initial_ret_dict, Speller.KEY_ATTENTION_SCORE, Speller.KEY_SEQUENCE_SYMBOL.
  destruct training; simpl; split_and!.
  - intros k l Hk. rewrite lookup_empty in Hk. discriminate.
  - rewrite lookup_empty. split; [intros [? ?]; discriminate | discriminate].
  - rewrite lookup_empty. split; [intros [? ?]; discriminate | discriminate].
  - intros k l Hk.
    destruct (decide (k = "sequence_symbol")) as [->|Hn1].
    + rewrite lookup_insert_eq in Hk. congruence.
    + rewrite lookup_insert_ne in Hk by congruence.
      destruct (decide (k = "attention_score")) as [->|Hn2].
      * rewrite lookup_insert_eq in Hk. congruence.
      * rewrite lookup_insert_ne in Hk by congruence. rewrite lookup_empty in Hk. discriminate.
  - rewrite lookup_insert_ne by discriminate. rewrite lookup_insert_eq. split; eauto.
  - rewrite lookup_insert_eq. split; eauto.
Qed.


(** The fusion and what follows the step function in a free-running step
    leave the ambient state as it is. *)
Lemma keeps_world_fuse (self : object) lm prev so :
  keeps same_world (Speller.fuse N self lm prev so).
Proof. unfold Speller.fuse. keeps_tac. Qed.

(** C9.  In a free-running step with a language model attached, the hidden
    state and the alignment handed to the next step are the ones the step
    function returned; the fusion, when it runs, only replaces the
    distribution that is appended to the trace and from which the next
    input token is taken, and extends the token history of the language
    model. *)
Theorem fusion_keeps_recurrent_state (self : object) enc lm
    (st st' : Speller.loop_state H) (w w' : World G) :
  Speller.free_running_step N self enc (Some lm) st w = (Ok st', w') →
  ∃ so h a,
    Speller.forward_step N self (Speller.input_var st) (Speller.hidden st) enc
      (Speller.attn st) w = (Ok (so, h, a), w') ∧
    Speller.hidden st' = h ∧ Speller.attn st' = a ∧
    ∃ d,
      Speller.decoder_outputs st' = Speller.decoder_outputs st ++ [d] ∧
      topk1_indices (argmax N) d = Ok (Speller.input_var st') ∧
      ((self !! "training" = Some (PBool true) ∧ d = so ∧
        Speller.prev_tokens st' = Speller.prev_tokens st) ∨
       (self !! "training" = Some (PBool false) ∧
        Speller.fuse N self lm (Speller.prev_tokens st) so w' =
          (Ok (d, Speller.prev_tokens st'), w'))).
Proof.
  unfold Speller.free_running_step. intros Hstep.
  apply bind_Ok_inv in Hstep as ([[so h] a] & w1 & Hf & Hstep).
  apply bind_Ok_inv in Hstep as (tr & w2 & Htr & Hstep).
  apply bind_Ok_inv in Hstep as ([[d pt] rd] & w3 & Hd & Hstep).
  apply bind_Ok_inv in Hstep as (iv & w4 & Hiv & Hstep).
  injection Hstep as <- <-.
  unfold lift in Hiv. injection Hiv as Hiv <-.
  assert (Htr' : self !! "training" = Some (PBool tr) ∧ w2 = w1).
  { unfold get_bool, getattr in Htr. destruct (self !! "training") as [[]|]; try discriminate.
    unfold bind, ret in Htr. now injection Htr as <- <-. }
  destruct Htr' as [Htr' ->].
  destruct tr; cbn [negb] in Hd.
  - injection Hd as <- <- <- <-.
    exists so, h, a. split_and!; try assumption; try reflexivity.
    exists so. simpl. split_and!; try assumption; try reflexivity. left. auto.
  - apply bind_Ok_inv in Hd as (a0 & v1 & Ha0 & Hd).
    assert (v1 = w1) as ->.
    { destruct a; [now injection Ha0 as _ <- | discriminate]. }
    apply bind_Ok_inv in Hd as (rd1 & v2 & Hrd1 & Hd).
    assert (v2 = w1) as ->.
    { unfold dict_append in Hrd1. destruct (_ !! _); [now injection Hrd1 as _ <- | discriminate]. }
    apply bind_Ok_inv in Hd as (rd2 & v3 & Hrd2 & Hd).
    assert (v3 = w1) as ->.
    { unfold dict_append in Hrd2. destruct (_ !! _); [now injection Hrd2 as _ <- | discriminate]. }
    apply bind_Ok_inv in Hd as ([d' pt'] & v4 & Hfuse & Hd).
    injection Hd as <- <- <- <-.
    pose proof (keeps_world_fuse self lm (Speller.prev_tokens st) so w1) as Hk.
    rewrite Hfuse in Hk. unfold same_world in Hk. simpl in Hk. subst v4.
    exists so, h, a. split_and!; try assumption; try reflexivity.
    exists d'. simpl. split_and!; try assumption; try reflexivity. right. auto.
Qed.

(** C7.  Content-based attention, teacher forcing, targets that leave one
    token per row once the end-of-sequence tokens are stripped: calling the
    step function position by position yields one distribution, while the
    batched path, and [forward] with it, raises IndexError, because
    [forward_step] has squeezed the length-one time axis away before the
    result is split per position. *)
Theorem batched_path_fails_on_single_position training inputs enc p lm b L (w : World G) :
  attn_mechanism = "dot" → (0 < nc)%nat → (0 < b)%nat →
  size enc 0 = Ok b → size inputs 1 = Ok L →
  length (non_eos eos_id (flat inputs)) = b →
  (py_random w (drawn w) < p)%Q →
  ∃ stripped,
    Speller.strip_eos eos_id b inputs = Ok stripped ∧ shape stripped = [b; 1%nat] ∧
    (∀ v, ∃ v',
       Speller.teacher_forced_batched N (Speller.train training self0) stripped enc
         (None, None, []) v = (Raise (IndexError "too many indices for tensor"), v')) ∧
    (∀ v, ∃ h a d v',
       Speller.teacher_forced_stepwise N (Speller.train training self0) stripped enc
         (None, None, []) v = (Ok (h, a, [d]), v') ∧ shape d = [b; nc]) ∧
    ∃ w',
      Speller.forward N (Speller.train training self0) (Some inputs) enc p lm w =
        (Raise (IndexError "too many indices for tensor"), w').
Proof.
  intros Hdot Hnc Hbpos Hb HL Hn Hu.
  pose proof (self_attrs training) as Hattrs.
  set (stripped := Tensor [b; 1%nat] (non_eos eos_id (flat inputs))).
  assert (Hstrip : Speller.strip_eos eos_id b inputs = Ok stripped).
  { rewrite strip_eos_eq. cbv zeta. rewrite Hn.
    destruct (Nat.eqb_spec b 0); [lia |].
    rewrite Nat.Div0.mod_same, Nat.div_same by lia. reflexivity. }
  exists stripped. split_and!; [assumption | reflexivity | | |].
  - intros v.
    apply (teacher_forced_batched_single N hd nc N_ok hd_pos _ _ _ _ _ _ _ eq_refl Hattrs
             stripped enc b None None [] v eq_refl Hbpos Hnc).
  - intros v.
    destruct (teacher_forced_stepwise_ok N hd nc N_ok hd_pos _ _ _ _ _ _ _ eq_refl Hattrs
                stripped enc b 1 None None [] v eq_refl Hbpos)
      as (h & a & outs & v' & Hr & Hlen & _ & Hall).
    destruct outs as [|d [|? ?]]; try discriminate.
    exists h, a, d, v'. split; [exact Hr | now inversion Hall].
  - rewrite (forward_Some N _ _ _ _ _ _ _ Hattrs inputs enc p lm b L w Hb HL).
    cbv zeta. apply Qlt_bool_iff in Hu. rewrite Hu.
    unfold Speller.teacher_forced_branch.
    rewrite (bind_Ok _ _ _ _ _ (get_int_Some _ _ _ _ (attr_eos_id _ _ _ _ _ _ _ Hattrs))).
    rewrite (bind_lift_Ok _ _ _ _ Hstrip).
    rewrite (bind_Ok _ _ _ _ _ (get_str_Some _ _ _ _ (attr_attn_mechanism _ _ _ _ _ _ _ Hattrs))).
    rewrite Hdot. cbn [String.eqb Ascii.eqb Bool.eqb].
    destruct (teacher_forced_batched_single N hd nc N_ok hd_pos _ _ _ _ _ _ _ eq_refl Hattrs
                stripped enc b None None [] (after_draw (after_validation lm w))
                eq_refl Hbpos Hnc) as (w' & Hr).
    exists w'. now rewrite (bind_Raise _ _ _ _ _ Hr).
Qed.

(** C10 (amended).  The teacher-forced branch feeds the step function the
    target tokens other than [eos_id], in row-major order, reshaped to
    [batch_size] rows.  The reshape succeeds exactly when the batch size is
    positive and divides the number [n] of such tokens, as it does when
    every row holds the same number of them; for targets made of token ids
    of the vocabulary the trace then has [n / batch_size] entries (for
    content-based attention: when that is at least 2), and with
    location-aware attention the step function is invoked that many
    times. *)
Theorem strip_eos_steps training inputs enc p lm b L (w : World G) :
  size enc 0 = Ok b → size inputs 1 = Ok L →
  (py_random w (drawn w) < p)%Q →
  let n := length (non_eos eos_id (flat inputs)) in
  (∀ t, Speller.strip_eos eos_id b inputs = Ok t →
        flat t = non_eos eos_id (flat inputs) ∧ Forall (fun x => x ≠ eos_id) (flat t) ∧
        shape t = [b; (n / b)%nat]) ∧
  ((∃ t, Speller.strip_eos eos_id b inputs = Ok t) ↔ (0 < b)%nat ∧ (n mod b = 0)%nat) ∧
  (∀ c, shape inputs = [b; L] → wf_tensor inputs → rows_non_eos eos_id inputs c →
        n = (b * c)%nat) ∧
  (in_vocabulary nc inputs →
   (0 < b)%nat → (n mod b = 0)%nat → attn_mechanism = "loc" ∨ (2 ≤ n / b)%nat →
   ∃ outs rd w',
     Speller.forward N (Speller.train training self0) (Some inputs) enc p lm w =
       (Ok (outs, rd), w') ∧
     length outs = (n / b)%nat ∧
     (attn_mechanism = "loc" → steps w' = (steps w + n / b)%nat)).
Proof.
  intros Hb HL Hu n. split_and!.
  - intros t Ht. rewrite strip_eos_eq in Ht. cbv zeta in Ht. fold n in Ht.
    destruct (b =? 0)%nat; [discriminate |].
    destruct (n mod b =? 0)%nat; [| discriminate].
    injection Ht as <-. simpl. split_and!; [reflexivity | apply non_eos_Forall | reflexivity].
  - rewrite strip_eos_eq. cbv zeta. fold n.
    destruct (Nat.eqb_spec b 0) as [E0|N0].
    + split; [intros [t Ht]; discriminate | lia].
    + destruct (Nat.eqb_spec (n mod b) 0) as [Em|Nm].
      * split; [lia | eauto].
      * split; [intros [t Ht]; discriminate | lia].
  - intros c Hs Hwf Hrows. now apply (rows_non_eos_total eos_id inputs b L c).
  - intros _ Hbpos Hmod Hcase.
    destruct (teacher_forced_length training inputs enc p lm b L w HL Hb Hu Hbpos Hmod Hcase)
      as (outs & w' & Hr & _ & Hlen & Hst).
    exists outs, (initial_ret_dict training), w'. auto.
Qed.

End Claims.

(** C5.  An attention selector other than ['loc'] and ['dot'] never yields
    a decoder: [__init__] raises, and when the base class and the layers
    built before the selector is examined are constructed without error,
    the exception is the ValueError of the final [else]. *)
Theorem unsupported_attention_raises (C : Constructors)
    (num_classes max_length hidden_dim sos_id eos_id : Z) (attn_mechanism : string)
    (num_heads num_layers : Z) (rnn_type : string) (dropout_p : Q) (device : string) :
  attn_mechanism ≠ "loc" → attn_mechanism ≠ "dot" →
  (∀ self,
     Speller.__init__ C num_classes max_length hidden_dim sos_id eos_id attn_mechanism
       num_heads num_layers rnn_type dropout_p device ≠ Ok self) ∧
  (∀ base,
     BaseRNN_init C hidden_dim hidden_dim num_layers rnn_type dropout_p false device = Ok base →
     nn_Embedding C num_classes hidden_dim = Ok tt →
     nn_Dropout C dropout_p = Ok tt →
     Speller.__init__ C num_classes max_length hidden_dim sos_id eos_id attn_mechanism
       num_heads num_layers rnn_type dropout_p device =
       Raise (ValueError "Unsupported attention: %s")).
Proof.
  intros Hl Hd. unfold Speller.__init__.
  destruct (String.eqb_spec attn_mechanism "loc"); [contradiction |].
  destruct (String.eqb_spec attn_mechanism "dot"); [contradiction |].
  split.
  - intros self.
    destruct (BaseRNN_init C _ _ _ _ _ _ _); [| discriminate].
    destruct (nn_Embedding C _ _); [| discriminate].
    destruct (nn_Dropout C _); discriminate.
  - intros base -> -> ->. reflexivity.
Qed.

(** * Runs on the small instance *)

Lemma toy_hd_pos : (0 < 2)%nat.
Proof. lia. Qed.

Lemma toy_sample_nonneg : (0 <= py_random toy_world (drawn toy_world))%Q.
Proof. discriminate. Qed.

Lemma toy_sample_lt_1 : (py_random toy_world (drawn toy_world) < 1)%Q.
Proof. reflexivity. Qed.

(** Targets [sos, 0, eos] for one utterance, content-based attention. *)
Lemma teacher_forced_trace_length_witness :
  ∃ outs rd w',
    Speller.forward (toy_layers 2 3) (Speller.train true (toy_object "dot"))
      (Some (Tensor [1; 3]%nat [1; 0; 2])) (toy_encoder_outputs 1) 1%Q None toy_world =
      (Ok (outs, rd), w') ∧
    Speller.forward (toy_layers 2 3) (Speller.train true (toy_object "dot"))
      (Some (Tensor [1; 3]%nat [1; 0; 2])) (toy_encoder_outputs 1) 1%Q None toy_world =
      Speller.teacher_forced_branch (toy_layers 2 3) (Speller.train true (toy_object "dot"))
        (Tensor [1; 3]%nat [1; 0; 2]) 1 (toy_encoder_outputs 1) (initial_ret_dict true)
        (after_draw (after_validation None toy_world)) ∧
    length outs = (3 - 1)%nat.
Proof.
  apply (teacher_forced_trace_length toy_constructors (toy_layers 2 3) 2 3
           toy_constructors_ok (toy_layers_shapes 2 3) toy_hd_pos
           5 1 2 "dot" 4 2 "lstm" (3 # 10) "cpu" (toy_object "dot")
           (toy_init "dot" (or_intror eq_refl))
           true (Tensor [1; 3]%nat [1; 0; 2]) (toy_encoder_outputs 1) 1%Q None 1 3 toy_world).
  - reflexivity.
  - reflexivity.
  - repeat constructor; simpl; lia.
  - reflexivity.
  - lia.
  - intros i b [= <-] Hi. destruct i; [reflexivity | lia].
  - reflexivity.
  - reflexivity.
  - right. lia.
Defined.

(** C1, as stated, fails on targets [sos, 0, 0], tokens of the vocabulary
    that hold no end-of-sequence token: the trace has 3 entries, not
    [3 - 1]. *)
Lemma teacher_forced_without_eos :
  in_vocabulary 3 (Tensor [1; 3]%nat [1; 0; 0]) ∧
  size (Tensor [1; 3]%nat [1; 0; 0]) 1 = Ok 3%nat ∧
  trace_length (toy_forward "loc" true (Some (Tensor [1; 3]%nat [1; 0; 0])) 1 1%Q None) =
    Some 3%nat ∧
  trace_length (toy_forward "loc" true (Some (Tensor [1; 3]%nat [1; 0; 0])) 1 1%Q None) ≠
    Some (3 - 1)%nat.
Proof.
  split_and!;
    [repeat constructor; simpl; lia | reflexivity | vm_compute; reflexivity
    | vm_compute; discriminate].
Qed.

Lemma fusion_reads_missing_attribute_witness :
  Speller.train false (toy_object "dot") !! "acoutsic_weight" = Some (PFloat (9 # 10)) ∧
  Speller.train false (toy_object "dot") !! "language_weight" = Some (PFloat (1 # 10)) ∧
  Speller.train false (toy_object "dot") !! "acoustic_weight" = None ∧
  ∃ w',
    Speller.forward (toy_layers 2 3) (Speller.train false (toy_object "dot")) None
      (toy_encoder_outputs 2) 0%Q (Some (toy_lm 3)) toy_world =
      (Raise (AttributeError "acoustic_weight"), w').
Proof.
  apply (fusion_reads_missing_attribute toy_constructors (toy_layers 2 3) 2 3
           toy_constructors_ok (toy_layers_shapes 2 3) toy_hd_pos
           5 1 2 "dot" 4 2 "lstm" (3 # 10) "cpu" (toy_object "dot")
           (toy_init "dot" (or_intror eq_refl))
           (toy_encoder_outputs 2) 0%Q (toy_lm 3) 2 toy_world).
  - apply toy_lm_shapes.
  - reflexivity.
  - lia.
  - lia.
  - reflexivity.
  - exact toy_sample_nonneg.
Defined.

Lemma free_running_lm_no_trace_witness :
  trace_length
    (Speller.forward (toy_layers 2 3) (Speller.train false (toy_object "loc")) None
       (toy_encoder_outputs 2) 0%Q (Some (toy_lm 3)) toy_world) = None ∧
  steps (snd (Speller.forward (toy_layers 2 3) (Speller.train false (toy_object "loc")) None
                (toy_encoder_outputs 2) 0%Q (Some (toy_lm 3)) toy_world)) = S (steps toy_world).
Proof.
  apply (free_running_lm_no_trace toy_constructors (toy_layers 2 3) 2 3
           toy_constructors_ok (toy_layers_shapes 2 3) toy_hd_pos
           5 1 2 "loc" 4 2 "lstm" (3 # 10) "cpu" (toy_object "loc")
           (toy_init "loc" (or_introl eq_refl))
           (toy_encoder_outputs 2) 0%Q (toy_lm 3) 2 toy_world).
  - apply toy_lm_shapes.
  - reflexivity.
  - lia.
  - lia.
  - reflexivity.
  - exact toy_sample_nonneg.
Defined.

(** The scenario of the specification: batch 2, maximum length 5, no
    targets, no language model. *)
Example free_running_five_steps :
  trace_length (toy_forward "dot" false None 2 0%Q None) = Some 5%nat ∧
  steps (snd (toy_forward "dot" false None 2 0%Q None)) = 5%nat ∧
  drawn (snd (toy_forward "dot" false None 2 0%Q None)) = 1%nat.
Proof. vm_compute. auto. Qed.

Lemma validate_args_without_targets_witness :
  Speller.forward (toy_layers 2 3) (Speller.train false (toy_object "dot")) None
    (toy_encoder_outputs 2) (1 # 2) None toy_world =
    (Raise (ValueError
              "Teacher forcing has to be disabled (set 0) when no inputs is provided."),
     toy_world) ∧
  Speller.validate_args (Speller.train false (toy_object "dot")) None
    (toy_encoder_outputs 2) 0%Q None toy_world =
    (Ok (Tensor [2; 1]%nat (replicate 2 1), 2%nat, 5), after_validation None toy_world).
Proof.
  split.
  - apply (validate_args_without_targets toy_constructors (toy_layers 2 3) 2 3
             toy_constructors_ok 5 1 2 "dot" 4 2 "lstm" (3 # 10) "cpu" (toy_object "dot")
             (toy_init "dot" (or_intror eq_refl))
             false (toy_encoder_outputs 2) (1 # 2) None 2 toy_world); reflexivity.
  - apply (validate_args_without_targets toy_constructors (toy_layers 2 3) 2 3
             toy_constructors_ok 5 1 2 "dot" 4 2 "lstm" (3 # 10) "cpu" (toy_object "dot")
             (toy_init "dot" (or_intror eq_refl))
             false (toy_encoder_outputs 2) 0%Q None 2 toy_world); reflexivity.
Defined.

Lemma unsupported_attention_raises_witness :
  (∀ self,
     Speller.__init__ toy_constructors 3 5 2 1 2 "bogus" 4 2 "lstm" (3 # 10) "cpu" ≠ Ok self) ∧
  Speller.__init__ toy_constructors 3 5 2 1 2 "bogus" 4 2 "lstm" (3 # 10) "cpu" =
    Raise (ValueError "Unsupported attention: %s").
Proof.
  destruct (unsupported_attention_raises toy_constructors 3 5 2 1 2 "bogus" 4 2 "lstm"
              (3 # 10) "cpu") as [Hnever Hraise].
  - discriminate.
  - discriminate.
  - split; [exact Hnever |].
    eapply Hraise; reflexivity.
Defined.

(** One call with targets and probability 1: one draw, teacher forcing. *)
Lemma mode_selected_by_one_draw_witness :
  drawn (snd (toy_forward "loc" true (Some (Tensor [1; 3]%nat [1; 0; 2])) 1 1%Q None)) = 1%nat ∧
  toy_forward "loc" true (Some (Tensor [1; 3]%nat [1; 0; 2])) 1 1%Q None =
    Speller.teacher_forced_branch (toy_layers 2 3) (Speller.train true (toy_object "loc"))
      (Tensor [1; 3]%nat [1; 0; 2]) 1 (toy_encoder_outputs 1) (initial_ret_dict true)
      (after_draw toy_world).
Proof.
  destruct (mode_selected_by_one_draw (toy_layers 2 3) (Speller.train true (toy_object "loc"))
              true (Some (Tensor [1; 3]%nat [1; 0; 2])) (toy_encoder_outputs 1) 1%Q None
              (Tensor [1; 3]%nat [1; 0; 2]) 1 (3 - 1) toy_world toy_world)
    as (Hd & _ & Htf & _).
  - reflexivity.
  - reflexivity.
  - split; [exact Hd | apply Htf; reflexivity].
Defined.

Lemma teacher_forced_no_diagnostics_witness :
  ∃ outs rd w',
    toy_forward "dot" false (Some (Tensor [1; 3]%nat [1; 0; 2])) 1 1%Q None =
      (Ok (outs, rd), w') ∧
    rd = initial_ret_dict false ∧
    (∀ k l, rd !! k = Some l → l = []) ∧
    (is_Some (rd !! Speller.KEY_ATTENTION_SCORE) ↔ false = false) ∧
    (is_Some (rd !! Speller.KEY_SEQUENCE_SYMBOL) ↔ false = false).
Proof.
  eexists _, _, _. split; [vm_compute; reflexivity |].
  eapply (teacher_forced_no_diagnostics (toy_layers 2 3)
            (Speller.train false (toy_object "dot")) false
            (Some (Tensor [1; 3]%nat [1; 0; 2])) (toy_encoder_outputs 1) 1%Q None
            _ _ toy_world _).
  - reflexivity.
  - reflexivity.
  - vm_compute. reflexivity.
Defined.

(** A free-running step outside training mode with a language model
    attached, on a decoder to which the attribute [acoustic_weight] has
    been added by hand, so that the fusion runs: the hidden state and the
    alignment of the next state are the ones the step function returned,
    and the distribution appended to the trace is the fused one. *)
Lemma fusion_keeps_recurrent_state_witness :
  ∃ st' w' so h a d,
    Speller.free_running_step (toy_layers 2 3)
      (<["acoustic_weight" := PFloat (9 # 10)]> (Speller.train false (toy_object "dot")))
      (toy_encoder_outputs 2) (Some (toy_lm 3))
      (Speller.LoopState (Tensor [2; 1]%nat [1; 1]) None None
         (Some (Tensor [2; 1]%nat [1; 1])) [] (initial_ret_dict false)) toy_world =
      (Ok st', w') ∧
    Speller.forward_step (toy_layers 2 3)
      (<["acoustic_weight" := PFloat (9 # 10)]> (Speller.train false (toy_object "dot")))
      (Tensor [2; 1]%nat [1; 1]) None (toy_encoder_outputs 2) None toy_world =
      (Ok (so, h, a), w') ∧
    Speller.hidden st' = h ∧ Speller.attn st' = a ∧
    Speller.decoder_outputs st' = [d] ∧
    Speller.fuse (toy_layers 2 3)
      (<["acoustic_weight" := PFloat (9 # 10)]> (Speller.train false (toy_object "dot")))
      (toy_lm 3) (Some (Tensor [2; 1]%nat [1; 1])) so w' =
      (Ok (d, Speller.prev_tokens st'), w').
Proof.
  assert (Hrun : ∃ st' w',
    Speller.free_running_step (toy_layers 2 3)
      (<["acoustic_weight" := PFloat (9 # 10)]> (Speller.train false (toy_object "dot")))
      (toy_encoder_outputs 2) (Some (toy_lm 3))
      (Speller.LoopState (Tensor [2; 1]%nat [1; 1]) None None
         (Some (Tensor [2; 1]%nat [1; 1])) [] (initial_ret_dict false)) toy_world =
      (Ok st', w')).
  { eexists _, _. vm_compute. reflexivity. }
  destruct Hrun as (st' & w' & Hstep).
  destruct (fusion_keeps_recurrent_state (toy_layers 2 3) _ _ _ _ _ _ _ Hstep)
    as (so & h & a & Hf & Hh & Ha & d & Hd & _ & [[Htr _] | [_ Hfuse]]).
  - vm_compute in Htr. discriminate Htr.
  - exists st', w', so, h, a, d.
    split_and!; [exact Hstep | exact Hf | exact Hh | exact Ha | exact Hd | exact Hfuse].
Defined.

(** The values of that step: the fused distribution and the token history
    of the language model. *)
Example fusion_on_patched_decoder :
  let self := <["acoustic_weight" := PFloat (9 # 10)]> (Speller.train false (toy_object "dot")) in
  let st := Speller.LoopState (Tensor [2; 1]%nat [1; 1]) None None
              (Some (Tensor [2; 1]%nat [1; 1])) []
              (initial_ret_dict false) in
  ∃ st' w' so h a,
    Speller.free_running_step (toy_layers 2 3) self (toy_encoder_outputs 2)
      (Some (toy_lm 3)) st toy_world = (Ok st', w') ∧
    Speller.forward_step (toy_layers 2 3) self (Tensor [2; 1]%nat [1; 1]) None
      (toy_encoder_outputs 2) None toy_world = (Ok (so, h, a), w') ∧
    Speller.hidden st' = h ∧
    Speller.decoder_outputs st' =
      [Tensor [2; 3]%nat (map (fun x => (x * (9 # 10) + 0 * (1 # 10))%Q) (flat so))] ∧
    Speller.prev_tokens st' = Some (Tensor [2; 2]%nat [1; 0; 1; 0]).
Proof.
  intros self st. eexists _, _, _, _, _.
  split; [vm_compute; reflexivity |].
  split; [vm_compute; reflexivity |].
  vm_compute. auto.
Qed.

(** Targets [sos, eos] for one utterance, content-based attention. *)
Lemma batched_path_fails_on_single_position_witness :
  ∃ stripped,
    Speller.strip_eos 2 1 (Tensor [1; 2]%nat [1; 2]) = Ok stripped ∧
    shape stripped = [1; 1]%nat ∧
    (∀ v, ∃ v',
       Speller.teacher_forced_batched (toy_layers 2 3) (Speller.train true (toy_object "dot"))
         stripped (toy_encoder_outputs 1) (None, None, []) v =
         (Raise (IndexError "too many indices for tensor"), v')) ∧
    (∀ v, ∃ h a d v',
       Speller.teacher_forced_stepwise (toy_layers 2 3) (Speller.train true (toy_object "dot"))
         stripped (toy_encoder_outputs 1) (None, None, []) v = (Ok (h, a, [d]), v') ∧
       shape d = [1; 3]%nat) ∧
    ∃ w',
      Speller.forward (toy_layers 2 3) (Speller.train true (toy_object "dot"))
        (Some (Tensor [1; 2]%nat [1; 2])) (toy_encoder_outputs 1) 1%Q None toy_world =
        (Raise (IndexError "too many indices for tensor"), w').
Proof.
  apply (batched_path_fails_on_single_position toy_constructors (toy_layers 2 3) 2 3
           toy_constructors_ok (toy_layers_shapes 2 3) toy_hd_pos
           5 1 2 "dot" 4 2 "lstm" (3 # 10) "cpu" (toy_object "dot")
           (toy_init "dot" (or_intror eq_refl))
           true (Tensor [1; 2]%nat [1; 2]) (toy_encoder_outputs 1) 1%Q None 1 2 toy_world).
  - reflexivity.
  - lia.
  - lia.
  - reflexivity.
  - reflexivity.
  - reflexivity.
  - reflexivity.
Defined.

Example batched_path_single_position_run :
  raised (toy_forward "dot" true (Some (Tensor [1; 2]%nat [1; 2])) 1 1%Q None) =
    Some (IndexError "too many indices for tensor") ∧
  trace_length (toy_forward "loc" true (Some (Tensor [1; 2]%nat [1; 2])) 1 1%Q None) =
    Some 1%nat.
Proof. vm_compute. auto. Qed.

(** Two utterances, both [sos, 0, 0, eos]. *)
Lemma strip_eos_steps_witness :
  ∃ outs rd w',
    Speller.forward (toy_layers 2 3) (Speller.train true (toy_object "loc"))
      (Some (Tensor [2; 4]%nat [1; 0; 0; 2; 1; 0; 0; 2])) (toy_encoder_outputs 2) 1%Q None
      toy_world = (Ok (outs, rd), w') ∧
    length outs = (6 / 2)%nat ∧
    ("loc" = "loc" → steps w' = (steps toy_world + 6 / 2)%nat).
Proof.
  apply (strip_eos_steps toy_constructors (toy_layers 2 3) 2 3
           toy_constructors_ok (toy_layers_shapes 2 3) toy_hd_pos
           5 1 2 "loc" 4 2 "lstm" (3 # 10) "cpu" (toy_object "loc")
           (toy_init "loc" (or_introl eq_refl))
           true (Tensor [2; 4]%nat [1; 0; 0; 2; 1; 0; 0; 2]) (toy_encoder_outputs 2) 1%Q None
           2 4 toy_world).
  - reflexivity.
  - reflexivity.
  - reflexivity.
  - repeat constructor; simpl; lia.
  - lia.
  - reflexivity.
  - left. reflexivity.
Defined.

(** C10, as stated, fails: the reshape succeeds on a batch of tokens of the
    vocabulary whose rows hold 4 and 2 tokens other than the
    end-of-sequence token, the second row of the result starting with the
    last token of the first utterance. *)
Lemma reshape_accepts_unequal_rows :
  in_vocabulary 3 (Tensor [2; 4]%nat [1; 0; 0; 0; 1; 0; 2; 2]) ∧
  Speller.strip_eos 2 2 (Tensor [2; 4]%nat [1; 0; 0; 0; 1; 0; 2; 2]) =
    Ok (Tensor [2; 3]%nat [1; 0; 0; 0; 1; 0]) ∧
  length (non_eos 2 (row (Tensor [2; 4]%nat [1; 0; 0; 0; 1; 0; 2; 2]) 0)) = 4%nat ∧
  length (non_eos 2 (row (Tensor [2; 4]%nat [1; 0; 0; 0; 1; 0; 2; 2]) 1)) = 2%nat ∧
  (¬ ∃ c, rows_non_eos 2 (Tensor [2; 4]%nat [1; 0; 0; 0; 1; 0; 2; 2]) c) ∧
  trace_length
    (toy_forward "loc" true (Some (Tensor [2; 4]%nat [1; 0; 0; 0; 1; 0; 2; 2])) 2 1%Q None) =
    Some 3%nat.
Proof.
  split; [repeat constructor; simpl; lia |].
  split_and!; try (vm_compute; reflexivity).
  intros [c Hc].
  pose proof (Hc 0%nat 2%nat eq_refl ltac:(lia)) as H0.
  pose proof (Hc 1%nat 2%nat eq_refl ltac:(lia)) as H1.
  vm_compute in H0, H1. congruence.
Qed.

(** ** Rows of a flat tensor *)

Lemma chunks_seq {A} n k (l : list A) :
  chunks n k l = map (fun j => take k (drop (j * k) l)) (seq 0 n).
Proof.
  revert l. induction n as [|n IH]; intros l; [reflexivity |].
  cbn [chunks seq map]. rewrite drop_0. f_equal.
  rewrite IH, <- seq_shift, map_map.
  apply map_ext. intros j. rewrite drop_drop. reflexivity.
Qed.

Lemma block_flat_map {A B} (h : A → list B) k (l : list A) :
  (∀ y, In y l → length (h y) = k) →
  ∀ j x, l !! j = Some x → take k (drop (j * k) (flat_map h l)) = h x.
Proof.
  induction l as [|y l IH]; intros Hlen j x Hj; [discriminate |].
  simpl. destruct j as [|j]; simpl in Hj.
  - injection Hj as <-. simpl. rewrite drop_0.
    rewrite take_app_length'; [reflexivity | symmetry; apply Hlen; now left].
  - replace (S j * k)%nat with (length (h y) + j * k)%nat
      by (rewrite (Hlen y) by (now left); simpl; lia).
    rewrite drop_app_add'; [| reflexivity].
    apply IH; [| exact Hj]. intros z Hz. apply Hlen. now right.
Qed.

Lemma length_flat_map_const {A B} (h : A → list B) k (l : list A) :
  (∀ y, In y l → length (h y) = k) → length (flat_map h l) = (length l * k)%nat.
Proof.
  induction l as [|y l IH]; intros Hlen; [reflexivity |].
  simpl. rewrite length_app, IH, (Hlen y); [reflexivity | now left |].
  intros z Hz. apply Hlen. now right.
Qed.

Lemma flat_map_ext_In {A B} (f g : A → list B) (l : list A) :
  (∀ x, In x l → f x = g x) → flat_map f l = flat_map g l.
Proof.
  induction l as [|y l IH]; intros Hfg; [reflexivity |].
  simpl. rewrite (Hfg y) by (now left). rewrite IH; [reflexivity |].
  intros z Hz. apply Hfg. now right.
Qed.

Lemma map_rows_seq f n k l :
  map_rows f n k l = flat_map (fun j => f (take k (drop (j * k) l))) (seq 0 n).
Proof.
  unfold map_rows. rewrite chunks_seq.
  induction (seq 0 n) as [|j s IH]; [reflexivity |]. simpl. now rewrite IH.
Qed.

Lemma length_map_rows f n k k' l :
  (∀ r, length (f r) = k') → length (map_rows f n k l) = (n * k')%nat.
Proof.
  intros Hf. rewrite map_rows_seq.
  rewrite (length_flat_map_const _ k'); [now rewrite length_seq | auto].
Qed.

Lemma block_map_rows f n k k' l j :
  (∀ r, length (f r) = k') → (j < n)%nat →
  take k' (drop (j * k') (map_rows f n k l)) = f (take k (drop (j * k) l)).
Proof.
  intros Hf Hj. rewrite map_rows_seq.
  apply (block_flat_map (fun j => f (take k (drop (j * k) l))) k' (seq 0 n)); [auto |].
  rewrite lookup_seq_lt by exact Hj. reflexivity.
Qed.

Lemma map_rows_compose f g n k k' l :
  (∀ r, length (f r) = k') →
  map_rows g n k' (map_rows f n k l) = map_rows (fun r => g (f r)) n k l.
Proof.
  intros Hf. rewrite (map_rows_seq g), (map_rows_seq (fun r => g (f r))).
  apply flat_map_ext_In. intros j Hj. apply in_seq in Hj.
  now rewrite (block_map_rows f n k k' l j Hf) by lia.
Qed.

Lemma prod_list_snoc s k : prod_list (s ++ [k]) = (prod_list s * k)%nat.
Proof.
  induction s as [|d s IH]; simpl; [lia |].
  change (foldr Nat.mul 1%nat (s ++ [k])) with (prod_list (s ++ [k])).
  change (foldr Nat.mul 1%nat s) with (prod_list s). rewrite IH. lia.
Qed.

Lemma row_wise_wf op f k k' x s :
  row_wise op f k k' → shape x = s ++ [k] → wf_tensor x → wf_tensor (op x).
Proof.
  intros [Hf Hop] Hs Hwf. rewrite (Hop x s Hs Hwf).
  unfold wf_tensor, numel. simpl. rewrite (length_map_rows f _ k k' _ Hf).
  now rewrite prod_list_snoc.
Qed.

(** ** The batched call against the call at every timestep *)

Section Batched.
Context {H G : Type}.
Variable N : Layers H G.
Variables (hd nc : nat).
Hypothesis N_ok : Layers_shapes N hd nc.
Hypothesis hd_pos : (0 < hd)%nat.
Variable training : bool.
Variables f1 fn f2 fs : list Q → list Q.
Hypothesis N_pw : Layers_positionwise N training hd nc f1 fn f2 fs.
Variables (self : object) (max_length hidden_dim sos_id eos_id : Z).
Hypothesis hidden_dim_hd : hidden_dim = Z.of_nat hd.
Hypothesis Hself : Speller_attrs self max_length hidden_dim sos_id eos_id "dot" training.

Lemma project_eq (context : tensor Q) b T :
  shape context = [b; T; (2 * hd)%nat] → wf_tensor context → (0 < b)%nat → (0 < T)%nat →
  ∃ t1 t2 t3 t4,
    view [-1; Z.of_nat (2 * hd)] context = Ok t1 ∧
    view [Z.of_nat b; -1; Z.of_nat hd] (linear1_forward N t1) = Ok t2 ∧
    view [-1; Z.of_nat hd] (layer_norm_forward N t2) = Ok t3 ∧
    view [Z.of_nat b; Z.of_nat T; -1] (log_softmax1 N (linear2_forward N t3)) = Ok t4 ∧
    t4 = Tensor [b; T; nc] (project_rows f1 fn f2 fs (b * T) hd context).
Proof.
  intros Hs Hwf Hb HT.
  destruct (linear1_rows N _ _ _ _ _ _ _ N_pw) as [Hf1 H1].
  destruct (layer_norm_rows N _ _ _ _ _ _ _ N_pw) as [Hfn Hn].
  destruct (linear2_rows N _ _ _ _ _ _ _ N_pw) as [Hf2 H2].
  destruct (log_softmax1_rows N _ _ _ _ _ _ _ N_pw) as [Hfs Hsm].
  assert (Hlen : length (flat context) = (b * T * (2 * hd))%nat).
  { unfold wf_tensor in Hwf. rewrite Hwf, (numel_shape _ _ Hs). simpl. lia. }
  assert (E1 : linear1_forward N (Tensor [(b * T)%nat; (2 * hd)%nat] (flat context)) =
               Tensor [(b * T)%nat; hd] (map_rows f1 (b * T) (2 * hd) (flat context))).
  { rewrite (H1 _ [(b * T)%nat]); [| reflexivity |].
    - simpl. now rewrite Nat.mul_1_r.
    - unfold wf_tensor, numel. simpl. lia. }
  assert (E2 : layer_norm_forward N
                 (Tensor [b; T; hd] (map_rows f1 (b * T) (2 * hd) (flat context))) =
               Tensor [b; T; hd]
                 (map_rows (fun r => fn (f1 r)) (b * T) (2 * hd) (flat context))).
  { rewrite (Hn _ [b; T]); [| reflexivity |].
    - simpl. rewrite Nat.mul_1_r. now rewrite (map_rows_compose f1 fn _ _ hd).
    - unfold wf_tensor, numel. simpl. rewrite (length_map_rows f1 _ _ hd) by exact Hf1. lia. }
  assert (E3 : log_softmax1 N (linear2_forward N
                 (Tensor [(b * T)%nat; hd]
                    (map_rows (fun r => fn (f1 r)) (b * T) (2 * hd) (flat context)))) =
               Tensor [(b * T)%nat; nc] (project_rows f1 fn f2 fs (b * T) hd context)).
  { rewrite (H2 _ [(b * T)%nat]); [| reflexivity |].
    - rewrite (Hsm _ [(b * T)%nat]); [| reflexivity |].
      + simpl. rewrite Nat.mul_1_r. unfold project_rows.
        rewrite (map_rows_compose (fun r => fn (f1 r)) f2 _ _ hd) by (intros; apply Hfn).
        now rewrite (map_rows_compose (fun r => f2 (fn (f1 r))) fs _ _ nc) by (intros; apply Hf2).
      + unfold wf_tensor, numel. simpl. rewrite Nat.mul_1_r.
        rewrite (length_map_rows f2 _ _ nc) by exact Hf2. lia.
    - unfold wf_tensor, numel. simpl.
      rewrite (length_map_rows (fun r => fn (f1 r)) _ _ hd) by (intros; apply Hfn). lia. }
  exists (Tensor [(b * T)%nat; (2 * hd)%nat] (flat context)),
         (Tensor [b; T; hd] (map_rows f1 (b * T) (2 * hd) (flat context))),
         (Tensor [(b * T)%nat; hd]
            (map_rows (fun r => fn (f1 r)) (b * T) (2 * hd) (flat context))),
         (Tensor [b; T; nc] (project_rows f1 fn f2 fs (b * T) hd context)).
  rewrite E1, E2, E3.
  split_and!.
  - apply (view_infer_first _ (b * T)%nat); [lia |].
    rewrite (numel_shape _ _ Hs). simpl. lia.
  - rewrite (view_infer_middle _ b T hd); [reflexivity | lia | lia |].
    unfold numel. simpl. lia.
  - rewrite (view_infer_first _ (b * T)%nat hd); [reflexivity | lia |].
    unfold numel. simpl. lia.
  - rewrite (view_infer_last _ b T nc); [reflexivity | lia | lia |].
    unfold numel. simpl. lia.
  - reflexivity.
Qed.


Ltac attr_some_dot F :=
  let v := fresh "v" in let E := fresh "E" in
  destruct (F _ _ _ _ _ _ _ Hself) as [v E];
  rewrite (bind_Ok _ _ _ _ _ (getattr_Some _ _ _ _ E)); clear v E.

Lemma call_attention_dot q k third (w : World G) :
  Speller.call_attention N self q k third w =
    (Ok (MultiHeadAttention_forward N q k third), w).
Proof.
  unfold Speller.call_attention.
  rewrite (bind_Ok _ _ _ _ _ (get_module_Some _ _ _ _ (attr_attention _ _ _ _ _ _ _ Hself))).
  reflexivity.
Qed.

(** The value of one call of the step function. *)
Lemma forward_step_dot x h enc a b T (w : World G) :
  shape x = [b; T] → (0 < b)%nat → (0 < T)%nat →
  Speller.forward_step N self x h enc a w =
    (Ok (Tensor (if (T =? 1)%nat then [b; nc] else [b; T; nc])
           (project_rows f1 fn f2 fs (b * T) hd
              (fst (MultiHeadAttention_forward N
                      (fst (fst (rnn_forward N training (embedding_forward N x) h (torch_rng w))))
                      enc (Some enc)))),
         Some (snd (fst (rnn_forward N training (embedding_forward N x) h (torch_rng w)))),
         Some (snd (MultiHeadAttention_forward N
                      (fst (fst (rnn_forward N training (embedding_forward N x) h (torch_rng w))))
                      enc (Some enc)))),
     mkWorld (py_random w) (drawn w) (torch_rng w) (S (steps w)) (lm_training w)).
Proof.
  intros Hx Hb HT. unfold Speller.forward_step.
  unfold count_step at 1. unfold bind at 1.
  set (w1 := mkWorld _ _ _ (S (steps w)) _).
  unfold size. rewrite Hx. cbn [lookup list_lookup].
  rewrite !(bind_lift_Ok _ _ _ _ eq_refl).
  attr_some_dot attr_embedding. attr_some_dot attr_device. attr_some_dot attr_input_dropout.
  rewrite (bind_Ok _ _ _ _ _ (get_bool_Some _ _ _ _ (attr_training _ _ _ _ _ _ _ Hself))).
  rewrite (bind_Ok _ _ _ _ _ (with_torch_rng_eq _ _)).
  rewrite (dropout_identity N _ _ _ _ _ _ _ N_pw). cbn [fst snd torch_rng w1].
  attr_some_dot attr_rnn.
  rewrite (bind_Ok _ _ _ _ _ (with_torch_rng_eq _ _)).
  cbn [torch_rng py_random drawn steps lm_training].
  rewrite (rnn_generator N _ _ _ _ _ _ _ N_pw).
  pose proof (rnn_shape N hd nc N_ok training (embedding_forward N x) h (torch_rng w)) as Hr.
  rewrite (embedding_shape N hd nc N_ok x b T Hx) in Hr.
  destruct (fst (rnn_forward N training (embedding_forward N x) h (torch_rng w)))
    as [out hid]. cbn [fst snd] in *.
  rewrite (bind_Ok _ _ _ _ _ (get_str_Some _ _ _ _ (attr_attn_mechanism _ _ _ _ _ _ _ Hself))).
  cbn [String.eqb Ascii.eqb Bool.eqb].
  rewrite (bind_Ok _ _ _ _ _ (call_attention_dot _ _ _ _)).
  pose proof (MultiHeadAttention_shape N hd nc N_ok out enc (Some enc) b T Hr) as Hc.
  pose proof (attention_wf N _ _ _ _ _ _ _ N_pw out enc (Some enc)) as Hwf.
  destruct (MultiHeadAttention_forward N out enc (Some enc)) as [ctx al]. cbn [fst snd] in *.
  attr_some_dot attr_linear1.
  rewrite (bind_Ok _ _ _ _ _ (get_int_Some _ _ _ _ (attr_hidden_dim _ _ _ _ _ _ _ Hself))).
  rewrite hidden_dim_hd, shiftl_of_nat.
  destruct (project_eq ctx b T Hc Hwf Hb HT) as (t1 & t2 & t3 & t4 & V1 & V2 & V3 & V4 & ->).
  rewrite (bind_lift_Ok _ _ _ _ V1), (bind_lift_Ok _ _ _ _ V2).
  attr_some_dot attr_linear2. attr_some_dot attr_layer_norm.
  rewrite (bind_lift_Ok _ _ _ _ V3), (bind_lift_Ok _ _ _ _ V4).
  rewrite (bind_lift_Ok _ _ _ _
             (squeeze1_shape3 (Tensor [b; T; nc] (project_rows f1 fn f2 fs (b * T) hd ctx))
                b T nc eq_refl)).
  unfold ret. destruct (T =? 1)%nat; reflexivity.
Qed.


Lemma time_slice_tokens (inputs : tensor Z) b T t :
  shape inputs = [b; T] → (t < T)%nat →
  ∃ l, select1 2 (Z.of_nat t) inputs = Ok (Tensor [b] l) ∧
       time_slice t inputs = Ok (Tensor [b; 1%nat] l).
Proof.
  intros Hs Ht. destruct (select1_column inputs b T t Hs Ht) as [l Hl].
  exists l. split; [exact Hl |]. unfold time_slice. now rewrite Hl.
Qed.

(** Position [t] of a well-formed (batch, time, width) tensor, row by row. *)
Lemma time_slice_rows (x xt : tensor Q) b T k t :
  shape x = [b; T; k] → wf_tensor x → (t < T)%nat → time_slice t x = Ok xt →
  ∀ i, (i < b)%nat →
    take k (drop (i * k) (flat xt)) = take k (drop ((i * T + t) * k) (flat x)).
Proof.
  intros Hs Hwf Ht Hsl i Hi.
  unfold time_slice, select1, ndim in Hsl. rewrite Hs in Hsl. simpl in Hsl.
  destruct (Z.ltb_spec (Z.of_nat t) 0); [lia |].
  destruct (Z.leb_spec 0 (Z.of_nat t)); [| lia].
  destruct (Z.ltb_spec (Z.of_nat t) (Z.of_nat T)); [| lia].
  simpl in Hsl. unfold unsqueeze in Hsl. simpl in Hsl. injection Hsl as <-. simpl.
  rewrite Nat2Z.id, Nat.mul_1_r.
  apply (block_flat_map (fun j => take k (drop ((j * T + t) * k) (flat x))) k (seq 0 b)).
  - intros j Hj. apply in_seq in Hj. rewrite length_take, length_drop.
    unfold wf_tensor in Hwf. rewrite Hwf, (numel_shape _ _ Hs). simpl.
    assert (Hjt : (j * T + t + 1 <= b * T)%nat) by nia.
    pose proof (Nat.mul_le_mono_r _ _ k Hjt) as Hk.
    replace (b * (T * (k * 1)))%nat with (b * T * k)%nat by lia. lia.
  - rewrite lookup_seq_lt by exact Hi. reflexivity.
Qed.


Lemma select_position (context : tensor Q) b T t :
  (t < T)%nat →
  select1 3 (Z.of_nat t) (Tensor [b; T; nc] (project_rows f1 fn f2 fs (b * T) hd context)) =
    Ok (Tensor [b; nc] (position_rows f1 fn f2 fs b T hd t context)).
Proof.
  intros Ht. unfold select1, ndim. simpl.
  destruct (Z.ltb_spec (Z.of_nat t) 0); [lia |].
  destruct (Z.leb_spec 0 (Z.of_nat t)); [| lia].
  destruct (Z.ltb_spec (Z.of_nat t) (Z.of_nat T)); [| lia].
  simpl. rewrite Nat2Z.id, Nat.mul_1_r. do 2 f_equal.
  unfold position_rows, project_rows.
  destruct (log_softmax1_rows N _ _ _ _ _ _ _ N_pw) as [Hfs _].
  apply flat_map_ext_In. intros i Hi. apply in_seq in Hi.
  apply (block_map_rows (fun r => fs (f2 (fn (f1 r)))) (b * T) (2 * hd) nc).
  - intros r. apply Hfs.
  - nia.
Qed.

Lemma step_position (context ct : tensor Q) b T t :
  shape context = [b; T; (2 * hd)%nat] → wf_tensor context → (t < T)%nat →
  time_slice t context = Ok ct →
  project_rows f1 fn f2 fs (b * 1) hd ct = position_rows f1 fn f2 fs b T hd t context.
Proof.
  intros Hs Hwf Ht Hsl. unfold project_rows, position_rows.
  rewrite map_rows_seq, Nat.mul_1_r.
  apply flat_map_ext_In. intros i Hi. apply in_seq in Hi.
  now rewrite (time_slice_rows context ct b T (2 * hd) t Hs Hwf Ht Hsl i) by lia.
Qed.


Section Sequence.
Variables (inputs : tensor Z) (enc : tensor Q) (b T : nat) (g : G).
Hypothesis Hinputs : shape inputs = [b; T].
Hypothesis Hb : (0 < b)%nat.

Abbreviation context := (sequence_context N training inputs enc g).
Abbreviation position :=
  (fun t => Tensor [b; nc] (position_rows f1 fn f2 fs b T hd t
                              (sequence_context N training inputs enc g))).

Lemma context_shape : shape context = [b; T; (2 * hd)%nat].
Proof.
  unfold sequence_context. apply (MultiHeadAttention_shape N hd nc N_ok).
  rewrite (rnn_shape N hd nc N_ok). apply (embedding_shape N hd nc N_ok). exact Hinputs.
Qed.

Lemma batched_split_value m :
  ∀ k outs (w : World G),
    (k + m ≤ T)%nat →
    for_each (seq k m)
      (fun di decoder_outputs =>
         step_output <- lift (select1 3 (Z.of_nat di)
                                (Tensor [b; T; nc]
                                   (project_rows f1 fn f2 fs (b * T) hd context))) ;;
         ret (decoder_outputs ++ [step_output]))
      outs w = (Ok (outs ++ map position (seq k m)), w).
Proof.
  induction m as [|m IH]; intros k outs w Hk.
  - simpl. now rewrite app_nil_r.
  - cbn [seq for_each map].
    erewrite bind_Ok; cycle 1.
    { rewrite (bind_lift_Ok _ _ _ _ (select_position context b T k ltac:(lia))). reflexivity. }
    rewrite IH by lia. now rewrite <- app_assoc.
Qed.

Lemma batched_value hidden attn outs (w : World G) :
  torch_rng w = g → hidden = None → (2 ≤ T)%nat →
  ∃ h a w',
    Speller.teacher_forced_batched N self inputs enc (hidden, attn, outs) w =
      (Ok (h, a, outs ++ map position (seq 0 T)), w').
Proof.
  intros Hg -> HT. unfold Speller.teacher_forced_batched.
  rewrite (bind_Ok _ _ _ _ _ (forward_step_dot inputs None enc attn b T w Hinputs Hb ltac:(lia))).
  cbv beta iota. rewrite Hg. fold (sequence_context N training inputs enc g).
  destruct (Nat.eqb_spec T 1); [lia |].
  rewrite (bind_lift_Ok _ _ _ _ (eq_refl : size (Tensor [b; T; nc] _) 1 = Ok T)).
  unfold for_range. rewrite (bind_Ok _ _ _ _ _ (batched_split_value T 0 outs _ ltac:(lia))).
  eauto.
Qed.

Lemma stepwise_value m :
  ∀ k attn outs (w : World G),
    torch_rng w = g → (k + m ≤ T)%nat →
    ∃ h a w',
      for_each (seq k m)
        (fun di (st : option H * option (tensor Q) * list (tensor Q)) =>
           let '(hidden, attn, decoder_outputs) := st in
           col <- lift (select1 2 (Z.of_nat di) inputs) ;;
           input_var <- lift (unsqueeze 1 col) ;;
           r <- Speller.forward_step N self input_var hidden enc attn ;;
           let '(step_output, hidden, attn) := r in
           ret (hidden, attn, decoder_outputs ++ [step_output]))
        (rnn_state N training (embedding_forward N inputs) None g k, attn, outs) w =
        (Ok (h, a, outs ++ map position (seq k m)), w').
Proof.
  induction m as [|m IH]; intros k attn outs w Hg Hk.
  - simpl. rewrite app_nil_r. eauto.
  - cbn [seq for_each map].
    destruct (time_slice_tokens inputs b T k Hinputs ltac:(lia)) as (l & Hl & Hsl).
    pose proof (embedding_slice N _ _ _ _ _ _ _ N_pw inputs k _ Hsl) as He.
    pose proof (rnn_scan N _ _ _ _ _ _ _ N_pw (embedding_forward N inputs) None g k _ He) as Hr.
    pose proof (attention_slice N _ _ _ _ _ _ _ N_pw _ enc (Some enc) k _ Hr) as Ha.
    fold (sequence_context N training inputs enc g) in Ha.
    pose proof (step_position context _ b T k context_shape
                  (attention_wf N _ _ _ _ _ _ _ N_pw _ _ _) ltac:(lia) Ha) as Hp.
    erewrite bind_Ok; cycle 1.
    { rewrite (bind_lift_Ok _ _ _ _ Hl).
      rewrite (bind_lift_Ok _ _ _ _ (unsqueeze1_vector l b)).
      rewrite (bind_Ok _ _ _ _ _
                 (forward_step_dot (Tensor [b; 1%nat] l) _ enc attn b 1 w eq_refl Hb ltac:(lia))).
      cbv beta iota. rewrite Hg, Hp. reflexivity. }
    cbn [Nat.eqb].
    replace (Some (snd (fst (rnn_forward N training (embedding_forward N (Tensor [b; 1%nat] l))
                               (rnn_state N training (embedding_forward N inputs) None g k) g))))
      with (rnn_state N training (embedding_forward N inputs) None g (S k))
      by (simpl; now rewrite He).
    edestruct (IH (S k)) as (h & a & w' & Hloop); [| | rewrite Hloop].
    + reflexivity.
    + lia.
    + rewrite <- app_assoc. eauto.
Qed.

End Sequence.

(** For sequences of at least two positions, and layers that are
    position-wise in the current mode, the batched call and the loop over
    the timesteps return the same distributions. *)
Lemma batched_agrees_with_stepwise inputs enc b T (w : World G) :
  shape inputs = [b; T] → (0 < b)%nat → (2 ≤ T)%nat →
  ∃ outs hb ab wb hs as_ ws,
    Speller.teacher_forced_batched N self inputs enc (None, None, []) w =
      (Ok (hb, ab, outs), wb) ∧
    Speller.teacher_forced_stepwise N self inputs enc (None, None, []) w =
      (Ok (hs, as_, outs), ws) ∧
    length outs = T.
Proof.
  intros Hs Hb HT.
  destruct (batched_value inputs enc b T (torch_rng w) Hs Hb None None [] w eq_refl eq_refl HT)
    as (hb & ab & wb & Hbat).
  destruct (stepwise_value inputs enc b T (torch_rng w) Hs Hb T 0 None [] w eq_refl ltac:(lia))
    as (hs & as_ & ws & Hstep).
  eexists _, hb, ab, wb, hs, as_, ws. split_and!.
  - exact Hbat.
  - unfold Speller.teacher_forced_stepwise.
    assert (Hn : size inputs 1 = Ok T) by (unfold size; now rewrite Hs).
    rewrite (bind_lift_Ok _ _ _ _ Hn). exact Hstep.
  - simpl. now rewrite length_map, length_seq.
Qed.

End Batched.

(** ** The small instance is position-wise *)

Lemma zeros_wf s : wf_tensor (zeros s).
Proof. unfold wf_tensor, zeros, numel. simpl. apply length_replicate. Qed.

Lemma take_drop_replicate {A} (x : A) n m N :
  (m + n ≤ N)%nat → take n (drop m (replicate N x)) = replicate n x.
Proof.
  intros Hle. rewrite drop_replicate, take_replicate. f_equal. lia.
Qed.

Lemma flat_map_replicate {A B} (x : B) k (h : A → list B) (l : list A) :
  (∀ y, In y l → h y = replicate k x) → flat_map h l = replicate (length l * k) x.
Proof.
  induction l as [|y l IH]; intros Hh; [reflexivity |].
  simpl. rewrite (Hh y) by (now left). rewrite IH by (intros z Hz; apply Hh; now right).
  now rewrite replicate_add.
Qed.

Lemma time_slice_inv {A} t (x xt : tensor A) :
  time_slice t x = Ok xt →
  ∃ d0 d1 rest, shape x = d0 :: d1 :: rest ∧ (t < d1)%nat ∧ shape xt = d0 :: 1%nat :: rest.
Proof.
  unfold time_slice, select1, ndim. intros Hsl.
  destruct (shape x) as [|d0 [|d1 rest]] eqn:Hs; try discriminate.
  simpl in Hsl.
  destruct (Z.ltb_spec (Z.of_nat t) 0); [lia |].
  destruct (Z.leb_spec 0 (Z.of_nat t)); [| discriminate].
  destruct (Z.ltb_spec (Z.of_nat t) (Z.of_nat d1)); [| discriminate].
  simpl in Hsl. unfold unsqueeze in Hsl. simpl in Hsl. injection Hsl as <-.
  exists d0, d1, rest. split_and!; [reflexivity | lia | reflexivity].
Qed.

Lemma time_slice_zeros t d0 d1 rest :
  (t < d1)%nat → time_slice t (zeros (d0 :: d1 :: rest)) = Ok (zeros (d0 :: 1%nat :: rest)).
Proof.
  intros Ht. unfold time_slice, select1, ndim, zeros. simpl.
  destruct (Z.ltb_spec (Z.of_nat t) 0); [lia |].
  destruct (Z.leb_spec 0 (Z.of_nat t)); [| lia].
  destruct (Z.ltb_spec (Z.of_nat t) (Z.of_nat d1)); [| lia].
  simpl. unfold unsqueeze. simpl. do 2 f_equal.
  change (foldr Nat.mul 1%nat rest) with (prod_list rest).
  rewrite Nat2Z.id.
  rewrite (flat_map_replicate 0%Q (prod_list rest)).
  - rewrite length_seq. f_equal. lia.
  - intros i Hi. apply in_seq in Hi. apply take_drop_replicate.
    assert (Hit : (i * d1 + t + 1 <= d0 * d1)%nat) by nia.
    pose proof (Nat.mul_le_mono_r _ _ (prod_list rest) Hit). lia.
Qed.

Lemma map_rows_keep (f : list Q → list Q) n k l :
  length l = (n * k)%nat → (∀ r, length r = k → f r = r) → map_rows f n k l = l.
Proof.
  unfold map_rows. revert l. induction n as [|n IH]; intros l Hlen Hf.
  - destruct l; [reflexivity | discriminate].
  - cbn [chunks flat_map]. rewrite Hf by (rewrite length_take; lia).
    rewrite IH; [apply take_drop | rewrite length_drop; lia | exact Hf].
Qed.

Lemma map_rows_const (x : Q) n k k' l :
  map_rows (fun _ => replicate k' x) n k l = replicate (n * k') x.
Proof.
  rewrite map_rows_seq. rewrite (flat_map_replicate x k'); [now rewrite length_seq | auto].
Qed.

Lemma removelast_snoc {A} (s : list A) x : removelast (s ++ [x]) = s.
Proof. apply removelast_last. Qed.

Lemma toy_linear_rows k out : row_wise (toy_linear out) (fun _ => replicate out 0%Q) k out.
Proof.
  split; [intros r; apply length_replicate |].
  intros x s Hs _. unfold toy_linear, zeros. rewrite Hs, removelast_snoc.
  f_equal. rewrite map_rows_const. now rewrite prod_list_snoc.
Qed.

Lemma identity_rows k :
  row_wise (fun x => x) (fun r => if (length r =? k)%nat then r else replicate k 0%Q) k k.
Proof.
  split.
  - intros r. destruct (Nat.eqb_spec (length r) k); [assumption | apply length_replicate].
  - intros [s' l] s Hs Hwf. simpl in *. subst s'. f_equal.
    symmetry. apply map_rows_keep.
    + unfold wf_tensor, numel in Hwf. simpl in Hwf. now rewrite Hwf, prod_list_snoc.
    + intros r Hr. now rewrite Hr, Nat.eqb_refl.
Qed.

Lemma toy_attention_slice q k v t qt :
  time_slice t q = Ok qt →
  time_slice t (fst (toy_attention q k v)) = Ok (fst (toy_attention qt k v)).
Proof.
  intros Hsl. destruct (time_slice_inv t q qt Hsl) as (d0 & d1 & rest & Hq & Ht & Hqt).
  unfold toy_attention. rewrite Hq, Hqt.
  destruct rest as [|h [|? ?]].
  - simpl. now apply time_slice_zeros.
  - destruct (shape k) as [|kb [|kt ?]]; simpl; now apply time_slice_zeros.
  - simpl. now apply time_slice_zeros.
Qed.

Lemma toy_attention_wf q k v : wf_tensor (fst (toy_attention q k v)).
Proof.
  unfold toy_attention.
  destruct (shape q) as [|b [|t [|h [|? ?]]]]; try apply zeros_wf.
  destruct (shape k) as [|kb [|kt ?]]; apply zeros_wf.
Qed.

Lemma toy_layers_positionwise tr hd nc :
  Layers_positionwise (toy_layers hd nc) tr hd nc
    (fun _ => replicate hd 0%Q)
    (fun r => if (length r =? hd)%nat then r else replicate hd 0%Q)
    (fun _ => replicate nc 0%Q)
    (fun r => if (length r =? nc)%nat then r else replicate nc 0%Q).
Proof.
  split; simpl.
  - reflexivity.
  - reflexivity.
  - intros x t xt Hsl.
    destruct (time_slice_inv t x xt Hsl) as (d0 & d1 & rest & Hx & Ht & Hxt).
    rewrite Hx, Hxt. simpl. now apply time_slice_zeros.
  - intros x h g t xt Hsl. exact Hsl.
  - apply toy_attention_wf.
  - apply toy_attention_slice.
  - apply toy_linear_rows.
  - apply identity_rows.
  - apply toy_linear_rows.
  - apply identity_rows.
Qed.

(** Two utterances of three tokens, content-based attention, evaluation
    mode. *)
Example batched_agrees_with_stepwise_run :
  ∃ outs hb ab wb hs as_ ws,
    Speller.teacher_forced_batched (toy_layers 2 3) (Speller.train false (toy_object "dot"))
      (Tensor [2; 3]%nat [1; 0; 0; 1; 0; 0]) (toy_encoder_outputs 2) (None, None, [])
      toy_world = (Ok (hb, ab, outs), wb) ∧
    Speller.teacher_forced_stepwise (toy_layers 2 3) (Speller.train false (toy_object "dot"))
      (Tensor [2; 3]%nat [1; 0; 0; 1; 0; 0]) (toy_encoder_outputs 2) (None, None, [])
      toy_world = (Ok (hs, as_, outs), ws) ∧
    length outs = 3%nat.
Proof.
  eapply (batched_agrees_with_stepwise (toy_layers 2 3) 2 3 (toy_layers_shapes 2 3) toy_hd_pos
            false _ _ _ _ (toy_layers_positionwise false 2 3)
            (Speller.train false (toy_object "dot")) 5 2 1 2 eq_refl
            (init_attrs toy_constructors toy_constructors_ok 3 5 2 1 2 "dot" 4 2 "lstm"
               (3 # 10) "cpu" (toy_object "dot") (toy_init "dot" (or_intror eq_refl)) false)).
  - reflexivity.
  - lia.
  - lia.
Qed.

(** * Further properties of the decoder *)

(** ** Computations that agree step by step *)

Section Agreement.
Context {H G : Type}.
Variable N : Layers H G.

Lemma bind_ext {A B} (m : M G A) (k1 k2 : A → M G B) (w : World G) :
  (∀ a w', k1 a w' = k2 a w') → bind m k1 w = bind m k2 w.
Proof. intros Hk. unfold bind. destruct (m w) as [[a|e] w']; [apply Hk | reflexivity]. Qed.

Lemma for_each_ext {S} (l : list nat) (f g : nat → S → M G S) :
  (∀ i s w, f i s w = g i s w) → ∀ s w, for_each l f s w = for_each l g s w.
Proof.
  intros Hfg. induction l as [|i l IH]; intros s w; [reflexivity |].
  cbn [for_each]. rewrite (bind_ext _ _ (fun s' => for_each l g s')) by (intros; apply IH).
  unfold bind. now rewrite Hfg.
Qed.

(** In training mode a step does not look at the language model. *)
Lemma free_running_step_training (self : object) (st : Speller.loop_state H) enc lm lm'
    (w : World G) :
  self !! "training" = Some (PBool true) →
  Speller.free_running_step N self enc lm st w =
    Speller.free_running_step N self enc lm' st w.
Proof.
  intros Ht. unfold Speller.free_running_step.
  apply bind_ext. intros [[so hid] a] w1.
  rewrite !(bind_Ok _ _ _ _ _ (get_bool_Some _ _ _ _ Ht)). reflexivity.
Qed.

(** With content-based attention the alignment handed to a step is not
    used. *)
Lemma forward_step_dot_attn (self : object) x hidden enc attn attn' (w : World G) :
  self !! "attn_mechanism" = Some (PStr "dot") →
  Speller.forward_step N self x hidden enc attn w =
    Speller.forward_step N self x hidden enc attn' w.
Proof.
  intros Hd. unfold Speller.forward_step.
  do 10 (apply bind_ext; intros ? ?).
  match goal with |- context [let '(_, _) := ?p in _] => destruct p end.
  rewrite !(bind_Ok _ _ _ _ _ (get_str_Some _ _ _ _ Hd)). reflexivity.
Qed.

End Agreement.

(** ** Branches of the decoding loop *)

Section MoreSteps.
Context {H G : Type}.
Variable N : Layers H G.
Variables (hd nc : nat).
Hypothesis N_ok : Layers_shapes N hd nc.
Hypothesis hd_pos : (0 < hd)%nat.
Variables (self : object) (max_length hidden_dim sos_id eos_id : Z) (attn_mechanism : string).
Variable training : bool.
Hypothesis hidden_dim_hd : hidden_dim = Z.of_nat hd.
Hypothesis Hself :
  Speller_attrs self max_length hidden_dim sos_id eos_id attn_mechanism training.

Ltac attr_some' F :=
  let v := fresh "v" in let E := fresh "E" in
  destruct (F _ _ _ _ _ _ _ Hself) as [v E];
  rewrite (bind_Ok _ _ _ _ _ (getattr_Some _ _ _ _ E)); clear v E.

(** [t.view(b, 0, -1)] cannot infer the last dimension. *)
Lemma view_infer_last_empty {A} (t : tensor A) b :
  view [Z.of_nat b; 0; -1] t =
    Raise (RuntimeError "shape is invalid or the unspecified dimension is ambiguous").
Proof.
  unfold view. cbn [existsb List.filter]. rewrite ?of_nat_ltb_m1, ?of_nat_eqb_m1.
  change (0 <? -1) with false. change (0 =? -1) with false.
  change (-1 <? -1) with false. change (-1 =? -1) with true.
  cbn [negb orb map prod_list foldr]. rewrite Nat2Z.id.
  change (Z.to_nat 0) with 0%nat. rewrite Nat.mul_0_l, Nat.mul_0_r. reflexivity.
Qed.

(** On an empty time axis the step function fails at its last [view]. *)
Lemma forward_step_empty x hidden enc attn b (w : World G) :
  shape x = [b; 0%nat] → (0 < b)%nat →
  ∃ w',
    Speller.forward_step N self x hidden enc attn w =
      (Raise (RuntimeError "shape is invalid or the unspecified dimension is ambiguous"), w') ∧
    steps w' = S (steps w).
Proof.
  intros Hx Hb. unfold Speller.forward_step.
  unfold count_step at 1. unfold bind at 1.
  set (w1 := mkWorld _ _ _ (S (steps w)) _).
  unfold size. rewrite Hx. cbn [lookup list_lookup].
  rewrite !(bind_lift_Ok _ _ _ _ eq_refl).
  attr_some' attr_embedding. attr_some' attr_device. attr_some' attr_input_dropout.
  rewrite (bind_Ok _ _ _ _ _ (get_bool_Some _ _ _ _ (attr_training _ _ _ _ _ _ _ Hself))).
  rewrite (bind_Ok _ _ _ _ _ (with_torch_rng_eq _ _)).
  set (w2 := mkWorld _ _ _ _ _).
  pose proof (input_dropout_shape N hd nc N_ok training (embedding_forward N x) (torch_rng w1)) as Hd.
  rewrite (embedding_shape N hd nc N_ok x b 0 Hx) in Hd.
  set (emb := fst (input_dropout_forward N training (embedding_forward N x) (torch_rng w1))) in *.
  attr_some' attr_rnn.
  rewrite (bind_Ok _ _ _ _ _ (with_torch_rng_eq _ _)).
  set (w3 := mkWorld _ _ _ _ _).
  pose proof (rnn_shape N hd nc N_ok training emb hidden (torch_rng w2)) as Hr.
  rewrite Hd in Hr.
  destruct (fst (rnn_forward N training emb hidden (torch_rng w2))) as [out hid].
  simpl in Hr.
  rewrite (bind_Ok _ _ _ _ _ (get_str_Some _ _ _ _ (attr_attn_mechanism _ _ _ _ _ _ _ Hself))).
  assert (∃ ctx a, (if (attn_mechanism =? "dot")%string
           then Speller.call_attention N self out enc (Some enc)
           else Speller.call_attention N self out enc attn) w3 = (Ok (ctx, a), w3) ∧
           shape ctx = [b; 0%nat; (2 * hd)%nat]) as (ctx & a & Eca & Hc).
  { destruct (attn_mechanism =? "dot")%string;
      eapply (call_attention_shape N hd nc N_ok); eauto. }
  rewrite (bind_Ok _ _ _ _ _ Eca).
  attr_some' attr_linear1.
  rewrite (bind_Ok _ _ _ _ _ (get_int_Some _ _ _ _ (attr_hidden_dim _ _ _ _ _ _ _ Hself))).
  rewrite hidden_dim_hd.
  rewrite shiftl_of_nat.
  erewrite bind_lift_Ok; cycle 1.
  { apply (view_infer_first _ 0%nat); [lia |].
    rewrite (numel_shape _ _ Hc). simpl. lia. }
  set (t0 := Tensor _ (flat ctx)).
  pose proof (linear1_shape N hd nc N_ok t0 0%nat eq_refl) as Hl1.
  erewrite bind_lift_Ok; cycle 1.
  { apply (view_infer_middle _ b 0 hd); [lia | lia |].
    rewrite (numel_shape _ _ Hl1). simpl. lia. }
  attr_some' attr_linear2. attr_some' attr_layer_norm.
  set (t1 := Tensor [b; 0%nat; hd] _).
  pose proof (layer_norm_shape N hd nc N_ok t1) as Hln. simpl in Hln.
  erewrite bind_lift_Ok; cycle 1.
  { apply (view_infer_first _ 0%nat); [lia |].
    rewrite (numel_shape _ _ Hln). simpl. lia. }
  change (Z.of_nat 0) with 0.
  rewrite (bind_lift_Raise _ _ _ _ (view_infer_last_empty _ b)).
  exists w3. split; reflexivity.
Qed.


(** One free-running step in which the language model has no part, with
    what it records. *)
Lemma free_running_step_record (st : Speller.loop_state H) enc lm b (w : World G) :
  shape (Speller.input_var st) = [b; 1%nat] → (0 < b)%nat → (0 < nc)%nat →
  training = true ∨ lm = None →
  (training = false → has_keys (Speller.ret_dict st)) →
  ∃ so hid a iv w',
    Speller.free_running_step N self enc lm st w =
      (Ok (Speller.LoopState iv (Some hid) (Some a) (Speller.prev_tokens st)
             (Speller.decoder_outputs st ++ [so])
             (if training then Speller.ret_dict st
              else alter (fun l => l ++ [DSym (Speller.input_var st)])
                     Speller.KEY_SEQUENCE_SYMBOL
                     (alter (fun l => l ++ [DAttn a]) Speller.KEY_ATTENTION_SCORE
                        (Speller.ret_dict st)))), w') ∧
    topk1_indices (argmax N) so = Ok iv ∧
    shape iv = [b; 1%nat] ∧ shape so = [b; nc] ∧ steps w' = S (steps w).
Proof.
  intros Hs Hb Hn Hmode Hkeys.
  assert (Hsame : Speller.free_running_step N self enc lm st w =
                  Speller.free_running_step N self enc None st w).
  { destruct Hmode as [Ht | Hlm]; [| now subst lm].
    apply free_running_step_training.
    pose proof (attr_training _ _ _ _ _ _ _ Hself) as Hat. now rewrite Ht in Hat. }
  rewrite Hsame. clear Hsame. unfold Speller.free_running_step.
  destruct (forward_step_ok N hd nc N_ok hd_pos _ _ _ _ _ _ _ hidden_dim_hd Hself
              (Speller.input_var st) (Speller.hidden st) enc (Speller.attn st)
              b 1 w Hs Hb ltac:(lia)) as (so & hid & a & w1 & Hf & Hso & Hst & _ & _).
  simpl in Hso.
  destruct (topk1_matrix (argmax N) so b nc Hso Hn) as [l Hl].
  rewrite (bind_Ok _ _ _ _ _ Hf). cbv beta iota.
  rewrite (bind_Ok _ _ _ _ _ (get_bool_Some _ _ _ _ (attr_training _ _ _ _ _ _ _ Hself))).
  exists so, hid, a, (Tensor [b; 1%nat] l), w1.
  destruct training; cbn [negb].
  - rewrite bind_ret_eq. rewrite (bind_lift_Ok _ _ _ _ Hl).
    split_and!; try assumption; reflexivity.
  - destruct (Hkeys eq_refl) as [[la Ha] [ls Hls]].
    unfold dict_append at 1. rewrite Ha.
    rewrite !bind_ret_eq.
    unfold dict_append at 1.
    assert (Hls' : <[Speller.KEY_ATTENTION_SCORE := la ++ [DAttn a]]> (Speller.ret_dict st)
                     !! Speller.KEY_SEQUENCE_SYMBOL = Some ls).
    { rewrite lookup_insert_ne; [exact Hls | discriminate]. }
    rewrite Hls'. rewrite !bind_ret_eq.
    rewrite (bind_lift_Ok _ _ _ _ Hl).
    split_and!; try assumption; try reflexivity.
    unfold ret. do 3 f_equal.
    apply map_eq. intros k.
    destruct (decide (k = Speller.KEY_SEQUENCE_SYMBOL)) as [->|Hk1].
    + rewrite lookup_insert_eq, lookup_alter_eq, lookup_alter_ne by discriminate.
      now rewrite Hls.
    + rewrite lookup_insert_ne, lookup_alter_ne by congruence.
      destruct (decide (k = Speller.KEY_ATTENTION_SCORE)) as [->|Hk2].
      * rewrite lookup_insert_eq, lookup_alter_eq. now rewrite Ha.
      * now rewrite lookup_insert_ne, lookup_alter_ne by congruence.
Qed.


Lemma removelast_snoc_last {A} (seed : A) nexts iv :
  removelast (seed :: nexts ++ [iv]) = removelast (seed :: nexts) ++ [List.last nexts seed].
Proof.
  change (seed :: nexts ++ [iv]) with ((seed :: nexts) ++ [iv]).
  rewrite removelast_last.
  rewrite (app_removelast_last seed (l := seed :: nexts)) at 1 by discriminate.
  do 2 f_equal. destruct nexts; reflexivity.
Qed.

(** The loop keeps its invariant and appends one distribution per step. *)
Lemma free_running_loop_record enc lm b seed rd0 :
  (0 < b)%nat → (0 < nc)%nat → training = true ∨ lm = None →
  ∀ l (st : Speller.loop_state H) (w : World G),
    loop_invariant (argmax N) training b nc seed rd0 st →
    ∃ st' w',
      for_each l (fun _ st => Speller.free_running_step N self enc lm st) st w =
        (Ok st', w') ∧
      loop_invariant (argmax N) training b nc seed rd0 st' ∧
      length (Speller.decoder_outputs st') =
        (length (Speller.decoder_outputs st) + length l)%nat ∧
      steps w' = (steps w + length l)%nat.
Proof.
  intros Hb Hn Hmode. induction l as [|i l IH]; intros st w Hinv.
  - exists st, w. simpl. split_and!; auto; lia.
  - cbn [for_each].
    destruct Hinv as (nexts & Hg & Hiv & Hshape & Hall & Htr & Hev).
    assert (Hkeys : training = false → has_keys (Speller.ret_dict st)).
    { intros Hf. destruct (Hev Hf) as (la & Ha & _ & Hs). split; eauto. }
    destruct (free_running_step_record st enc lm b w Hshape Hb Hn Hmode Hkeys)
      as (so & hid & a & iv & w1 & Hstep & Htop & Hivs & Hso & Hst).
    rewrite (bind_Ok _ _ _ _ _ Hstep).
    match type of Hstep with _ = (Ok ?s, _) => set (st1 := s) in * end.
    assert (Hinv1 : loop_invariant (argmax N) training b nc seed rd0 st1).
    { exists (nexts ++ [iv]). subst st1.
      cbn [Speller.decoder_outputs Speller.input_var Speller.ret_dict].
      split_and!.
      - apply Forall2_app; [exact Hg | constructor; [exact Htop | constructor]].
      - now rewrite last_last.
      - exact Hivs.
      - apply Forall_app. split; [exact Hall | constructor; [exact Hso | constructor]].
      - intros Ht. rewrite Ht. apply Htr. exact Ht.
      - intros Hf. destruct (Hev Hf) as (la & Ha & Hla & Hs). rewrite Hf.
        exists (la ++ [DAttn a]). split_and!.
        + rewrite lookup_alter_ne by discriminate. rewrite lookup_alter_eq. now rewrite Ha.
        + rewrite !length_app. simpl. lia.
        + rewrite lookup_alter_eq, lookup_alter_ne by discriminate. rewrite Hs.
          rewrite removelast_snoc_last, map_app, Hiv. reflexivity. }
    destruct (IH st1 w1 Hinv1) as (st' & w' & Hloop & Hinv' & Hlen & Hsteps).
    exists st', w'. split_and!; [exact Hloop | exact Hinv' | |].
    + rewrite Hlen. subst st1. cbn [Speller.decoder_outputs]. rewrite length_app. simpl. lia.
    + rewrite Hsteps, Hst. simpl. lia.
Qed.


(** The free-running branch without a language model in play: what it
    returns and what it records. *)
Lemma free_running_branch_record inputs enc lm b n ml (w : World G) :
  shape inputs = [b; n] → (0 < n)%nat → (0 < b)%nat → (0 < nc)%nat →
  training = true ∨ lm = None →
  ∃ seed outs rd nexts w',
    time_slice 0 inputs = Ok seed ∧
    Speller.free_running_branch N self inputs ml enc lm (initial_ret_dict training) w =
      (Ok (outs, rd), w') ∧
    length outs = Z.to_nat ml ∧
    Forall (fun d => shape d = [b; nc]) outs ∧
    greedy_tokens (argmax N) outs nexts ∧
    (training = true → rd = ∅) ∧
    (training = false →
     ∃ la, rd !! Speller.KEY_ATTENTION_SCORE = Some la ∧
           length la = Z.to_nat ml ∧
           rd !! Speller.KEY_SEQUENCE_SYMBOL = Some (map DSym (removelast (seed :: nexts)))) ∧
    steps w' = (steps w + Z.to_nat ml)%nat.
Proof.
  intros Hs Hn Hb Hc Hmode.
  destruct (select1_column inputs b n 0 Hs Hn) as [l Hl].
  set (seed := Tensor [b; 1%nat] l).
  assert (Hts : time_slice 0 inputs = Ok seed).
  { unfold time_slice. rewrite Hl. apply unsqueeze1_vector. }
  change (Z.of_nat 0) with 0 in Hl.
  unfold Speller.free_running_branch.
  rewrite (bind_lift_Ok _ _ _ _ Hl).
  rewrite (bind_lift_Ok _ _ _ _ (unsqueeze1_vector l b)). fold seed.
  set (st0 := Speller.LoopState seed None None _ [] (initial_ret_dict training)).
  assert (Hinv : loop_invariant (argmax N) training b nc seed (initial_ret_dict training) st0).
  { exists []. subst st0. cbn [Speller.decoder_outputs Speller.input_var Speller.ret_dict].
    split_and!; try constructor; try reflexivity.
    intros Hf. rewrite Hf. exists []. split_and!; reflexivity. }
  unfold for_range.
  destruct (free_running_loop_record enc lm b seed (initial_ret_dict training) Hb Hc Hmode
              (seq 0 (Z.to_nat ml)) st0 w Hinv) as (st' & w' & Hloop & Hinv' & Hlen & Hsteps).
  rewrite (bind_Ok _ _ _ _ _ Hloop).
  destruct Hinv' as (nexts & Hg & _ & _ & Hall & Htr & Hev).
  rewrite length_seq in Hlen, Hsteps. subst st0. simpl in Hlen.
  exists seed, (Speller.decoder_outputs st'), (Speller.ret_dict st'), nexts, w'.
  split_and!; try assumption; try reflexivity.
  - intros Ht. rewrite (Htr Ht), Ht. reflexivity.
  - intros Hf. destruct (Hev Hf) as (la & Ha & Hla & Hsym).
    exists la. split_and!; try assumption. now rewrite Hla.
Qed.

(** Without a column to start from, the free-running branch fails on its
    first line. *)
Lemma free_running_branch_no_column inputs enc lm b ml rd (w : World G) :
  shape inputs = [b; 0%nat] →
  Speller.free_running_branch N self inputs ml enc lm rd w =
    (Raise (IndexError "index is out of bounds for dimension 1"), w).
Proof.
  intros Hs. unfold Speller.free_running_branch.
  erewrite bind_lift_Raise; [reflexivity |].
  unfold select1, ndim. rewrite Hs. reflexivity.
Qed.

(** The teacher-forced branch: one distribution per position; one
    invocation of the step function per position when the attention is
    location-aware, a single one otherwise. *)
Lemma teacher_forced_branch_shapes inputs enc b rd (w : World G) :
  let n := length (non_eos eos_id (flat inputs)) in
  (0 < b)%nat → (n mod b = 0)%nat →
  attn_mechanism = "loc" ∨ (2 ≤ n / b)%nat →
  ∃ outs w',
    Speller.teacher_forced_branch N self inputs b enc rd w = (Ok (outs, rd), w') ∧
    length outs = (n / b)%nat ∧
    Forall (fun d => shape d = [b; nc]) outs ∧
    steps w' = (steps w + if String.eqb attn_mechanism "loc" then n / b else 1)%nat.
Proof.
  intros n Hb Hmod Hcase. unfold Speller.teacher_forced_branch.
  rewrite (bind_Ok _ _ _ _ _ (get_int_Some _ _ _ _ (attr_eos_id _ _ _ _ _ _ _ Hself))).
  assert (Hstrip : Speller.strip_eos eos_id b inputs =
                   Ok (Tensor [b; (n / b)%nat] (non_eos eos_id (flat inputs)))).
  { rewrite strip_eos_eq. cbv zeta. fold n.
    destruct (Nat.eqb_spec b 0); [lia |]. rewrite Hmod. reflexivity. }
  rewrite (bind_lift_Ok _ _ _ _ Hstrip).
  rewrite (bind_Ok _ _ _ _ _ (get_str_Some _ _ _ _ (attr_attn_mechanism _ _ _ _ _ _ _ Hself))).
  destruct (String.eqb_spec attn_mechanism "loc") as [El|Nl].
  - destruct (teacher_forced_stepwise_ok N hd nc N_ok hd_pos _ _ _ _ _ _ _ hidden_dim_hd Hself
                (Tensor [b; (n / b)%nat] (non_eos eos_id (flat inputs)))
                enc b (n / b) None None [] w eq_refl Hb)
      as (h & a & outs & w' & Hr & Hlen & Hst & Hall).
    rewrite (bind_Ok _ _ _ _ _ Hr). exists outs, w'. simpl. auto.
  - destruct Hcase as [|Hc]; [contradiction |].
    destruct (teacher_forced_batched_ok N hd nc N_ok hd_pos _ _ _ _ _ _ _ hidden_dim_hd Hself
                (Tensor [b; (n / b)%nat] (non_eos eos_id (flat inputs)))
                enc b (n / b) None None [] w eq_refl Hb Hc)
      as (h & a & outs & w' & Hr & Hlen & Hst & Hall).
    rewrite (bind_Ok _ _ _ _ _ Hr). exists outs, w'. simpl.
    split_and!; auto. lia.
Qed.

(** Targets that hold nothing but end-of-sequence tokens leave an empty
    time axis: the loop over the positions returns at once, the
    whole-sequence call fails in the step function. *)
Lemma teacher_forced_branch_empty inputs enc b rd (w : World G) :
  non_eos eos_id (flat inputs) = [] → (0 < b)%nat →
  (attn_mechanism = "loc" →
   Speller.teacher_forced_branch N self inputs b enc rd w = (Ok ([], rd), w)) ∧
  (attn_mechanism = "dot" →
   ∃ w',
     Speller.teacher_forced_branch N self inputs b enc rd w =
       (Raise (RuntimeError "shape is invalid or the unspecified dimension is ambiguous"), w') ∧
     steps w' = S (steps w)).
Proof.
  intros Hnil Hb. unfold Speller.teacher_forced_branch.
  rewrite (bind_Ok _ _ _ _ _ (get_int_Some _ _ _ _ (attr_eos_id _ _ _ _ _ _ _ Hself))).
  assert (Hstrip : Speller.strip_eos eos_id b inputs = Ok (Tensor [b; 0%nat] [])).
  { rewrite strip_eos_eq. cbv zeta. rewrite Hnil. simpl.
    destruct (Nat.eqb_spec b 0); [lia |].
    rewrite Nat.Div0.mod_0_l, Nat.Div0.div_0_l. reflexivity. }
  rewrite (bind_lift_Ok _ _ _ _ Hstrip).
  rewrite (bind_Ok _ _ _ _ _ (get_str_Some _ _ _ _ (attr_attn_mechanism _ _ _ _ _ _ _ Hself))).
  split; intros Ea; rewrite Ea.
  - reflexivity.
  - change ("dot" =? "loc")%string with false. cbv iota.
    unfold Speller.teacher_forced_batched.
    destruct (forward_step_empty (Tensor [b; 0%nat] []) None enc None b w eq_refl Hb)
      as (w' & Hf & Hst).
    exists w'. split; [| exact Hst].
    erewrite bind_Raise; [reflexivity |].
    erewrite bind_Raise; [reflexivity |]. exact Hf.
Qed.

End MoreSteps.

(** ** What the decoder does to the language model object *)

Section LanguageModelMode.
Context {H G : Type}.
Variable N : Layers H G.

Lemma keeps_lm_random_random : keeps same_lm (@random_random G).
Proof. intros w. reflexivity. Qed.

Lemma keeps_lm_call_attention (s : object) q k third :
  keeps same_lm (Speller.call_attention N s q k third).
Proof. unfold Speller.call_attention. keeps_tac. Qed.

Lemma keeps_lm_forward_step (s : object) x hidden enc attn :
  keeps same_lm (Speller.forward_step N s x hidden enc attn).
Proof.
  pose proof keeps_lm_call_attention.
  unfold Speller.forward_step. keeps_tac.
Qed.

Lemma keeps_lm_stepwise (s : object) inputs enc st :
  keeps same_lm (Speller.teacher_forced_stepwise N s inputs enc st).
Proof.
  pose proof keeps_lm_forward_step.
  unfold Speller.teacher_forced_stepwise. keeps_tac.
Qed.

Lemma keeps_lm_batched (s : object) inputs enc st :
  keeps same_lm (Speller.teacher_forced_batched N s inputs enc st).
Proof.
  pose proof keeps_lm_forward_step.
  unfold Speller.teacher_forced_batched. keeps_tac.
Qed.

Lemma keeps_lm_fuse (s : object) lm prev so :
  keeps same_lm (Speller.fuse N s lm prev so).
Proof. unfold Speller.fuse. keeps_tac. Qed.

Lemma keeps_lm_free_running_step (s : object) enc lm st :
  keeps same_lm (Speller.free_running_step N s enc lm st).
Proof.
  pose proof keeps_lm_forward_step. pose proof keeps_lm_fuse.
  unfold Speller.free_running_step. keeps_tac.
Qed.

Lemma keeps_lm_teacher_forced_branch (s : object) inputs b enc rd :
  keeps same_lm (Speller.teacher_forced_branch N s inputs b enc rd).
Proof.
  pose proof keeps_lm_stepwise. pose proof keeps_lm_batched.
  unfold Speller.teacher_forced_branch. keeps_tac.
Qed.

Lemma keeps_lm_free_running_branch (s : object) inputs ml enc lm rd :
  keeps same_lm (Speller.free_running_branch N s inputs ml enc lm rd).
Proof.
  pose proof keeps_lm_free_running_step.
  unfold Speller.free_running_branch. keeps_tac.
Qed.

(** Without a language model nothing in [forward] touches the flag. *)
Lemma keeps_lm_forward_None (s : object) inputs enc p :
  keeps same_lm (Speller.forward N s inputs enc p None).
Proof.
  pose proof keeps_lm_teacher_forced_branch. pose proof keeps_lm_free_running_branch.
  pose proof keeps_lm_random_random.
  unfold Speller.forward, Speller.validate_args. keeps_tac.
Qed.

End LanguageModelMode.

(** ** The constructed decoder *)

Lemma non_eos_all_eos e l : Forall (fun x => x = e) l → non_eos e l = [].
Proof.
  induction 1 as [|x l Hx _ IH]; [reflexivity |].
  unfold non_eos in *. simpl. rewrite Hx, Z.eqb_refl. exact IH.
Qed.

Lemma time_slice_column (v : Z) b :
  time_slice 0 (Tensor [b; 1%nat] (replicate b v)) = Ok (Tensor [b; 1%nat] (replicate b v)).
Proof.
  unfold time_slice, select1, ndim.
  cbn [shape flat length Nat.ltb Nat.leb Z.of_nat Z.ltb Z.leb Z.compare andb prod_list foldr
       Z.to_nat].
  change (Pos.compare 1 1) with Eq. cbv iota.
  rewrite (flat_map_replicate v 1).
  - rewrite length_seq, Nat.mul_1_r. reflexivity.
  - intros i Hi. apply in_seq in Hi.
    apply take_drop_replicate. simpl. lia.
Qed.

Section Decoding.
Context {H G : Type}.
Variable C : Constructors.
Variable N : Layers H G.
Variables (hd nc : nat).
Hypothesis C_ok : Constructors_ok C.
Hypothesis N_ok : Layers_shapes N hd nc.
Hypothesis hd_pos : (0 < hd)%nat.
Variables (max_length sos_id eos_id : Z) (attn_mechanism : string).
Variables (num_heads num_layers : Z) (rnn_type : string) (dropout_p : Q) (device : string).
Variable self0 : object.
Hypothesis Hinit :
  Speller.__init__ C (Z.of_nat nc) max_length (Z.of_nat hd) sos_id eos_id attn_mechanism
    num_heads num_layers rnn_type dropout_p device = Ok self0.

Lemma built_attrs training :
  Speller_attrs (Speller.train training self0) max_length (Z.of_nat hd) sos_id eos_id
    attn_mechanism training.
Proof. eapply init_attrs; eassumption. Qed.

(** X1.  On a token matrix of [b] rows and [t >= 1] columns
    [forward_step] returns, counts as one invocation and leaves Python's
    random stream and the language model alone; the distributions have
    shape (b, nc) when [t = 1], the [squeeze(1)] having removed the time
    axis, and (b, t, nc) otherwise. *)
Theorem forward_step_output_shape training x hidden enc attn b t (w : World G) :
  shape x = [b; t] → (0 < b)%nat → (0 < t)%nat →
  ∃ so hid a w',
    Speller.forward_step N (Speller.train training self0) x hidden enc attn w =
      (Ok (so, Some hid, Some a), w') ∧
    shape so = (if (t =? 1)%nat then [b; nc] else [b; t; nc]) ∧
    steps w' = S (steps w) ∧
    py_random w' = py_random w ∧ drawn w' = drawn w ∧ lm_training w' = lm_training w.
Proof.
  intros Hx Hb Ht.
  destruct (forward_step_ok N hd nc N_ok hd_pos _ _ _ _ _ _ _ eq_refl (built_attrs training)
              x hidden enc attn b t w Hx Hb Ht)
    as (so & hid & a & w' & Hf & Hso & Hst & [Hr Hd] & Hlm).
  exists so, hid, a, w'. split_and!; assumption.
Qed.

(** X2.  On a token matrix without columns [forward_step] returns
    nothing: with layers that accept the empty sequence, the last reshape
    [view(batch_size, 0, -1)] cannot infer its free dimension and raises
    RuntimeError. *)
Theorem forward_step_empty_time_axis training x hidden enc attn b (w : World G) :
  shape x = [b; 0%nat] → (0 < b)%nat →
  ∃ w',
    Speller.forward_step N (Speller.train training self0) x hidden enc attn w =
      (Raise (RuntimeError "shape is invalid or the unspecified dimension is ambiguous"), w') ∧
    steps w' = S (steps w).
Proof.
  intros Hx Hb.
  exact (forward_step_empty N hd nc N_ok hd_pos _ _ _ _ _ _ _ eq_refl (built_attrs training)
           x hidden enc attn b w Hx Hb).
Qed.

(** X3.  Teacher forcing on targets that hold nothing but end-of-sequence
    tokens: the mask leaves an empty time axis; with location-aware
    attention [forward] returns an empty trace without invoking the step
    function, with content-based attention the single whole-sequence
    invocation raises RuntimeError. *)
Theorem teacher_forced_only_eos training inputs enc p lm b L (w : World G) :
  size inputs 1 = Ok L → size enc 0 = Ok b → (0 < b)%nat →
  (py_random w (drawn w) < p)%Q →
  Forall (fun x => x = eos_id) (flat inputs) →
  (attn_mechanism = "loc" →
   Speller.forward N (Speller.train training self0) (Some inputs) enc p lm w =
     (Ok ([], initial_ret_dict training), after_draw (after_validation lm w))) ∧
  (attn_mechanism = "dot" →
   ∃ w',
     Speller.forward N (Speller.train training self0) (Some inputs) enc p lm w =
       (Raise (RuntimeError "shape is invalid or the unspecified dimension is ambiguous"),
        w') ∧
     steps w' = S (steps w)).
Proof.
  intros HL Hb Hbpos Hu Hall.
  pose proof (built_attrs training) as Hattrs.
  rewrite (forward_Some N _ _ _ _ _ _ _ Hattrs inputs enc p lm b L w Hb HL).
  cbv zeta. apply Qlt_bool_iff in Hu. rewrite Hu.
  destruct (teacher_forced_branch_empty N hd nc N_ok hd_pos _ _ _ _ _ _ _ eq_refl Hattrs
              inputs enc b (initial_ret_dict training) (after_draw (after_validation lm w))
              (non_eos_all_eos _ _ Hall) Hbpos) as [Hloc Hdot].
  split; [exact Hloc |].
  intros Hd. destruct (Hdot Hd) as (w' & Hr & Hst).
  exists w'. split; [exact Hr |]. rewrite Hst. destruct lm; reflexivity.
Qed.

(** X4.  With targets of [L >= 1] columns and teacher forcing not drawn,
    [forward] decodes for [L - 1] steps whatever the configured maximum
    length, starting from the first column of the targets and feeding each
    step the [topk(1)] token of the previous distribution; every
    distribution has shape (b, nc), and outside training mode the symbols
    recorded are exactly the tokens fed. *)
Theorem free_running_from_targets training inputs enc p lm b L (w : World G) :
  shape inputs = [b; L] → (0 < L)%nat → size enc 0 = Ok b → (0 < b)%nat → (0 < nc)%nat →
  ¬ (py_random w (drawn w) < p)%Q →
  training = true ∨ lm = None →
  ∃ seed outs rd nexts w',
    time_slice 0 inputs = Ok seed ∧
    Speller.forward N (Speller.train training self0) (Some inputs) enc p lm w =
      (Ok (outs, rd), w') ∧
    length outs = (L - 1)%nat ∧
    Forall (fun d => shape d = [b; nc]) outs ∧
    greedy_tokens (argmax N) outs nexts ∧
    (training = false →
     rd !! Speller.KEY_SEQUENCE_SYMBOL = Some (map DSym (removelast (seed :: nexts)))) ∧
    steps w' = (steps w + (L - 1))%nat.
Proof.
  intros Hs HL Hb Hbpos Hnc Hu Hmode.
  pose proof (built_attrs training) as Hattrs.
  assert (Hsz : size inputs 1 = Ok L) by (unfold size; now rewrite Hs).
  rewrite (forward_Some N _ _ _ _ _ _ _ Hattrs inputs enc p lm b L w Hb Hsz).
  cbv zeta. apply Qlt_bool_false in Hu. rewrite Hu.
  destruct (free_running_branch_record N hd nc N_ok hd_pos _ _ _ _ _ _ _ eq_refl Hattrs
              inputs enc lm b L (Z.of_nat L - 1) (after_draw (after_validation lm w))
              Hs HL Hbpos Hnc Hmode)
    as (seed & outs & rd & nexts & w' & Hts & Hr & Hlen & Hall & Hg & _ & Hev & Hst).
  exists seed, outs, rd, nexts, w'. split_and!; try assumption.
  - rewrite Hlen. lia.
  - intros Hf. destruct (Hev Hf) as (la & _ & _ & Hsym). exact Hsym.
  - rewrite Hst. destruct lm; simpl; lia.
Qed.

(** Inference without targets and without a language model, outside
    training mode. *)
Lemma inference_trace enc p b (w : World G) :
  size enc 0 = Ok b → (0 < b)%nat → (0 < nc)%nat →
  ¬ (0 < p)%Q → ¬ (py_random w (drawn w) < p)%Q →
  ∃ outs rd nexts la w',
    Speller.forward N (Speller.train false self0) None enc p None w = (Ok (outs, rd), w') ∧
    length outs = Z.to_nat max_length ∧
    Forall (fun d => shape d = [b; nc]) outs ∧
    greedy_tokens (argmax N) outs nexts ∧
    rd !! Speller.KEY_ATTENTION_SCORE = Some la ∧ length la = length outs ∧
    rd !! Speller.KEY_SEQUENCE_SYMBOL =
      Some (map DSym (removelast (Tensor [b; 1%nat] (replicate b sos_id) :: nexts))) ∧
    steps w' = (steps w + Z.to_nat max_length)%nat ∧ drawn w' = S (drawn w).
Proof.
  intros Hb Hbpos Hnc Hp Hu.
  pose proof (built_attrs false) as Hattrs.
  rewrite (forward_None N _ _ _ _ _ _ _ Hattrs enc p None b w Hb).
  apply Qlt_bool_false in Hp, Hu. rewrite Hp. cbv zeta. rewrite Hu.
  destruct (free_running_branch_record N hd nc N_ok hd_pos _ _ _ _ _ _ _ eq_refl Hattrs
              (Tensor [b; 1%nat] (replicate b sos_id)) enc None b 1 max_length
              (after_draw (after_validation None w)) eq_refl ltac:(lia) Hbpos Hnc
              (or_intror eq_refl))
    as (seed & outs & rd & nexts & w' & Hts & Hr & Hlen & Hall & Hg & _ & Hev & Hst).
  rewrite time_slice_column in Hts. injection Hts as <-.
  destruct (Hev eq_refl) as (la & Ha & Hla & Hsym).
  exists outs, rd, nexts, la, w'. split_and!; try assumption; [now rewrite Hla |].
  destruct (keeps_random_free_running_branch N (Speller.train false self0)
              (Tensor [b; 1%nat] (replicate b sos_id)) max_length enc None
              (initial_ret_dict false) (after_draw (after_validation None w))) as [_ Hd].
  rewrite Hr in Hd. exact Hd.
Qed.

(** X5.  Inference without targets and without a language model, outside
    training mode: [forward] returns [max_length] distributions of shape
    (b, nc) and as many alignments; the symbols it records are the tokens
    it fed to the steps, that is the start-of-sequence column followed by
    the [topk(1)] tokens of all distributions but the last, so the token
    chosen at the last step is not recorded. *)
Theorem inference_records_fed_tokens enc p b (w : World G) :
  size enc 0 = Ok b → (0 < b)%nat → (0 < nc)%nat →
  ¬ (0 < p)%Q → ¬ (py_random w (drawn w) < p)%Q →
  ∃ outs rd nexts la w',
    Speller.forward N (Speller.train false self0) None enc p None w = (Ok (outs, rd), w') ∧
    length outs = Z.to_nat max_length ∧
    Forall (fun d => shape d = [b; nc]) outs ∧
    greedy_tokens (argmax N) outs nexts ∧
    rd !! Speller.KEY_ATTENTION_SCORE = Some la ∧ length la = length outs ∧
    rd !! Speller.KEY_SEQUENCE_SYMBOL =
      Some (map DSym (removelast (Tensor [b; 1%nat] (replicate b sos_id) :: nexts))).
Proof.
  intros Hb Hbpos Hnc Hp Hu.
  destruct (inference_trace enc p b w Hb Hbpos Hnc Hp Hu)
    as (outs & rd & nexts & la & w' & Hr & Hlen & Hall & Hg & Ha & Hla & Hsym & _ & _).
  exists outs, rd, nexts, la, w'. split_and!; assumption.
Qed.

(** X6.  In training mode a free-running call without targets returns an
    empty dictionary, with or without a language model: [max_length]
    distributions of shape (b, nc), no diagnostics key. *)
Theorem training_free_running_no_diagnostics enc p lm b (w : World G) :
  size enc 0 = Ok b → (0 < b)%nat → (0 < nc)%nat →
  ¬ (0 < p)%Q → ¬ (py_random w (drawn w) < p)%Q →
  ∃ outs w',
    Speller.forward N (Speller.train true self0) None enc p lm w = (Ok (outs, ∅), w') ∧
    length outs = Z.to_nat max_length ∧
    Forall (fun d => shape d = [b; nc]) outs ∧
    steps w' = (steps w + Z.to_nat max_length)%nat.
Proof.
  intros Hb Hbpos Hnc Hp Hu.
  pose proof (built_attrs true) as Hattrs.
  rewrite (forward_None N _ _ _ _ _ _ _ Hattrs enc p lm b w Hb).
  apply Qlt_bool_false in Hp, Hu. rewrite Hp. cbv zeta. rewrite Hu.
  destruct (free_running_branch_record N hd nc N_ok hd_pos _ _ _ _ _ _ _ eq_refl Hattrs
              (Tensor [b; 1%nat] (replicate b sos_id)) enc lm b 1 max_length
              (after_draw (after_validation lm w)) eq_refl ltac:(lia) Hbpos Hnc
              (or_introl eq_refl))
    as (seed & outs & rd & nexts & w' & _ & Hr & Hlen & Hall & _ & Htr & _ & Hst).
  rewrite (Htr eq_refl) in Hr.
  exists outs, w'. split_and!; try assumption.
  rewrite Hst. destruct lm; reflexivity.
Qed.

(** X7.  The language model is consulted only in free-running decoding
    outside training mode: in training mode, and whenever teacher forcing
    is drawn, two calls that differ only in the language model attached
    end in the same outcome and the same state. *)
Theorem language_model_not_consulted (self : object) training inputs enc p lm1 lm2
    (w : World G) :
  training = true ∨ (py_random w (drawn w) < p)%Q →
  Speller.forward N (Speller.train training self) inputs enc p (Some lm1) w =
    Speller.forward N (Speller.train training self) inputs enc p (Some lm2) w.
Proof.
  intros Hmode.
  assert (Ht : Speller.train training self !! "training" = Some (PBool training)).
  { unfold Speller.train. apply lookup_insert_eq. }
  destruct (Speller.validate_args (Speller.train training self) inputs enc p (Some lm1) w)
    as [[[[inputs' b] ml]|e] w1] eqn:Hv.
  - rewrite (forward_after_validation N _ training inputs enc p (Some lm1) inputs' b ml w w1
               Ht Hv).
    rewrite (forward_after_validation N _ training inputs enc p (Some lm2) inputs' b ml w w1
               Ht Hv).
    destruct (Qlt_bool (py_random w (drawn w)) p) eqn:Hu; [reflexivity |].
    destruct Hmode as [Htr | Hlt]; [| apply Qlt_bool_iff in Hlt; congruence].
    subst training. unfold Speller.free_running_branch.
    apply bind_ext. intros col w4. apply bind_ext. intros iv w5.
    unfold for_range, bind.
    rewrite (for_each_ext (seq 0 (Z.to_nat ml))
               (fun _ st => Speller.free_running_step N (Speller.train true self) enc
                              (Some lm1) st)
               (fun _ st => Speller.free_running_step N (Speller.train true self) enc
                              (Some lm2) st)).
    + reflexivity.
    + intros i s w'. now apply free_running_step_training.
  - unfold Speller.forward.
    rewrite !(bind_Ok _ _ _ _ _ (get_bool_Some _ _ _ _ Ht)).
    assert (Hv2 : Speller.validate_args (Speller.train training self) inputs enc p
                    (Some lm2) w = (Raise e, w1)) by exact Hv.
    rewrite (bind_Raise _ _ _ _ _ Hv), (bind_Raise _ _ _ _ _ Hv2). reflexivity.
Qed.

(** X8.  A call with a language model attached that passes the argument
    validation leaves the language model in evaluation mode, in training
    mode as well and whether or not the call then succeeds; a call
    without a language model leaves the flag as it was. *)
Theorem language_model_left_in_eval_mode training inputs enc p lm b (w : World G) :
  size enc 0 = Ok b →
  match inputs with
  | Some t => ∃ n, size t 1 = Ok n
  | None => ¬ (0 < p)%Q
  end →
  lm_training (snd (Speller.forward N (Speller.train training self0) inputs enc p (Some lm) w))
    = false ∧
  lm_training (snd (Speller.forward N (Speller.train training self0) inputs enc p None w))
    = lm_training w.
Proof.
  intros Hb Hin. split; [| apply (keeps_lm_forward_None N)].
  pose proof (built_attrs training) as Hattrs.
  destruct inputs as [t|].
  - destruct Hin as [n Hn].
    rewrite (forward_Some N _ _ _ _ _ _ _ Hattrs t enc p (Some lm) b n w Hb Hn). cbv zeta.
    destruct (Qlt_bool _ p).
    + exact (keeps_lm_teacher_forced_branch N _ _ _ _ _
               (after_draw (after_validation (Some lm) w))).
    + exact (keeps_lm_free_running_branch N _ _ _ _ _ _
               (after_draw (after_validation (Some lm) w))).
  - rewrite (forward_None N _ _ _ _ _ _ _ Hattrs enc p (Some lm) b w Hb).
    apply Qlt_bool_false in Hin. rewrite Hin. clear Hin. cbv zeta.
    destruct (Qlt_bool (py_random w (drawn w)) p).
    + exact (keeps_lm_teacher_forced_branch N _ _ _ _ _
               (after_draw (after_validation (Some lm) w))).
    + exact (keeps_lm_free_running_branch N _ _ _ _ _ _
               (after_draw (after_validation (Some lm) w))).
Qed.

(** X9.  In the teacher-forced branch, on targets made of token ids of the
    vocabulary, every distribution of the trace has shape (b, nc), and the
    step function is invoked once per position when the attention is
    location-aware but exactly once, on the whole sequence, when it is
    content-based. *)
Theorem teacher_forced_step_invocations training inputs enc p lm b L (w : World G) :
  let n := length (non_eos eos_id (flat inputs)) in
  in_vocabulary nc inputs →
  size inputs 1 = Ok L → size enc 0 = Ok b →
  (py_random w (drawn w) < p)%Q →
  (0 < b)%nat → (n mod b = 0)%nat →
  attn_mechanism = "loc" ∨ (2 ≤ n / b)%nat →
  ∃ outs w',
    Speller.forward N (Speller.train training self0) (Some inputs) enc p lm w =
      (Ok (outs, initial_ret_dict training), w') ∧
    length outs = (n / b)%nat ∧
    Forall (fun d => shape d = [b; nc]) outs ∧
    steps w' = (steps w + if String.eqb attn_mechanism "loc" then n / b else 1)%nat.
Proof.
  intros n _ HL Hb Hu Hbpos Hmod Hcase.
  pose proof (built_attrs training) as Hattrs.
  rewrite (forward_Some N _ _ _ _ _ _ _ Hattrs inputs enc p lm b L w Hb HL).
  cbv zeta. apply Qlt_bool_iff in Hu. rewrite Hu.
  destruct (teacher_forced_branch_shapes N hd nc N_ok hd_pos _ _ _ _ _ _ _ eq_refl Hattrs
              inputs enc b (initial_ret_dict training) (after_draw (after_validation lm w))
              Hbpos Hmod Hcase) as (outs & w' & Hr & Hlen & Hall & Hst).
  exists outs, w'. split_and!; try assumption.
  rewrite Hst. destruct lm; reflexivity.
Qed.

(** X10.  With content-based attention [forward_step] does not use the
    alignment it is handed: the attention is called on the encoder
    outputs instead. *)
Theorem content_based_step_ignores_alignment training x hidden enc attn attn' (w : World G) :
  attn_mechanism = "dot" →
  Speller.forward_step N (Speller.train training self0) x hidden enc attn w =
    Speller.forward_step N (Speller.train training self0) x hidden enc attn' w.
Proof.
  intros Hd. apply forward_step_dot_attn.
  rewrite <- Hd. apply (attr_attn_mechanism _ _ _ _ _ _ _ (built_attrs training)).
Qed.

(** X11.  Targets without any column pass the validation, which sets the
    length cap to -1; if teacher forcing is not drawn, [forward] then
    fails with IndexError on the first column it reads, before any
    invocation of the step function. *)
Theorem free_running_targets_without_columns training inputs enc p lm b (w : World G) :
  shape inputs = [b; 0%nat] → size enc 0 = Ok b →
  ¬ (py_random w (drawn w) < p)%Q →
  Speller.validate_args (Speller.train training self0) (Some inputs) enc p lm w =
    (Ok (inputs, b, -1), after_validation lm w) ∧
  Speller.forward N (Speller.train training self0) (Some inputs) enc p lm w =
    (Raise (IndexError "index is out of bounds for dimension 1"),
     after_draw (after_validation lm w)).
Proof.
  intros Hs Hb Hu.
  pose proof (built_attrs training) as Hattrs.
  assert (Hsz : size inputs 1 = Ok 0%nat) by (unfold size; now rewrite Hs).
  split.
  - rewrite (validate_args_Some _ inputs enc p lm b 0 w Hb Hsz).
    destruct lm; reflexivity.
  - rewrite (forward_Some N _ _ _ _ _ _ _ Hattrs inputs enc p lm b 0 w Hb Hsz).
    cbv zeta. apply Qlt_bool_false in Hu. rewrite Hu.
    eapply free_running_branch_no_column. exact Hs.
Qed.

End Decoding.

(** X12.  When the base class and the layers are constructed without
    error, [__init__] returns a decoder for each of the two supported
    selectors, and it constructs only the attention that was selected:
    with ['loc'] the object holds a location-aware attention whatever the
    constructor of the multi-head attention would do, and conversely. *)
Theorem init_builds_selected_attention (C : Constructors)
    (num_classes max_length hidden_dim sos_id eos_id : Z) (attn_mechanism : string)
    (num_heads num_layers : Z) (rnn_type : string) (dropout_p : Q) (device : string)
    (base : object) :
  BaseRNN_init C hidden_dim hidden_dim num_layers rnn_type dropout_p false device = Ok base →
  nn_Embedding C num_classes hidden_dim = Ok tt →
  nn_Dropout C dropout_p = Ok tt →
  new_Linear C (Z.shiftl hidden_dim 1) hidden_dim true = Ok tt →
  new_LayerNorm C hidden_dim = Ok tt →
  new_Linear C hidden_dim num_classes true = Ok tt →
  (attn_mechanism = "loc" → new_LocationAwareAttention C hidden_dim true = Ok tt →
   ∃ self,
     Speller.__init__ C num_classes max_length hidden_dim sos_id eos_id attn_mechanism
       num_heads num_layers rnn_type dropout_p device = Ok self ∧
     self !! "attention" = Some (PModule LocationAwareAttention) ∧
     self !! "attn_mechanism" = Some (PStr "loc")) ∧
  (attn_mechanism = "dot" → new_MultiHeadAttention C hidden_dim num_heads = Ok tt →
   ∃ self,
     Speller.__init__ C num_classes max_length hidden_dim sos_id eos_id attn_mechanism
       num_heads num_layers rnn_type dropout_p device = Ok self ∧
     self !! "attention" = Some (PModule MultiHeadAttention) ∧
     self !! "attn_mechanism" = Some (PStr "dot")).
Proof.
  intros Hbase Hemb Hdrop Hl1 Hln Hl2. unfold Speller.__init__.
  rewrite Hbase, Hemb, Hdrop.
  split; intros -> Hattn; cbn [String.eqb Ascii.eqb Bool.eqb]; rewrite Hattn, Hl1, Hln, Hl2;
    eexists; split_and!; try reflexivity; by simplify_map_eq.
Qed.

(** ** The whole-sequence call inside [forward] *)

Section ContentBased.
Context {H G : Type}.
Variable C : Constructors.
Variable N : Layers H G.
Variables (hd nc : nat).
Hypothesis C_ok : Constructors_ok C.
Hypothesis N_ok : Layers_shapes N hd nc.
Hypothesis hd_pos : (0 < hd)%nat.
Variables (max_length sos_id eos_id : Z).
Variables (num_heads num_layers : Z) (rnn_type : string) (dropout_p : Q) (device : string).
Variable self0 : object.
Hypothesis Hinit :
  Speller.__init__ C (Z.of_nat nc) max_length (Z.of_nat hd) sos_id eos_id "dot"
    num_heads num_layers rnn_type dropout_p device = Ok self0.
Variable training : bool.
Variables f1 fn f2 fs : list Q → list Q.
Hypothesis N_pw : Layers_positionwise N training hd nc f1 fn f2 fs.

(** X13.  With content-based attention, layers that are position-wise in
    the current mode, targets made of token ids of the vocabulary and at
    least two positions left after the end-of-sequence tokens are
    removed, the trace that [forward] returns from its single
    whole-sequence invocation of the step function is the trace that the
    loop over the positions, threading the recurrent state, computes on
    the same stripped targets. *)
Theorem forward_trace_is_stepwise_trace inputs enc p lm b L (w : World G) :
  let n := length (non_eos eos_id (flat inputs)) in
  in_vocabulary nc inputs →
  size inputs 1 = Ok L → size enc 0 = Ok b →
  (py_random w (drawn w) < p)%Q →
  (0 < b)%nat → (n mod b = 0)%nat → (2 ≤ n / b)%nat →
  ∃ stripped outs w' hs as_ ws,
    Speller.strip_eos eos_id b inputs = Ok stripped ∧
    Speller.forward N (Speller.train training self0) (Some inputs) enc p lm w =
      (Ok (outs, initial_ret_dict training), w') ∧
    Speller.teacher_forced_stepwise N (Speller.train training self0) stripped enc
      (None, None, []) (after_draw (after_validation lm w)) = (Ok (hs, as_, outs), ws) ∧
    length outs = (n / b)%nat.
Proof.
  intros n _ HL Hb Hu Hbpos Hmod HT.
  assert (Hattrs : Speller_attrs (Speller.train training self0) max_length (Z.of_nat hd)
                     sos_id eos_id "dot" training) by (eapply init_attrs; eassumption).
  rewrite (forward_Some N _ _ _ _ _ _ _ Hattrs inputs enc p lm b L w Hb HL).
  cbv zeta. apply Qlt_bool_iff in Hu. rewrite Hu.
  set (w1 := after_draw (after_validation lm w)).
  set (stripped := Tensor [b; (n / b)%nat] (non_eos eos_id (flat inputs))).
  assert (Hstrip : Speller.strip_eos eos_id b inputs = Ok stripped).
  { rewrite strip_eos_eq. cbv zeta. fold n.
    destruct (Nat.eqb_spec b 0); [lia |]. rewrite Hmod. reflexivity. }
  destruct (batched_agrees_with_stepwise N hd nc N_ok hd_pos training f1 fn f2 fs N_pw
              (Speller.train training self0) max_length (Z.of_nat hd) sos_id eos_id eq_refl
              Hattrs stripped enc b (n / b) w1 eq_refl Hbpos HT)
    as (outs & hb & ab & wb & hs & as_ & ws & Hbat & Hstep & Hlen).
  exists stripped, outs, wb, hs, as_, ws. split_and!; try assumption.
  unfold Speller.teacher_forced_branch.
  rewrite (bind_Ok _ _ _ _ _ (get_int_Some _ _ _ _ (attr_eos_id _ _ _ _ _ _ _ Hattrs))).
  rewrite (bind_lift_Ok _ _ _ _ Hstrip).
  rewrite (bind_Ok _ _ _ _ _ (get_str_Some _ _ _ _ (attr_attn_mechanism _ _ _ _ _ _ _ Hattrs))).
  change ("dot" =? "loc")%string with false. cbv iota.
  rewrite (bind_Ok _ _ _ _ _ Hbat). reflexivity.
Qed.

End ContentBased.

(** ** The fusion with the language model *)

Lemma flat_map_blocks {A} n k (l : list A) :
  length l = (n * k)%nat → flat_map (fun i => take k (drop (i * k) l)) (seq 0 n) = l.
Proof.
  revert l. induction n as [|n IH]; intros l Hl.
  - destruct l; [reflexivity | discriminate].
  - cbn [seq flat_map]. rewrite drop_0, <- seq_shift, flat_map_concat_map, map_map.
    rewrite <- flat_map_concat_map.
    rewrite (flat_map_ext_In _ (fun i => take k (drop (i * k) (drop k l)))).
    + rewrite IH; [apply take_drop |]. rewrite length_drop, Hl. simpl. lia.
    + intros i _. rewrite drop_drop. reflexivity.
Qed.

Lemma expand_flat_same {A} s (l : list A) :
  length l = prod_list s → expand_flat s s l = l.
Proof.
  revert l. induction s as [|d ds IH]; intros l Hl; [reflexivity |].
  cbn [expand_flat]. rewrite Nat.eqb_refl.
  change (prod_list (d :: ds)) with (d * prod_list ds)%nat in Hl.
  rewrite (flat_map_ext_In _ (fun i => take (prod_list ds) (drop (i * prod_list ds) l))).
  - now apply flat_map_blocks.
  - intros i Hi. apply in_seq in Hi. apply IH.
    rewrite length_take, length_drop, Hl. nia.
Qed.

Lemma broadcast_rev_same s : broadcast_rev s s = Some s.
Proof.
  induction s as [|d ds IH]; [reflexivity |].
  cbn [broadcast_rev]. now rewrite IH, Nat.eqb_refl.
Qed.

(** The sum of two tensors of one and the same shape is taken element by
    element. *)
Lemma tensor_add_same (x y : tensor Q) :
  shape y = shape x → wf_tensor x → wf_tensor y →
  tensor_add x y = Ok (Tensor (shape x) (zip_with Qplus (flat x) (flat y))).
Proof.
  intros Hs Hx Hy. unfold tensor_add. rewrite Hs, broadcast_rev_same.
  cbv zeta. rewrite rev_involutive.
  unfold pad_shape. rewrite Nat.sub_diag. cbn [replicate app].
  rewrite !expand_flat_same; [reflexivity | |].
  - unfold wf_tensor, numel in Hy. now rewrite Hy, Hs.
  - exact Hx.
Qed.

Section Fusion.
Context {H G : Type}.
Variable N : Layers H G.

(** X14.  What the fusion of lines 141-144 computes on an object that
    does have the attributes [acoustic_weight] and [language_weight]
    (values [a] and [l]): for a token history of shape (b, k), acoustic
    scores of shape (b, nc) and language-model scores of shape (b, k, nc)
    with [nc >= 2], the fused distribution is [a] times the acoustic
    scores plus [l] times the language-model scores at the last position,
    element by element; the token history grows by the column of the
    [topk(1)] tokens of the fused distribution, and the ambient state is
    left alone. *)
Theorem fusion_is_weighted_sum (self : object) lm prev so b k nc a l (w : World G) :
  self !! "acoustic_weight" = Some (PFloat a) →
  self !! "language_weight" = Some (PFloat l) →
  shape prev = [b; k] → (0 < k)%nat →
  shape so = [b; nc] → wf_tensor so →
  shape (lm_forward_step lm prev) = [b; k; nc] → wf_tensor (lm_forward_step lm prev) →
  (2 ≤ nc)%nat →
  ∃ y top prev',
    select1 3 (-1) (lm_forward_step lm prev) = Ok y ∧
    shape y = [b; nc] ∧
    topk1_indices (argmax N)
      (Tensor [b; nc] (zip_with (fun x z => x * a + z * l)%Q (flat so) (flat y))) = Ok top ∧
    cat1 prev top = Ok prev' ∧
    shape prev' = [b; (k + 1)%nat] ∧
    Speller.fuse N self lm (Some prev) so w =
      (Ok (Tensor [b; nc] (zip_with (fun x z => x * a + z * l)%Q (flat so) (flat y)),
           Some prev'), w).
Proof.
  intros Ha Hl Hp Hk Hso Hwf Hlm Hlmwf Hnc.
  set (scores := lm_forward_step lm prev) in *.
  set (yl := flat_map (fun i => take nc (drop ((i * k + (k - 1)) * nc) (flat scores)))
               (seq 0 b)).
  assert (Hy : select1 3 (-1) scores = Ok (Tensor [b; nc] yl)).
  { unfold select1, ndim. rewrite Hlm. cbn [length Nat.ltb Nat.leb].
    change (-1 <? 0) with true. cbv iota.
    destruct (Z.leb_spec 0 (-1 + Z.of_nat k)); [| lia].
    destruct (Z.ltb_spec (-1 + Z.of_nat k) (Z.of_nat k)); [| lia].
    cbn [andb prod_list foldr]. rewrite Nat.mul_1_r.
    replace (Z.to_nat (-1 + Z.of_nat k)) with (k - 1)%nat by lia. reflexivity. }
  assert (Hyl : length yl = (b * nc)%nat).
  { subst yl. rewrite (length_flat_map_const _ nc); [now rewrite length_seq |].
    intros i Hi. apply in_seq in Hi. rewrite length_take, length_drop.
    unfold wf_tensor, numel in Hlmwf. rewrite Hlmwf, Hlm.
    assert (Hrow : (i * k + (k - 1) + 1 ≤ b * k)%nat) by nia.
    apply (Nat.mul_le_mono_r _ _ nc) in Hrow.
    cbn [prod_list foldr]. rewrite Nat.mul_1_r, Nat.mul_assoc. lia. }
  set (fused := Tensor [b; nc] (zip_with (fun x z => x * a + z * l)%Q (flat so) yl)).
  assert (Hadd : tensor_add (tensor_mul_scalar so a) (tensor_mul_scalar (Tensor [b; nc] yl) l)
                 = Ok fused).
  { rewrite tensor_add_same.
    - unfold tensor_mul_scalar, fused. cbn [shape flat]. rewrite Hso. do 2 f_equal.
      rewrite zip_with_fmap_l, zip_with_fmap_r. reflexivity.
    - unfold tensor_mul_scalar. cbn [shape]. now rewrite Hso.
    - unfold wf_tensor, numel, tensor_mul_scalar in *. cbn [shape flat].
      now rewrite length_map.
    - unfold wf_tensor, numel, tensor_mul_scalar. cbn [shape flat].
      rewrite length_map, Hyl. simpl. lia. }
  destruct (topk1_matrix (argmax N) fused b nc eq_refl ltac:(lia)) as [tl Htop].
  assert (Hcat : ∃ pl, cat1 prev (Tensor [b; 1%nat] tl) = Ok (Tensor [b; (k + 1)%nat] pl)).
  { unfold cat1. rewrite Hp. cbn [shape]. rewrite decide_True by auto. eauto. }
  destruct Hcat as [pl Hcat].
  exists (Tensor [b; nc] yl), (Tensor [b; 1%nat] tl), (Tensor [b; (k + 1)%nat] pl).
  split_and!; try assumption; try reflexivity.
  unfold Speller.fuse. rewrite bind_ret_eq.
  rewrite (bind_lift_Ok _ _ _ _ Hy).
  assert (Hsq : squeeze 1 (Tensor [b; nc] yl) = Ok (Tensor [b; nc] yl)).
  { unfold squeeze. cbn [shape lookup list_lookup].
    destruct (Nat.eqb_spec nc 1); [lia | reflexivity]. }
  rewrite (bind_lift_Ok _ _ _ _ Hsq).
  assert (Hga : get_float self "acoustic_weight" w = (Ok a, w)).
  { unfold get_float. now rewrite (bind_Ok _ _ _ _ _ (getattr_Some _ _ _ _ Ha)). }
  assert (Hgl : get_float self "language_weight" w = (Ok l, w)).
  { unfold get_float. now rewrite (bind_Ok _ _ _ _ _ (getattr_Some _ _ _ _ Hl)). }
  rewrite (bind_Ok _ _ _ _ _ Hga), (bind_Ok _ _ _ _ _ Hgl).
  rewrite (bind_lift_Ok _ _ _ _ Hadd), (bind_lift_Ok _ _ _ _ Htop), (bind_lift_Ok _ _ _ _ Hcat).
  reflexivity.
Qed.

(** X15.  Targets that are not a matrix are rejected by the validation
    before anything else happens: [inputs.size(1)] raises IndexError, the
    language model is not switched to evaluation mode, no random number
    is drawn and the step function is not invoked. *)
Theorem targets_without_time_axis (self : object) training inputs enc p lm b (w : World G) :
  (ndim inputs < 2)%nat → size enc 0 = Ok b →
  Speller.validate_args self (Some inputs) enc p lm w =
    (Raise (IndexError "Dimension out of range"), w) ∧
  Speller.forward N (Speller.train training self) (Some inputs) enc p lm w =
    (Raise (IndexError "Dimension out of range"), w).
Proof.
  intros Hd Hb.
  assert (Hsz : size inputs 1 = Raise (IndexError "Dimension out of range")).
  { unfold size, ndim in *. destruct (shape inputs) as [|? [|? ?]]; simpl in *; [| | lia];
      reflexivity. }
  assert (Hv : ∀ s, Speller.validate_args s (Some inputs) enc p lm w =
                    (Raise (IndexError "Dimension out of range"), w)).
  { intros s. unfold Speller.validate_args.
    rewrite (bind_lift_Ok _ _ _ _ Hb).
    erewrite bind_Raise; [reflexivity |].
    now rewrite (bind_lift_Raise _ _ _ _ Hsz). }
  split; [apply Hv |].
  unfold Speller.forward.
  assert (Ht : Speller.train training self !! "training" = Some (PBool training)).
  { unfold Speller.train. apply lookup_insert_eq. }
  rewrite (bind_Ok _ _ _ _ _ (get_bool_Some _ _ _ _ Ht)).
  now rewrite (bind_Raise _ _ _ _ _ (Hv _)).
Qed.

End Fusion.

(** * The model as a whole (kospeech/model/las.py) *)

Section Model.
Context {X L H G : Type}.
Variable C : Constructors.
Variable N : Layers H G.
Variables (hd nc : nat).
Hypothesis C_ok : Constructors_ok C.
Hypothesis N_ok : Layers_shapes N hd nc.
Hypothesis hd_pos : (0 < hd)%nat.
Variables (max_length sos_id eos_id : Z) (attn_mechanism : string).
Variables (num_heads num_layers : Z) (rnn_type : string) (dropout_p : Q) (device : string).
Variable self0 : object.
Hypothesis Hinit :
  Speller.__init__ C (Z.of_nat nc) max_length (Z.of_nat hd) sos_id eos_id attn_mechanism
    num_heads num_layers rnn_type dropout_p device = Ok self0.
Variable listener : Listener X L G.

(** X16.  A call of the model with features and lengths only cannot
    decode: the targets default to [None] and the teacher-forcing ratio to
    1.0, so once the encoder has returned, the decoder's validation raises
    ValueError; no step is taken, no random number drawn. *)
Theorem model_call_with_defaults_raises training inputs input_lengths enc b g (w : World G) :
  listener_forward listener inputs input_lengths (torch_rng w) = (Ok enc, g) →
  size enc 0 = Ok b →
  ListenAttendSpell.forward_defaults
    (ListenAttendSpell.__init__ listener (Build_Decoder N (Speller.train training self0)))
    inputs input_lengths w =
    (Raise (ValueError "Teacher forcing has to be disabled (set 0) when no inputs is provided."),
     mkWorld (py_random w) (drawn w) g (steps w) (lm_training w)).
Proof.
  intros Hl Hb.
  assert (Hattrs : Speller_attrs (Speller.train training self0) max_length (Z.of_nat hd)
                     sos_id eos_id attn_mechanism training) by (eapply init_attrs; eassumption).
  unfold ListenAttendSpell.forward_defaults, ListenAttendSpell.forward,
    ListenAttendSpell.__init__.
  cbn [ListenAttendSpell.listener ListenAttendSpell.speller decoder_layers decoder_self].
  rewrite (bind_Ok _ _ _ _ _ (with_torch_rng_eq _ _)). rewrite Hl. cbn [fst snd].
  rewrite (bind_lift_Ok _ _ _ _ eq_refl).
  erewrite bind_Raise; [reflexivity |].
  rewrite (forward_None N _ _ _ _ _ _ _ Hattrs enc 1%Q None b _ Hb).
  reflexivity.
Qed.

(** X17.  Inference through the model: when the encoder returns outputs
    for [b] utterances, a call without targets, with teacher-forcing
    ratio 0 and without a language model, the decoder being outside
    training mode, returns [max_length] distributions of shape (b, nc)
    after as many invocations of the step function and one random draw;
    the batch size of the decoding is the one of the encoder outputs. *)
Theorem model_inference_trace inputs input_lengths enc b g p (w : World G) :
  listener_forward listener inputs input_lengths (torch_rng w) = (Ok enc, g) →
  size enc 0 = Ok b → (0 < b)%nat → (0 < nc)%nat →
  ¬ (0 < p)%Q → ¬ (py_random w (drawn w) < p)%Q →
  ∃ outs rd la w',
    ListenAttendSpell.forward
      (ListenAttendSpell.__init__ listener (Build_Decoder N (Speller.train false self0)))
      inputs input_lengths None p None w = (Ok (outs, rd), w') ∧
    length outs = Z.to_nat max_length ∧
    Forall (fun d => shape d = [b; nc]) outs ∧
    rd !! Speller.KEY_ATTENTION_SCORE = Some la ∧ length la = length outs ∧
    steps w' = (steps w + Z.to_nat max_length)%nat ∧
    drawn w' = S (drawn w).
Proof.
  intros Hl Hb Hbpos Hnc Hp Hu.
  unfold ListenAttendSpell.forward, ListenAttendSpell.__init__.
  cbn [ListenAttendSpell.listener ListenAttendSpell.speller decoder_layers decoder_self].
  rewrite (bind_Ok _ _ _ _ _ (with_torch_rng_eq _ _)). rewrite Hl. cbn [fst snd].
  rewrite (bind_lift_Ok _ _ _ _ eq_refl).
  set (w0 := mkWorld (py_random w) (drawn w) g (steps w) (lm_training w)).
  destruct (inference_trace C N hd nc C_ok N_ok hd_pos _ _ _ _ _ _ _ _ _ _ Hinit enc p b w0
              Hb Hbpos Hnc Hp Hu)
    as (outs & rd & nexts & la & w' & Hr & Hlen & Hall & Hg & Ha & Hla & Hsym & Hst & Hd).
  rewrite (bind_Ok _ _ _ _ _ Hr).
  exists outs, rd, la, w'. split_and!; try assumption; reflexivity.
Qed.

End Model.

(** * Feature extraction (kospeech/data/audio/feature.py) *)

Section FeatureClasses.
Context {S T F : Type}.
Variable R : Feature.Runtime S T F.

(** X18.  A library name that is neither ['torchaudio'] nor ['librosa']
    once lower-cased is not rejected by the constructors: both
    [MelSpectrogram] and [MFCC] return an object, whatever the binding of
    [torchaudio], and every call of that object raises ValueError with the
    lower-cased name in its message. *)
Theorem unsupported_library_raises_at_call (torchaudio : option (Feature.Torchaudio T))
    sample_rate n window_size stride name n_fft hop_length :
  Feature.str_lower R name ≠ "torchaudio" → Feature.str_lower R name ≠ "librosa" →
  Feature.ms_to_samples R sample_rate window_size = Feature.Return n_fft →
  Feature.ms_to_samples R sample_rate stride = Feature.Return hop_length →
  ∃ mel mfcc,
    Feature.MelSpectrogram_init R torchaudio sample_rate n window_size stride name =
      Feature.Return mel ∧
    Feature.MFCC_init R torchaudio sample_rate n window_size stride name =
      Feature.Return mfcc ∧
    ∀ signal,
      Feature.MelSpectrogram_call R mel signal =
        Feature.Throw (Feature.Exn (ValueError ("Unsupported library : " ++
                                                Feature.str_lower R name))) ∧
      Feature.MFCC_call R mfcc signal =
        Feature.Throw (Feature.Exn (ValueError ("Unsupported library : " ++
                                                Feature.str_lower R name))).
Proof.
  intros Ht Hl Hn Hh.
  unfold Feature.MelSpectrogram_init, Feature.MFCC_init. rewrite Hn, Hh. cbv zeta.
  destruct (String.eqb_spec (Feature.str_lower R name) "torchaudio") as [|_]; [contradiction |].
  eexists _, _. split_and!; try reflexivity.
  intros signal. unfold Feature.MelSpectrogram_call, Feature.MFCC_call.
  cbn [Feature.mel_feature_extract_by Feature.mfcc_feature_extract_by].
  destruct (String.eqb_spec (Feature.str_lower R name) "torchaudio") as [|_]; [contradiction |].
  destruct (String.eqb_spec (Feature.str_lower R name) "librosa") as [|_]; [contradiction |].
  split; reflexivity.
Qed.

(** X19.  On a platform other than Linux the module is imported without
    binding [torchaudio], and constructing either class for the
    ['torchaudio'] library then raises NameError. *)
Theorem torchaudio_unbound_off_linux platform_system find
    sample_rate n window_size stride name n_fft hop_length :
  platform_system ≠ "Linux" →
  Feature.str_lower R name = "torchaudio" →
  Feature.ms_to_samples R sample_rate window_size = Feature.Return n_fft →
  Feature.ms_to_samples R sample_rate stride = Feature.Return hop_length →
  ∃ torchaudio,
    Feature.import_torchaudio (T:=T) platform_system find = Feature.Return torchaudio ∧
    Feature.MelSpectrogram_init R torchaudio sample_rate n window_size stride name =
      Feature.Throw (Feature.NameError "torchaudio") ∧
    Feature.MFCC_init R torchaudio sample_rate n window_size stride name =
      Feature.Throw (Feature.NameError "torchaudio").
Proof.
  intros Hp Hname Hn Hh. exists None.
  unfold Feature.import_torchaudio, Feature.MelSpectrogram_init, Feature.MFCC_init.
  destruct (String.eqb_spec platform_system "Linux") as [|_]; [contradiction |].
  rewrite Hn, Hh, Hname. split_and!; reflexivity.
Qed.

(** X20.  With the ['librosa'] library, in any letter case that
    [str.lower] maps to it, the binding of [torchaudio] plays no part:
    both constructors return the same object whatever it is, and a call
    hands librosa the signal, the sample rate and the number of
    coefficients given to the constructor and the sample counts computed
    from the window size and the stride. *)
Theorem librosa_independent_of_torchaudio (torchaudio : option (Feature.Torchaudio T))
    sample_rate n window_size stride name n_fft hop_length :
  Feature.str_lower R name = "librosa" →
  Feature.ms_to_samples R sample_rate window_size = Feature.Return n_fft →
  Feature.ms_to_samples R sample_rate stride = Feature.Return hop_length →
  ∃ mel mfcc,
    Feature.MelSpectrogram_init R torchaudio sample_rate n window_size stride name =
      Feature.Return mel ∧
    Feature.MelSpectrogram_init R None sample_rate n window_size stride name =
      Feature.Return mel ∧
    Feature.MFCC_init R torchaudio sample_rate n window_size stride name =
      Feature.Return mfcc ∧
    Feature.MFCC_init R None sample_rate n window_size stride name = Feature.Return mfcc ∧
    ∀ signal,
      Feature.MelSpectrogram_call R mel signal =
        match Feature.librosa_melspectrogram R signal sample_rate n n_fft hop_length with
        | Feature.Return m => Feature.librosa_amplitude_to_db R m
        | Feature.Throw e => Feature.Throw e
        end ∧
      Feature.MFCC_call R mfcc signal =
        Feature.librosa_mfcc R signal sample_rate n n_fft hop_length.
Proof.
  intros Hname Hn Hh.
  unfold Feature.MelSpectrogram_init, Feature.MFCC_init.
  rewrite Hn, Hh, Hname. cbv zeta.
  change ("librosa" =? "torchaudio")%string with false. cbv iota.
  eexists _, _. split_and!; try reflexivity.
  intros signal. split; reflexivity.
Qed.

End FeatureClasses.

(** * Further runs on the small instance *)

Lemma toy_sample_not_lt_0 : ¬ (py_random toy_world (drawn toy_world) < 0)%Q.
Proof. apply Qle_not_lt. discriminate. Qed.

Lemma Q0_not_pos : ¬ (0 < 0)%Q.
Proof. apply Qlt_irrefl. Qed.

(** One step on a column of two tokens. *)
Lemma forward_step_output_shape_witness :
  ∃ so hid a w',
    Speller.forward_step (toy_layers 2 3) (Speller.train false (toy_object "dot"))
      (Tensor [2; 1]%nat [1; 1]) None (toy_encoder_outputs 2) None toy_world =
      (Ok (so, Some hid, Some a), w') ∧
    shape so = [2; 3]%nat ∧
    steps w' = S (steps toy_world) ∧
    py_random w' = py_random toy_world ∧ drawn w' = drawn toy_world ∧
    lm_training w' = lm_training toy_world.
Proof.
  apply (forward_step_output_shape toy_constructors (toy_layers 2 3) 2 3
           toy_constructors_ok (toy_layers_shapes 2 3) toy_hd_pos
           5 1 2 "dot" 4 2 "lstm" (3 # 10) "cpu" (toy_object "dot")
           (toy_init "dot" (or_intror eq_refl))
           false (Tensor [2; 1]%nat [1; 1]) None (toy_encoder_outputs 2) None 2 1 toy_world).
  - reflexivity.
  - lia.
  - lia.
Defined.

(** One step on two utterances without any token. *)
Lemma forward_step_empty_time_axis_witness :
  ∃ w',
    Speller.forward_step (toy_layers 2 3) (Speller.train false (toy_object "dot"))
      (Tensor [2; 0]%nat []) None (toy_encoder_outputs 2) None toy_world =
      (Raise (RuntimeError "shape is invalid or the unspecified dimension is ambiguous"), w') ∧
    steps w' = S (steps toy_world).
Proof.
  apply (forward_step_empty_time_axis toy_constructors (toy_layers 2 3) 2 3
           toy_constructors_ok (toy_layers_shapes 2 3) toy_hd_pos
           5 1 2 "dot" 4 2 "lstm" (3 # 10) "cpu" (toy_object "dot")
           (toy_init "dot" (or_intror eq_refl))
           false (Tensor [2; 0]%nat []) None (toy_encoder_outputs 2) None 2 toy_world).
  - reflexivity.
  - lia.
Defined.

(** Targets [eos, eos] for one utterance, under either attention. *)
Lemma teacher_forced_only_eos_witness :
  Speller.forward (toy_layers 2 3) (Speller.train true (toy_object "loc"))
    (Some (Tensor [1; 2]%nat [2; 2])) (toy_encoder_outputs 1) 1%Q None toy_world =
    (Ok ([], initial_ret_dict true), after_draw (after_validation None toy_world)) ∧
  ∃ w',
    Speller.forward (toy_layers 2 3) (Speller.train true (toy_object "dot"))
      (Some (Tensor [1; 2]%nat [2; 2])) (toy_encoder_outputs 1) 1%Q None toy_world =
      (Raise (RuntimeError "shape is invalid or the unspecified dimension is ambiguous"), w') ∧
    steps w' = S (steps toy_world).
Proof.
  split.
  - destruct (teacher_forced_only_eos toy_constructors (toy_layers 2 3) 2 3
                toy_constructors_ok (toy_layers_shapes 2 3) toy_hd_pos
                5 1 2 "loc" 4 2 "lstm" (3 # 10) "cpu" (toy_object "loc")
                (toy_init "loc" (or_introl eq_refl))
                true (Tensor [1; 2]%nat [2; 2]) (toy_encoder_outputs 1) 1%Q None 1 2 toy_world)
      as [Hloc _].
    + reflexivity.
    + reflexivity.
    + lia.
    + reflexivity.
    + repeat constructor.
    + exact (Hloc eq_refl).
  - destruct (teacher_forced_only_eos toy_constructors (toy_layers 2 3) 2 3
                toy_constructors_ok (toy_layers_shapes 2 3) toy_hd_pos
                5 1 2 "dot" 4 2 "lstm" (3 # 10) "cpu" (toy_object "dot")
                (toy_init "dot" (or_intror eq_refl))
                true (Tensor [1; 2]%nat [2; 2]) (toy_encoder_outputs 1) 1%Q None 1 2 toy_world)
      as [_ Hdot].
    + reflexivity.
    + reflexivity.
    + lia.
    + reflexivity.
    + repeat constructor.
    + exact (Hdot eq_refl).
Defined.

(** Targets [sos, 0, eos] and teacher-forcing ratio 0: two steps from the
    first column. *)
Lemma free_running_from_targets_witness :
  ∃ seed outs rd nexts w',
    time_slice 0 (Tensor [1; 3]%nat [1; 0; 2]) = Ok seed ∧
    Speller.forward (toy_layers 2 3) (Speller.train false (toy_object "dot"))
      (Some (Tensor [1; 3]%nat [1; 0; 2])) (toy_encoder_outputs 1) 0%Q None toy_world =
      (Ok (outs, rd), w') ∧
    length outs = (3 - 1)%nat ∧
    Forall (fun d => shape d = [1; 3]%nat) outs ∧
    greedy_tokens (argmax (toy_layers 2 3)) outs nexts ∧
    (false = false →
     rd !! Speller.KEY_SEQUENCE_SYMBOL = Some (map DSym (removelast (seed :: nexts)))) ∧
    steps w' = (steps toy_world + (3 - 1))%nat.
Proof.
  apply (free_running_from_targets toy_constructors (toy_layers 2 3) 2 3
           toy_constructors_ok (toy_layers_shapes 2 3) toy_hd_pos
           5 1 2 "dot" 4 2 "lstm" (3 # 10) "cpu" (toy_object "dot")
           (toy_init "dot" (or_intror eq_refl))
           false (Tensor [1; 3]%nat [1; 0; 2]) (toy_encoder_outputs 1) 0%Q None 1 3
           toy_world).
  - reflexivity.
  - lia.
  - reflexivity.
  - lia.
  - lia.
  - exact toy_sample_not_lt_0.
  - right. reflexivity.
Defined.

(** Inference on two utterances. *)
Lemma inference_records_fed_tokens_witness :
  ∃ outs rd nexts la w',
    Speller.forward (toy_layers 2 3) (Speller.train false (toy_object "dot")) None
      (toy_encoder_outputs 2) 0%Q None toy_world = (Ok (outs, rd), w') ∧
    length outs = Z.to_nat 5 ∧
    Forall (fun d => shape d = [2; 3]%nat) outs ∧
    greedy_tokens (argmax (toy_layers 2 3)) outs nexts ∧
    rd !! Speller.KEY_ATTENTION_SCORE = Some la ∧ length la = length outs ∧
    rd !! Speller.KEY_SEQUENCE_SYMBOL =
      Some (map DSym (removelast (Tensor [2; 1]%nat (replicate 2 1) :: nexts))).
Proof.
  apply (inference_records_fed_tokens toy_constructors (toy_layers 2 3) 2 3
           toy_constructors_ok (toy_layers_shapes 2 3) toy_hd_pos
           5 1 2 "dot" 4 2 "lstm" (3 # 10) "cpu" (toy_object "dot")
           (toy_init "dot" (or_intror eq_refl))
           (toy_encoder_outputs 2) 0%Q 2 toy_world).
  - reflexivity.
  - lia.
  - lia.
  - exact Q0_not_pos.
  - exact toy_sample_not_lt_0.
Defined.

(** The recorded symbols of that run: the start token, then the token
    chosen at each of the first four steps. *)
Example inference_symbols_run :
  match fst (toy_forward "dot" false None 2 0%Q None) with
  | Ok (_, rd) => rd !! Speller.KEY_SEQUENCE_SYMBOL
  | Raise _ => None
  end =
    Some [DSym (Tensor [2; 1]%nat [1; 1]); DSym (Tensor [2; 1]%nat [0; 0]);
          DSym (Tensor [2; 1]%nat [0; 0]); DSym (Tensor [2; 1]%nat [0; 0]);
          DSym (Tensor [2; 1]%nat [0; 0])].
Proof. vm_compute. reflexivity. Qed.

(** A free-running call in training mode with a language model attached. *)
Lemma training_free_running_no_diagnostics_witness :
  ∃ outs w',
    Speller.forward (toy_layers 2 3) (Speller.train true (toy_object "loc")) None
      (toy_encoder_outputs 2) 0%Q (Some (toy_lm 3)) toy_world = (Ok (outs, ∅), w') ∧
    length outs = Z.to_nat 5 ∧
    Forall (fun d => shape d = [2; 3]%nat) outs ∧
    steps w' = (steps toy_world + Z.to_nat 5)%nat.
Proof.
  apply (training_free_running_no_diagnostics toy_constructors (toy_layers 2 3) 2 3
           toy_constructors_ok (toy_layers_shapes 2 3) toy_hd_pos
           5 1 2 "loc" 4 2 "lstm" (3 # 10) "cpu" (toy_object "loc")
           (toy_init "loc" (or_introl eq_refl))
           (toy_encoder_outputs 2) 0%Q (Some (toy_lm 3)) 2 toy_world).
  - reflexivity.
  - lia.
  - lia.
  - exact Q0_not_pos.
  - exact toy_sample_not_lt_0.
Defined.

(** Two language models with vocabularies of different sizes, in
    evaluation mode with teacher forcing drawn. *)
Lemma language_model_not_consulted_witness :
  Speller.forward (toy_layers 2 3) (Speller.train false (toy_object "loc"))
    (Some (Tensor [1; 3]%nat [1; 0; 2])) (toy_encoder_outputs 1) 1%Q (Some (toy_lm 3))
    toy_world =
  Speller.forward (toy_layers 2 3) (Speller.train false (toy_object "loc"))
    (Some (Tensor [1; 3]%nat [1; 0; 2])) (toy_encoder_outputs 1) 1%Q (Some (toy_lm 7))
    toy_world.
Proof.
  apply (language_model_not_consulted (toy_layers 2 3) (toy_object "loc") false
           (Some (Tensor [1; 3]%nat [1; 0; 2])) (toy_encoder_outputs 1) 1%Q
           (toy_lm 3) (toy_lm 7) toy_world).
  right. reflexivity.
Defined.

(** The language model of the small world starts in training mode. *)
Lemma language_model_left_in_eval_mode_witness :
  lm_training toy_world = true ∧
  lm_training (snd (Speller.forward (toy_layers 2 3) (Speller.train true (toy_object "dot"))
                      None (toy_encoder_outputs 2) 0%Q (Some (toy_lm 3)) toy_world)) = false ∧
  lm_training (snd (Speller.forward (toy_layers 2 3) (Speller.train true (toy_object "dot"))
                      None (toy_encoder_outputs 2) 0%Q None toy_world)) =
    lm_training toy_world.
Proof.
  split; [reflexivity |].
  apply (language_model_left_in_eval_mode toy_constructors (toy_layers 2 3) 2 3
           toy_constructors_ok 5 1 2 "dot" 4 2 "lstm" (3 # 10) "cpu" (toy_object "dot")
           (toy_init "dot" (or_intror eq_refl))
           true None (toy_encoder_outputs 2) 0%Q (toy_lm 3) 2 toy_world).
  - reflexivity.
  - exact Q0_not_pos.
Defined.

(** Targets [sos, 0, 0, eos] for one utterance, content-based attention:
    three distributions from one invocation. *)
Lemma teacher_forced_step_invocations_witness :
  ∃ outs w',
    Speller.forward (toy_layers 2 3) (Speller.train true (toy_object "dot"))
      (Some (Tensor [1; 4]%nat [1; 0; 0; 2])) (toy_encoder_outputs 1) 1%Q None toy_world =
      (Ok (outs, initial_ret_dict true), w') ∧
    length outs = (3 / 1)%nat ∧
    Forall (fun d => shape d = [1; 3]%nat) outs ∧
    steps w' = (steps toy_world + 1)%nat.
Proof.
  apply (teacher_forced_step_invocations toy_constructors (toy_layers 2 3) 2 3
           toy_constructors_ok (toy_layers_shapes 2 3) toy_hd_pos
           5 1 2 "dot" 4 2 "lstm" (3 # 10) "cpu" (toy_object "dot")
           (toy_init "dot" (or_intror eq_refl))
           true (Tensor [1; 4]%nat [1; 0; 0; 2]) (toy_encoder_outputs 1) 1%Q None 1 4
           toy_world).
  - repeat constructor; simpl; lia.
  - reflexivity.
  - reflexivity.
  - reflexivity.
  - lia.
  - reflexivity.
  - right. vm_compute. lia.
Defined.

Lemma content_based_step_ignores_alignment_witness :
  Speller.forward_step (toy_layers 2 3) (Speller.train false (toy_object "dot"))
    (Tensor [2; 1]%nat [1; 1]) None (toy_encoder_outputs 2) None toy_world =
  Speller.forward_step (toy_layers 2 3) (Speller.train false (toy_object "dot"))
    (Tensor [2; 1]%nat [1; 1]) None (toy_encoder_outputs 2) (Some (zeros [2; 1; 4]%nat))
    toy_world.
Proof.
  apply (content_based_step_ignores_alignment toy_constructors (toy_layers 2 3) 2 3
           toy_constructors_ok 5 1 2 "dot" 4 2 "lstm" (3 # 10) "cpu" (toy_object "dot")
           (toy_init "dot" (or_intror eq_refl))
           false (Tensor [2; 1]%nat [1; 1]) None (toy_encoder_outputs 2) None
           (Some (zeros [2; 1; 4]%nat)) toy_world).
  reflexivity.
Defined.

Lemma free_running_targets_without_columns_witness :
  Speller.validate_args (Speller.train false (toy_object "dot")) (Some (Tensor [2; 0]%nat []))
    (toy_encoder_outputs 2) 0%Q None toy_world =
    (Ok (Tensor [2; 0]%nat [], 2%nat, -1), after_validation None toy_world) ∧
  Speller.forward (toy_layers 2 3) (Speller.train false (toy_object "dot"))
    (Some (Tensor [2; 0]%nat [])) (toy_encoder_outputs 2) 0%Q None toy_world =
    (Raise (IndexError "index is out of bounds for dimension 1"),
     after_draw (after_validation None toy_world)).
Proof.
  apply (free_running_targets_without_columns toy_constructors (toy_layers 2 3) 2 3
           toy_constructors_ok 5 1 2 "dot" 4 2 "lstm" (3 # 10) "cpu" (toy_object "dot")
           (toy_init "dot" (or_intror eq_refl))
           false (Tensor [2; 0]%nat []) (toy_encoder_outputs 2) 0%Q None 2 toy_world).
  - reflexivity.
  - reflexivity.
  - exact toy_sample_not_lt_0.
Defined.

Lemma init_builds_selected_attention_witness :
  (∃ self,
     Speller.__init__ toy_constructors 3 5 2 1 2 "loc" 4 2 "lstm" (3 # 10) "cpu" = Ok self ∧
     self !! "attention" = Some (PModule LocationAwareAttention) ∧
     self !! "attn_mechanism" = Some (PStr "loc")) ∧
  (∃ self,
     Speller.__init__ toy_constructors 3 5 2 1 2 "dot" 4 2 "lstm" (3 # 10) "cpu" = Ok self ∧
     self !! "attention" = Some (PModule MultiHeadAttention) ∧
     self !! "attn_mechanism" = Some (PStr "dot")).
Proof.
  split.
  - eapply (init_builds_selected_attention toy_constructors 3 5 2 1 2 "loc" 4 2 "lstm"
              (3 # 10) "cpu"); reflexivity.
  - eapply (init_builds_selected_attention toy_constructors 3 5 2 1 2 "dot" 4 2 "lstm"
              (3 # 10) "cpu"); reflexivity.
Defined.

(** Two utterances of three tokens, content-based attention, evaluation
    mode, inside [forward]. *)
Lemma forward_trace_is_stepwise_trace_witness :
  ∃ stripped outs w' hs as_ ws,
    Speller.strip_eos 2 2 (Tensor [2; 3]%nat [1; 0; 0; 1; 0; 0]) = Ok stripped ∧
    Speller.forward (toy_layers 2 3) (Speller.train false (toy_object "dot"))
      (Some (Tensor [2; 3]%nat [1; 0; 0; 1; 0; 0])) (toy_encoder_outputs 2) 1%Q None
      toy_world = (Ok (outs, initial_ret_dict false), w') ∧
    Speller.teacher_forced_stepwise (toy_layers 2 3) (Speller.train false (toy_object "dot"))
      stripped (toy_encoder_outputs 2) (None, None, [])
      (after_draw (after_validation None toy_world)) = (Ok (hs, as_, outs), ws) ∧
    length outs = (6 / 2)%nat.
Proof.
  apply (forward_trace_is_stepwise_trace toy_constructors (toy_layers 2 3) 2 3
           toy_constructors_ok (toy_layers_shapes 2 3) toy_hd_pos
           5 1 2 4 2 "lstm" (3 # 10) "cpu" (toy_object "dot")
           (toy_init "dot" (or_intror eq_refl))
           false _ _ _ _ (toy_layers_positionwise false 2 3)
           (Tensor [2; 3]%nat [1; 0; 0; 1; 0; 0]) (toy_encoder_outputs 2) 1%Q None 2 3
           toy_world).
  - repeat constructor; simpl; lia.
  - reflexivity.
  - reflexivity.
  - reflexivity.
  - lia.
  - reflexivity.
  - vm_compute. lia.
Defined.

(** The model called with features and lengths only. *)
Lemma model_call_with_defaults_raises_witness :
  ListenAttendSpell.forward_defaults
    (ListenAttendSpell.__init__ (toy_listener 2)
       (Build_Decoder (toy_layers 2 3) (Speller.train false (toy_object "dot"))))
    tt tt toy_world =
    (Raise (ValueError "Teacher forcing has to be disabled (set 0) when no inputs is provided."),
     mkWorld (py_random toy_world) (drawn toy_world) tt (steps toy_world)
       (lm_training toy_world)).
Proof.
  apply (model_call_with_defaults_raises toy_constructors (toy_layers 2 3) 2 3
           toy_constructors_ok 5 1 2 "dot" 4 2 "lstm" (3 # 10) "cpu" (toy_object "dot")
           (toy_init "dot" (or_intror eq_refl))
           (toy_listener 2) false tt tt (toy_encoder_outputs 2) 2 tt toy_world).
  - reflexivity.
  - reflexivity.
Defined.

Lemma model_inference_trace_witness :
  ∃ outs rd la w',
    ListenAttendSpell.forward
      (ListenAttendSpell.__init__ (toy_listener 2)
         (Build_Decoder (toy_layers 2 3) (Speller.train false (toy_object "dot"))))
      tt tt None 0%Q None toy_world = (Ok (outs, rd), w') ∧
    length outs = Z.to_nat 5 ∧
    Forall (fun d => shape d = [2; 3]%nat) outs ∧
    rd !! Speller.KEY_ATTENTION_SCORE = Some la ∧ length la = length outs ∧
    steps w' = (steps toy_world + Z.to_nat 5)%nat ∧
    drawn w' = S (drawn toy_world).
Proof.
  apply (model_inference_trace toy_constructors (toy_layers 2 3) 2 3
           toy_constructors_ok (toy_layers_shapes 2 3) toy_hd_pos
           5 1 2 "dot" 4 2 "lstm" (3 # 10) "cpu" (toy_object "dot")
           (toy_init "dot" (or_intror eq_refl))
           (toy_listener 2) tt tt (toy_encoder_outputs 2) 2 tt 0%Q toy_world).
  - reflexivity.
  - reflexivity.
  - lia.
  - lia.
  - exact Q0_not_pos.
  - exact toy_sample_not_lt_0.
Defined.

(** The library name ["Kaldi"] with the default rates. *)
Lemma unsupported_library_raises_at_call_witness :
  ∃ mel mfcc,
    Feature.MelSpectrogram_init toy_runtime (Some toy_torchaudio) 16000 80 20 10 "Kaldi" =
      Feature.Return mel ∧
    Feature.MFCC_init toy_runtime (Some toy_torchaudio) 16000 80 20 10 "Kaldi" =
      Feature.Return mfcc ∧
    ∀ signal,
      Feature.MelSpectrogram_call toy_runtime mel signal =
        Feature.Throw (Feature.Exn (ValueError ("Unsupported library : " ++
                                                Feature.str_lower toy_runtime "Kaldi"))) ∧
      Feature.MFCC_call toy_runtime mfcc signal =
        Feature.Throw (Feature.Exn (ValueError ("Unsupported library : " ++
                                                Feature.str_lower toy_runtime "Kaldi"))).
Proof.
  apply (unsupported_library_raises_at_call toy_runtime (Some toy_torchaudio)
           16000 80 20 10 "Kaldi" 320 160).
  - discriminate.
  - discriminate.
  - reflexivity.
  - reflexivity.
Defined.

Example unsupported_library_message :
  ("Unsupported library : " ++ Feature.str_lower toy_runtime "Kaldi")%string =
    "Unsupported library : kaldi".
Proof. reflexivity. Qed.

(** The library name ["TorchAudio"] on a platform called ["Darwin"],
    where the package happens to be installed. *)
Lemma torchaudio_unbound_off_linux_witness :
  ∃ torchaudio,
    Feature.import_torchaudio "Darwin" (Feature.Return toy_torchaudio) =
      Feature.Return torchaudio ∧
    Feature.MelSpectrogram_init toy_runtime torchaudio 16000 80 20 10 "TorchAudio" =
      Feature.Throw (Feature.NameError "torchaudio") ∧
    Feature.MFCC_init toy_runtime torchaudio 16000 40 20 10 "TorchAudio" =
      Feature.Throw (Feature.NameError "torchaudio").
Proof.
  destruct (torchaudio_unbound_off_linux toy_runtime "Darwin" (Feature.Return toy_torchaudio)
              16000 80 20 10 "TorchAudio" 320 160) as (ta & Hi & Hmel & _).
  - discriminate.
  - reflexivity.
  - reflexivity.
  - reflexivity.
  - destruct (torchaudio_unbound_off_linux toy_runtime "Darwin"
                (Feature.Return toy_torchaudio) 16000 40 20 10 "TorchAudio" 320 160)
      as (ta' & Hi' & _ & Hmfcc).
    + discriminate.
    + reflexivity.
    + reflexivity.
    + reflexivity.
    + exists ta. split_and!; [exact Hi | exact Hmel |].
      rewrite Hi in Hi'. injection Hi' as <-. exact Hmfcc.
Defined.

(** The library name ["LibROSA"] with the default rates. *)
Lemma librosa_independent_of_torchaudio_witness :
  ∃ mel mfcc,
    Feature.MelSpectrogram_init toy_runtime (Some toy_torchaudio) 16000 80 20 10 "LibROSA" =
      Feature.Return mel ∧
    Feature.MelSpectrogram_init toy_runtime None 16000 80 20 10 "LibROSA" =
      Feature.Return mel ∧
    Feature.MFCC_init toy_runtime (Some toy_torchaudio) 16000 80 20 10 "LibROSA" =
      Feature.Return mfcc ∧
    Feature.MFCC_init toy_runtime None 16000 80 20 10 "LibROSA" = Feature.Return mfcc ∧
    ∀ signal,
      Feature.MelSpectrogram_call toy_runtime mel signal =
        match Feature.librosa_melspectrogram toy_runtime signal 16000 80 320 160 with
        | Feature.Return m => Feature.librosa_amplitude_to_db toy_runtime m
        | Feature.Throw e => Feature.Throw e
        end ∧
      Feature.MFCC_call toy_runtime mfcc signal =
        Feature.librosa_mfcc toy_runtime signal 16000 80 320 160.
Proof.
  apply (librosa_independent_of_torchaudio toy_runtime (Some toy_torchaudio)
           16000 80 20 10 "LibROSA" 320 160).
  - reflexivity.
  - reflexivity.
  - reflexivity.
Defined.

(** The fusion on a decoder to which the missing attribute has been added
    by hand, for two utterances, three classes and a history of one
    token. *)
Lemma fusion_is_weighted_sum_witness :
  ∃ y top prev',
    select1 3 (-1) (lm_forward_step (toy_lm 3) (Tensor [2; 1]%nat [1; 1])) = Ok y ∧
    shape y = [2; 3]%nat ∧
    topk1_indices (argmax (toy_layers 2 3))
      (Tensor [2; 3]%nat
         (zip_with (fun x z => x * (9 # 10) + z * (1 # 10))%Q (flat (zeros [2; 3]%nat))
            (flat y))) = Ok top ∧
    cat1 (Tensor [2; 1]%nat [1; 1]) top = Ok prev' ∧
    shape prev' = [2; 1 + 1]%nat ∧
    Speller.fuse (toy_layers 2 3)
      (<["acoustic_weight" := PFloat (9 # 10)]> (Speller.train false (toy_object "dot")))
      (toy_lm 3) (Some (Tensor [2; 1]%nat [1; 1])) (zeros [2; 3]%nat) toy_world =
      (Ok (Tensor [2; 3]%nat
             (zip_with (fun x z => x * (9 # 10) + z * (1 # 10))%Q (flat (zeros [2; 3]%nat))
                (flat y)),
           Some prev'), toy_world).
Proof.
  apply (fusion_is_weighted_sum (toy_layers 2 3)
           (<["acoustic_weight" := PFloat (9 # 10)]> (Speller.train false (toy_object "dot")))
           (toy_lm 3) (Tensor [2; 1]%nat [1; 1]) (zeros [2; 3]%nat) 2 1 3 (9 # 10) (1 # 10)
           toy_world).
  - reflexivity.
  - reflexivity.
  - reflexivity.
  - lia.
  - reflexivity.
  - reflexivity.
  - reflexivity.
  - reflexivity.
  - lia.
Defined.

(** Targets given as a vector of three tokens. *)
Lemma targets_without_time_axis_witness :
  Speller.validate_args (toy_object "dot") (Some (Tensor [3]%nat [1; 0; 2]))
    (toy_encoder_outputs 1) 1%Q (Some (toy_lm 3)) toy_world =
    (Raise (IndexError "Dimension out of range"), toy_world) ∧
  Speller.forward (toy_layers 2 3) (Speller.train true (toy_object "dot"))
    (Some (Tensor [3]%nat [1; 0; 2])) (toy_encoder_outputs 1) 1%Q (Some (toy_lm 3))
    toy_world = (Raise (IndexError "Dimension out of range"), toy_world).
Proof.
  apply (targets_without_time_axis (toy_layers 2 3) (toy_object "dot") true
           (Tensor [3]%nat [1; 0; 2]) (toy_encoder_outputs 1) 1%Q (Some (toy_lm 3)) 1
           toy_world).
  - unfold ndim. simpl. lia.
  - reflexivity.
Defined.
